(** * AgentBoard Pro: ticket/epic model, drag placement and extraction pipeline

  A shallow embedding of the board logic of the repository:
  - [KanbanBoard] (drag-and-drop status resolution, role actions),
  - [TicketCreationModal] (the two-pass extraction pipeline),
  - [Index] (the page that owns the ticket and epic collections),
  together with the JavaScript string and regular-expression operations
  these functions rely on.

  Strings are sequences of 8-bit code units (the Latin-1 range of the
  UTF-16 code units of a JavaScript string). *)

From Stdlib Require Import String Ascii List NArith ZArith Bool Lia.
From stdpp Require Import base list strings pretty.

Import ListNotations.
Local Open Scope string_scope.
Local Open Scope list_scope.

(** ** JavaScript string operations *)

Module Js.

(** [WhiteSpace] and [LineTerminator] code units below 256: TAB, LF, VT,
    FF, CR, SPACE and NBSP.  This is the class of [\s] and of [trim]. *)
Definition isWhiteSpace (c : ascii) : bool :=
  match N_of_ascii c with
  | 9 | 10 | 11 | 12 | 13 | 32 | 160 => true
  | _ => false
  end%N.

(** Line terminators below 256 (LF and CR): what [.] refuses without the
    [s] flag. *)
Definition isLineTerminator (c : ascii) : bool :=
  match N_of_ascii c with
  | 10 | 13 => true
  | _ => false
  end%N.

(** The class of [\d]. *)
Definition isDigit (c : ascii) : bool :=
  let n := N_of_ascii c in ((48 <=? n) && (n <=? 57))%N.

Definition isEmpty (s : string) : bool :=
  match s with
  | "" => true
  | String _ _ => false
  end.

(** [String.prototype.trimStart] *)
Fixpoint trimStart (s : string) : string :=
  match s with
  | "" => ""
  | String c s' => if isWhiteSpace c then trimStart s' else s
  end.

(** [String.prototype.trimEnd] *)
Fixpoint trimEnd (s : string) : string :=
  match s with
  | "" => ""
  | String c s' =>
      let t := trimEnd s' in
      if isWhiteSpace c && isEmpty t then "" else String c t
  end.

(** [String.prototype.trim] *)
Definition trim (s : string) : string := trimEnd (trimStart s).

(** [s.includes(sub)] *)
Fixpoint includes (s sub : string) : bool :=
  String.prefix sub s ||
  match s with
  | "" => false
  | String _ s' => includes s' sub
  end.

(** [s.split(sep)] for a one-character separator. *)
Fixpoint split (sep : ascii) (s : string) : list string :=
  match s with
  | "" => [""]
  | String c s' =>
      if Ascii.eqb c sep then "" :: split sep s'
      else match split sep s' with
           | h :: t => String c h :: t
           | [] => [String c ""]
           end
  end.

(** [arr.join(sep)] *)
Fixpoint join (sep : string) (l : list string) : string :=
  match l with
  | [] => ""
  | [x] => x
  | x :: rest => x +:+ sep +:+ join sep rest
  end.

(** Truthiness of a string value. *)
Definition truthy (s : string) : bool := negb (isEmpty s).

(** The Number values [parseInt] returns: an integer, [-0], an infinity
    or [NaN]. *)
Inductive number : Type :=
| Finite (z : Z)
| NegativeZero
| PositiveInfinity
| NegativeInfinity
| NaN.

(** Truthiness of a number value. *)
Definition truthyNumber (x : number) : bool :=
  match x with
  | Finite 0%Z | NegativeZero | NaN => false
  | _ => true
  end.

(** The Number value for a non-negative integer: the integer itself
    below 2^53, otherwise the nearest double, a tie going to the even
    significand; [None] is the overflow to [Infinity]. *)
Definition nearestDouble (n : N) : option N :=
  (if n <? 2 ^ 53 then Some n
   else
     let e := N.log2 n - 52 in
     let q := n / 2 ^ e in
     let r := n mod 2 ^ e in
     let half := 2 ^ (e - 1) in
     let q' := if (half <? r) || ((r =? half) && N.odd q) then q + 1 else q in
     let v := q' * 2 ^ e in
     if v <? 2 ^ 1024 then Some v else None)%N.

(** The value of a code unit as a digit of the radix. *)
Definition digitValue (radix : N) (c : ascii) : option N :=
  let n := N_of_ascii c in
  let value :=
    (if (48 <=? n) && (n <=? 57) then Some (n - 48)
     else if (97 <=? n) && (n <=? 122) then Some (n - 87)
     else if (65 <=? n) && (n <=? 90) then Some (n - 55)
     else None)%N in
  match value with
  | Some d => if (d <? radix)%N then Some d else None
  | None => None
  end.

(** The integer written by the longest run of digits at the front of
    [s], continuing from [acc]; [None]: no digit so far. *)
Fixpoint digitsFrom (radix : N) (acc : option N) (s : string) : option N :=
  match s with
  | "" => acc
  | String c s' =>
      match digitValue radix c with
      | Some d =>
          digitsFrom radix
            (Some (from_option (fun x => x) 0 acc * radix + d)%N) s'
      | None => acc
      end
  end.

(** [parseInt(s)] without a radix: leading white space is skipped, a
    sign and a [0x] or [0X] prefix are read, then the longest run of
    digits; no digit gives [NaN].  The integer read is rounded to the
    nearest double.  (Past twenty significant decimal digits the
    language allows an implementation to read the further digits as
    zeros; this is the exact reading.) *)
Definition parseInt (s : string) : number :=
  let s1 := trimStart s in
  let negative :=
    match s1 with
    | String "-" _ => true
    | _ => false
    end in
  let s2 :=
    match s1 with
    | String "-" rest | String "+" rest => rest
    | _ => s1
    end in
  let hex :=
    match s2 with
    | String "0" (String "x" _) | String "0" (String "X" _) => true
    | _ => false
    end in
  let s3 :=
    match s2 with
    | String "0" (String "x" rest) | String "0" (String "X" rest) => rest
    | _ => s2
    end in
  match digitsFrom (if hex then 16 else 10)%N None s3 with
  | None => NaN
  | Some n =>
      match nearestDouble n with
      | None => if negative then NegativeInfinity else PositiveInfinity
      | Some 0%N => if negative then NegativeZero else Finite 0
      | Some v => Finite (if negative then - Z.of_N v else Z.of_N v)
      end
  end.

(** The string a template literal prints for a non-negative integer. *)
Definition numberToString (n : N) : string := pretty n.

(** [take n s]: the first [n] code units of [s]. *)
Fixpoint take (n : nat) (s : string) : string :=
  match n, s with
  | S n', String c s' => String c (take n' s')
  | _, _ => ""
  end.

(** Every code unit of [s] satisfies [p]. *)
Fixpoint allChars (p : ascii -> bool) (s : string) : bool :=
  match s with
  | "" => true
  | String c s' => p c && allChars p s'
  end.

End Js.

(** ** Backtracking regular expressions

  The fragment of ECMAScript regular expressions the source uses:
  literals, character classes, [$], sequence, alternation, greedy and
  lazy repetition, capturing groups.  Matching is the backtracking
  search of the language: alternatives in priority order, a greedy
  repetition tries one more iteration first, a lazy one tries to stop
  first, and an iteration that consumes nothing is refused. *)

Module Regex.

Inductive regex : Type :=
| Lit (c : ascii)
| Class (p : ascii -> bool)
| EndOfInput
| Empty
| Seq (r1 r2 : regex)
| Alt (r1 r2 : regex)
| Star (greedy : bool) (r : regex)
| Group (n : nat) (r : regex).

(** Captures: group number and captured text, latest first. *)
Definition captures := list (nat * string).

Fixpoint capture (n : nat) (caps : captures) : option string :=
  match caps with
  | [] => None
  | (m, s) :: rest => if Nat.eqb m n then Some s else capture n rest
  end.

Section Matcher.
Context {R : Type}.

(** The iterations of a repetition whose body is matched by [body].
    [fuel] bounds the number of iterations; every iteration consumes at
    least one code unit, so the length of the input is enough. *)
Fixpoint iterate (body : string -> captures ->
                        (string -> captures -> option R) -> option R)
    (greedy : bool) (k : string -> captures -> option R)
    (fuel : nat) (s : string) (caps : captures) {struct fuel} : option R :=
  match fuel with
  | O => k s caps
  | S fuel' =>
      let again (_ : unit) :=
        body s caps (fun s' caps' =>
          if Nat.ltb (String.length s') (String.length s)
          then iterate body greedy k fuel' s' caps'
          else None) in
      if greedy then
        match again tt with
        | Some x => Some x
        | None => k s caps
        end
      else
        match k s caps with
        | Some x => Some x
        | None => again tt
        end
  end.

(** [run r s caps k]: match [r] at the front of [s], then continue with
    [k] on what is left; [None] makes the matcher backtrack. *)
Fixpoint run (r : regex) (s : string) (caps : captures)
    (k : string -> captures -> option R) {struct r} : option R :=
  match r with
  | Lit c =>
      match s with
      | String c' s' => if Ascii.eqb c c' then k s' caps else None
      | "" => None
      end
  | Class p =>
      match s with
      | String c' s' => if p c' then k s' caps else None
      | "" => None
      end
  | EndOfInput => if Js.isEmpty s then k s caps else None
  | Empty => k s caps
  | Seq r1 r2 => run r1 s caps (fun s' caps' => run r2 s' caps' k)
  | Alt r1 r2 =>
      match run r1 s caps k with
      | Some x => Some x
      | None => run r2 s caps k
      end
  | Star greedy r' => iterate (run r') greedy k (String.length s) s caps
  | Group n r' =>
      run r' s caps (fun s' caps' =>
        k s' ((n, Js.take (String.length s - String.length s') s) :: caps'))
  end.
End Matcher.

(** One successful match: the captures and the input left after it. *)
Record result := { groups : captures; rest : string }.

Definition matchAt (r : regex) (s : string) : option result :=
  run r s [] (fun s' caps => Some {| groups := caps; rest := s' |}).

(** Leftmost match: try every start position in turn. *)
Fixpoint search (r : regex) (s : string) : option result :=
  match matchAt r s with
  | Some x => Some x
  | None =>
      match s with
      | "" => None
      | String _ s' => search r s'
      end
  end.

(** The [while ((m = re.exec(s)) !== null)] loop of a global regular
    expression: every match in order, each search resuming where the
    previous match ended.  A match consumes at least one code unit for
    the loop to go on. *)
Fixpoint execAll (fuel : nat) (r : regex) (s : string) : list captures :=
  match fuel with
  | O => []
  | S fuel' =>
      match search r s with
      | None => []
      | Some m =>
          groups m ::
            (if Nat.ltb (String.length (rest m)) (String.length s)
             then execAll fuel' r (rest m)
             else [])
      end
  end.

(** What a matcher hands to its continuation is never longer than its
    input. *)
Definition Shrinks {R : Type}
    (m : string -> captures -> (string -> captures -> option R) -> option R)
    : Prop :=
  forall s caps k x,
    m s caps k = Some x ->
    exists s' caps', k s' caps' = Some x /\
                     String.length s' <= String.length s.

(** A matcher uses its continuation only through its results. *)
Definition Extensional {R : Type}
    (m : string -> captures -> (string -> captures -> option R) -> option R)
    : Prop :=
  forall s caps k1 k2,
    (forall s' caps', k1 s' caps' = k2 s' caps') ->
    m s caps k1 = m s caps k2.

(** Every match of [r] consumes input. *)
Definition Consumes (r : regex) : Prop :=
  forall s m, matchAt r s = Some m ->
    String.length (rest m) < String.length s.

(** Pattern building blocks. *)
Fixpoint lits (s : string) : regex :=
  match s with
  | "" => Empty
  | String c s' => Seq (Lit c) (lits s')
  end.

Definition plus (greedy : bool) (r : regex) : regex := Seq r (Star greedy r).
Definition space : regex := Class Js.isWhiteSpace.
Definition digit : regex := Class Js.isDigit.
Definition dot : regex := Class (fun c => negb (Js.isLineTerminator c)).
Definition dotAll : regex := Class (fun _ => true).
Definition newline : regex := Lit "010"%char.

Fixpoint seqs (l : list regex) : regex :=
  match l with
  | [] => Empty
  | [r] => r
  | r :: l' => Seq r (seqs l')
  end.

End Regex.

(** ** Entity model (KanbanBoard.tsx) *)

Inductive Role : Type := analyst | pm | dev | qa.

Inductive TicketStatus : Type :=
| backlog | in_progress | ready_for_testing | done.

Inductive Priority : Type := low | medium | high | critical.

#[global] Instance Role_eq_dec : EqDecision Role.
Proof. solve_decision. Defined.
#[global] Instance TicketStatus_eq_dec : EqDecision TicketStatus.
Proof. solve_decision. Defined.
#[global] Instance Priority_eq_dec : EqDecision Priority.
Proof. solve_decision. Defined.

(** The string each status literal stands for. *)
Definition statusString (s : TicketStatus) : string :=
  match s with
  | backlog => "backlog"
  | in_progress => "in-progress"
  | ready_for_testing => "ready-for-testing"
  | done => "done"
  end.

Definition roleString (r : Role) : string :=
  match r with
  | analyst => "analyst"
  | pm => "pm"
  | dev => "dev"
  | qa => "qa"
  end.

Module Epic.
(** [createdAt] is the clock reading (milliseconds) of [new Date()]. *)
Record t : Type := mk {
  id : string;
  title : string;
  description : string;
  createdAt : N
}.
End Epic.

Module Ticket.
Record t : Type := mk {
  id : string;
  title : string;
  description : string;
  status : TicketStatus;
  assignee : Role;
  priority : Priority;
  storyPoints : option Js.number;
  epicId : option string
}.

(** [{ ...ticket, status: s }] *)
Definition withStatus (ticket : t) (s : TicketStatus) : t :=
  mk (id ticket) (title ticket) (description ticket) s
     (assignee ticket) (priority ticket) (storyPoints ticket) (epicId ticket).

(** [{ ...ticket, assignee: r }] *)
Definition withAssignee (ticket : t) (r : Role) : t :=
  mk (id ticket) (title ticket) (description ticket) (status ticket)
     r (priority ticket) (storyPoints ticket) (epicId ticket).
End Ticket.

(** ** The Agent Service (lib/api.ts) *)

Module Api.
(** The values a request context holds. *)
#[local] Unset Elimination Schemes.
Inductive JsValue : Type :=
| JsString (s : string)
| JsArray (items : list JsValue)
| JsObject (fields : list (string * JsValue)).
#[local] Set Elimination Schemes.

Record ChatRequest : Type := {
  message : string;
  context : list (string * JsValue)
}.

Record ChatResponse : Type := {
  role : string;
  response : string;
  context_used : string;
  timestamp : string;
  workflow_suggestions : option (list string)
}.

(** What a rejected call throws: an [Error] object with its message
    ([request] throws [new Error("API Error: ...")], [fetch] a
    [TypeError]), or any other value. *)
Inductive Thrown : Type :=
| ErrorObject (msg : string)
| OtherValue.

(** The outcome of one awaited [apiService.chatWithRole(role, request)]. *)
Definition Outcome : Type := Thrown + ChatResponse.

(** A line written to the console: [console.error(label, e)] or
    [console.log(label, r)]. *)
Inductive ConsoleEntry : Type :=
| ConsoleError (label : string) (e : Thrown)
| ConsoleLog (label : string) (r : ChatResponse).

(** The service is an external collaborator: [call] is the outcome of one
    awaited [apiService.chatWithRole(role, request)], any function of
    the role and the request, and [logged] is what the service writes to
    the console during that call. *)
Record Service : Type := {
  call : Role -> ChatRequest -> Outcome;
  logged : Role -> ChatRequest -> list ConsoleEntry
}.
End Api.

Abbreviation ConsoleEntry := Api.ConsoleEntry.
Abbreviation ConsoleError := Api.ConsoleError.
Abbreviation ConsoleLog := Api.ConsoleLog.

(** A service applied to a role and a request is the outcome of the
    call. *)
Coercion Api.call : Api.Service >-> Funclass.

(** ** KanbanBoard *)

Module KanbanBoard.

Record State : Type := {
  implementingTicketId : option string;
  testingTicketId : option string;
  implementationError : option string;
  activeId : option string
}.

(** What one handler run leaves behind: the component state, the argument
    of the [onTicketsChange] call if one was made, and the console: what
    the service wrote during the call, then what the handler writes. *)
Record Effect : Type := {
  state : State;
  ticketsChange : option (list Ticket.t);
  console : list ConsoleEntry
}.

(** [tickets.find(ticket => ticket.id === id)] *)
Definition findTicket (tickets : list Ticket.t) (id : string)
    : option Ticket.t :=
  List.find (fun ticket => String.eqb (Ticket.id ticket) id) tickets.

(** [tickets.map(t => t.id === id ? { ...t, status: s } : t)] *)
Definition mapStatus (tickets : list Ticket.t) (id : string)
    (s : TicketStatus) : list Ticket.t :=
  List.map (fun ticket =>
    if String.eqb (Ticket.id ticket) id
    then Ticket.withStatus ticket s
    else ticket) tickets.

(** The id of a column's drop zone: [`column-${status}`]. *)
Definition columnId (s : TicketStatus) : string :=
  "column-" +:+ statusString s.

Record DragEndEvent : Type := {
  active : string;
  over : option string
}.

(** The [let newStatus] block of [handleDragEnd]; [None] is the
    [return] of an invalid drop target. *)
Definition resolveStatus (tickets : list Ticket.t) (overId : string)
    : option TicketStatus :=
  if Js.includes overId "backlog" then Some backlog
  else if Js.includes overId "in-progress" then Some in_progress
  else if Js.includes overId "ready-for-testing" then Some ready_for_testing
  else if Js.includes overId "done" then Some done
  else
    match findTicket tickets overId with
    | Some targetTicket => Some (Ticket.status targetTicket)
    | None => None
    end.

(** The column keywords in the order [handleDragEnd] tests them. *)
Definition columnKeywords : list (string * TicketStatus) :=
  [ ("backlog", backlog); ("in-progress", in_progress);
    ("ready-for-testing", ready_for_testing); ("done", done) ].

(** The status named by the first keyword, in that order, that the
    drop-target identifier contains. *)
Definition firstKeyword (overId : string) : option TicketStatus :=
  snd <$> List.find (fun kw => Js.includes overId (fst kw)) columnKeywords.

(** [{implementationError && (<Alert>...{implementationError}...)}]:
    the text of the error banner, [None] when no banner is rendered. *)
Definition errorBanner (st : State) : option string :=
  match implementationError st with
  | Some msg => if Js.truthy msg then Some msg else None
  | None => None
  end.

Definition setActiveId (st : State) (a : option string) : State :=
  {| implementingTicketId := implementingTicketId st;
     testingTicketId := testingTicketId st;
     implementationError := implementationError st;
     activeId := a |}.

Definition handleDragStart (st : State) (activeIdOfEvent : string) : State :=
  setActiveId st (Some activeIdOfEvent).

Definition handleDragEnd (st : State) (tickets : list Ticket.t)
    (event : DragEndEvent) : Effect :=
  let st := setActiveId st None in
  let quiet := {| state := st; ticketsChange := None; console := [] |} in
  match over event with
  | None => quiet
  | Some overId =>
      let activeId := active event in
      match findTicket tickets activeId with
      | None => quiet
      | Some activeTicket =>
          match resolveStatus tickets overId with
          | None => quiet
          | Some newStatus =>
              if decide (Ticket.status activeTicket = newStatus)
              then quiet
              else {| state := st;
                      ticketsChange :=
                        Some (mapStatus tickets activeId newStatus);
                      console := [] |}
          end
      end
  end.

(** [ticket.id.split('.')[1] ? ticket.id
     : `${ticket.epicId}.${ticket.id.split('.')[0]}`] *)
Definition storyIdentifier (ticket : Ticket.t) : string :=
  let parts := Js.split "."%char (Ticket.id ticket) in
  match nth_error parts 1 with
  | Some p =>
      if Js.truthy p then Ticket.id ticket
      else from_option (fun x => x) "undefined" (Ticket.epicId ticket)
             +:+ "." +:+ List.hd "" parts
  | None =>
      from_option (fun x => x) "undefined" (Ticket.epicId ticket)
        +:+ "." +:+ List.hd "" parts
  end.

Definition ticketContext (ticket : Ticket.t)
    : list (string * Api.JsValue) :=
  [ ("ticket_id", Api.JsString (Ticket.id ticket));
    ("ticket_title", Api.JsString (Ticket.title ticket));
    ("ticket_description", Api.JsString (Ticket.description ticket));
    ("current_status", Api.JsString (statusString (Ticket.status ticket))) ].

(** [error instanceof Error ? error.message : fallback] *)
Definition errorMessage (e : Api.Thrown) (fallback : string) : string :=
  match e with
  | Api.ErrorObject msg => msg
  | Api.OtherValue => fallback
  end.

(** The request [implementStory] sends to the [dev] role. *)
Definition implementRequest (ticket : Ticket.t) : Api.ChatRequest :=
  let command := "dev implement story " +:+ storyIdentifier ticket in
  {| Api.message := command; Api.context := ticketContext ticket |}.

(** The request [testStory] sends to the [qa] role. *)
Definition testRequest (ticket : Ticket.t) : Api.ChatRequest :=
  {| Api.message :=
       "Please test story " +:+ Ticket.id ticket +:+ ": "
         +:+ Ticket.title ticket +:+ ". Description: "
         +:+ Ticket.description ticket;
     Api.context := ticketContext ticket |}.

(** [implementStory]: [setImplementingTicketId(ticket.id)] and
    [setImplementationError(null)] come first, the [finally] block resets
    [implementingTicketId]. *)
Definition implementStory (svc : Api.Service) (st : State)
    (tickets : list Ticket.t) (ticket : Ticket.t) : Effect :=
  match svc dev (implementRequest ticket) with
  | inr response =>
      {| state := {| implementingTicketId := None;
                     testingTicketId := testingTicketId st;
                     implementationError := None;
                     activeId := activeId st |};
         ticketsChange :=
           Some (mapStatus tickets (Ticket.id ticket) ready_for_testing);
         console :=
           Api.logged svc dev (implementRequest ticket)
             ++ [ConsoleLog "Story implementation completed:" response] |}
  | inl error =>
      {| state := {| implementingTicketId := None;
                     testingTicketId := testingTicketId st;
                     implementationError :=
                       Some (errorMessage error "Failed to implement story");
                     activeId := activeId st |};
         ticketsChange := None;
         console :=
           Api.logged svc dev (implementRequest ticket)
             ++ [ConsoleError "Story implementation failed:" error] |}
  end.

Definition testStory (svc : Api.Service) (st : State)
    (tickets : list Ticket.t) (ticket : Ticket.t) : Effect :=
  match svc qa (testRequest ticket) with
  | inr response =>
      {| state := {| implementingTicketId := implementingTicketId st;
                     testingTicketId := None;
                     implementationError := None;
                     activeId := activeId st |};
         ticketsChange := Some (mapStatus tickets (Ticket.id ticket) done);
         console :=
           Api.logged svc qa (testRequest ticket)
             ++ [ConsoleLog "Story testing completed:" response] |}
  | inl error =>
      {| state := {| implementingTicketId := implementingTicketId st;
                     testingTicketId := None;
                     implementationError :=
                       Some (errorMessage error "Failed to test story");
                     activeId := activeId st |};
         ticketsChange := None;
         console :=
           Api.logged svc qa (testRequest ticket)
             ++ [ConsoleError "Story testing failed:" error] |}
  end.

(** [assignTicket]: the argument of its [onTicketsChange] call. *)
Definition assignTicket (tickets : list Ticket.t) (ticketId : string)
    (newAssignee : Role) : list Ticket.t :=
  List.map (fun ticket =>
    if String.eqb (Ticket.id ticket) ticketId
    then Ticket.withAssignee ticket newAssignee
    else ticket) tickets.

(** Which action button a card shows ([getActionButton]). *)
Inductive Action : Type := ImplementStory | TestStory.

Definition getActionButton (currentRole : Role) (ticket : Ticket.t)
    : option Action :=
  if decide (currentRole = dev /\ Ticket.status ticket = in_progress)
  then Some ImplementStory
  else if decide (currentRole = qa /\ Ticket.status ticket = ready_for_testing)
  then Some TestStory
  else None.

(** [Object.keys(statusConfig)]: the columns in the order the board
    renders them. *)
Definition columns : list TicketStatus :=
  [backlog; in_progress; ready_for_testing; done].

(** [getTicketsByStatus] *)
Definition getTicketsByStatus (tickets : list Ticket.t)
    (status : TicketStatus) : list Ticket.t :=
  List.filter (fun ticket => bool_decide (Ticket.status ticket = status))
    tickets.

End KanbanBoard.

(** ** The API service (lib/api.ts) *)

Module ApiService.

Definition API_BASE_URL : string := "http://localhost:8000".

(** The fields of [RequestInit] the service uses; [None] is an absent
    property. *)
Record RequestInit : Type := {
  method : option string;
  body : option string;
  headers : option (list (string * string))
}.

(** What [fetch] resolves with; [json] is the outcome of the awaited
    [response.json()]. *)
Record Response (T : Type) : Type := {
  ok : bool;
  status : N;
  statusText : string;
  json : Api.Thrown + T
}.
Arguments ok {T}.
Arguments status {T}.
Arguments statusText {T}.
Arguments json {T}.

(** [fetch(url, init)]: rejects with a thrown value or resolves with a
    response. *)
Definition Fetch (T : Type) : Type :=
  string -> RequestInit -> Api.Thrown + Response T.

(** Setting one property of an object given as a list of its entries. *)
Fixpoint setProperty (obj : list (string * string)) (key value : string)
    : list (string * string) :=
  match obj with
  | [] => [(key, value)]
  | (k, v) :: rest =>
      if String.eqb k key then (k, value) :: rest
      else (k, v) :: setProperty rest key value
  end.

(** [{ ...base, ...extra }] *)
Definition spread (base extra : list (string * string))
    : list (string * string) :=
  List.fold_left (fun obj kv => setProperty obj (fst kv) (snd kv)) extra base.

(** The second argument of the [fetch] call:
    [{ headers: { 'Content-Type': 'application/json', ...options.headers },
       ...options }]. *)
Definition fetchInit (options : RequestInit) : RequestInit :=
  let merged :=
    spread [("Content-Type", "application/json")]
      (from_option (fun x => x) [] (headers options)) in
  {| method := method options;
     body := body options;
     headers :=
       match headers options with
       | Some own => Some own
       | None => Some merged
       end |}.

(** [request]: what the returned promise settles with, and the console. *)
Definition request {T : Type} (fetch : Fetch T) (endpoint : string)
    (options : RequestInit) : (Api.Thrown + T) * list ConsoleEntry :=
  let url := API_BASE_URL +:+ endpoint in
  let failed error :=
    (inl error,
     [ConsoleError ("API request failed for " +:+ endpoint +:+ ":") error]) in
  match fetch url (fetchInit options) with
  | inl error => failed error
  | inr response =>
      if ok response then
        match json response with
        | inr data => (inr data, [])
        | inl error => failed error
        end
      else
        failed (Api.ErrorObject
                  ("API Error: " +:+ Js.numberToString (status response)
                     +:+ " " +:+ statusText response))
  end.

(** [chatWithRole]; [stringify] stands for [JSON.stringify]. *)
Definition chatWithRole (fetch : Fetch Api.ChatResponse)
    (stringify : Api.ChatRequest -> string) (roleId : string)
    (request_ : Api.ChatRequest)
    : Api.Outcome * list ConsoleEntry :=
  request fetch ("/chat/" +:+ roleId)
    {| method := Some "POST";
       body := Some (stringify request_);
       headers := None |}.

(** The service the components call, over a given [fetch]: the outcome
    of [chatWithRole] and what [request] writes to the console. *)
Definition service (fetch : Fetch Api.ChatResponse)
    (stringify : Api.ChatRequest -> string) : Api.Service :=
  {| Api.call := fun role request_ =>
       fst (chatWithRole fetch stringify (roleString role) request_);
     Api.logged := fun role request_ =>
       snd (chatWithRole fetch stringify (roleString role) request_) |}.

End ApiService.

(** ** TicketCreationModal *)

Module TicketCreationModal.

Inductive Sender : Type := user | agent.

#[global] Instance Sender_eq_dec : EqDecision Sender.
Proof. solve_decision. Defined.

(** [timestamp] is the clock reading of [new Date()]. *)
Record Message : Type := {
  id : string;
  content : string;
  sender : Sender;
  timestamp : N
}.

Record TicketForm : Type := {
  title : string;
  description : string;
  priority : Priority;
  storyPoints : Js.number;
  assignee : Role
}.

Record State : Type := {
  messages : list Message;
  inputMessage : string;
  isLoading : bool;
  isCreatingTicket : bool;
  ticketForm : TicketForm;
  showForm : bool
}.

Definition welcomeContent : string :=
  "Hello! I'm your Product Manager AI. I'll help you create detailed user stories and tickets based on the project requirements. 

Please describe what feature or functionality you'd like to implement, and I'll help you create a proper user story with acceptance criteria.".

Definition welcome (now : N) : Message :=
  {| id := "welcome"; content := welcomeContent;
     sender := agent; timestamp := now |}.

Definition initialForm : TicketForm :=
  {| title := ""; description := ""; priority := medium;
     storyPoints := Js.Finite 5; assignee := dev |}.

Definition initialState (now : N) : State :=
  {| messages := [welcome now]; inputMessage := ""; isLoading := false;
     isCreatingTicket := false; ticketForm := initialForm;
     showForm := false |}.

(** *** The ticket form and its controls *)

(** The [value]s of the story-point [SelectItem]s. *)
Definition storyPointItems : list string := ["1"; "2"; "3"; "5"; "8"; "13"].

(** The [value]s of the assignee [SelectItem]s. *)
Definition assigneeItems : list Role := [dev; qa].

Inductive FormEvent : Type :=
| TitleChange (value : string)
| PriorityChange (value : Priority)
| AssigneeChange (value : Role)
| StoryPointsChange (value : string).

(** The events the rendered controls can fire. *)
Definition offered (e : FormEvent) : Prop :=
  match e with
  | TitleChange _ => True
  | PriorityChange _ => True
  | AssigneeChange r => In r assigneeItems
  | StoryPointsChange v => In v storyPointItems
  end.

(** The [setTicketForm(prev => ({ ...prev, field: value }))] handlers. *)
Definition setTicketForm (prev : TicketForm) (e : FormEvent) : TicketForm :=
  match e with
  | TitleChange v =>
      {| title := v; description := description prev;
         priority := priority prev; storyPoints := storyPoints prev;
         assignee := assignee prev |}
  | PriorityChange v =>
      {| title := title prev; description := description prev;
         priority := v; storyPoints := storyPoints prev;
         assignee := assignee prev |}
  | AssigneeChange v =>
      {| title := title prev; description := description prev;
         priority := priority prev; storyPoints := storyPoints prev;
         assignee := v |}
  | StoryPointsChange v =>
      {| title := title prev; description := description prev;
         priority := priority prev; storyPoints := Js.parseInt v;
         assignee := assignee prev |}
  end.

(** The values the form state can hold: the initial form (also what
    [resetModal] restores) changed by events of the controls. *)
Inductive FormReachable : TicketForm -> Prop :=
| reach_initial : FormReachable initialForm
| reach_event (f : TicketForm) (e : FormEvent) :
    FormReachable f -> offered e -> FormReachable (setTicketForm f e).

(** *** The chat *)

Definition senderString (s : Sender) : string :=
  match s with
  | user => "user"
  | agent => "agent"
  end.

(** [messages.slice(-n)] *)
Definition sliceLast {A : Type} (n : nat) (l : list A) : list A :=
  drop (length l - n) l.

(** The request of [sendMessage]; [toISOString] stands for
    [Date.prototype.toISOString]. *)
Definition chatRequest (toISOString : N -> string) (msgs : list Message)
    (text : string) : Api.ChatRequest :=
  {| Api.message := text;
     Api.context :=
       [ ("purpose", Api.JsString "ticket_creation");
         ("previous_messages",
          Api.JsArray
            (List.map (fun m =>
               Api.JsObject
                 [ ("sender", Api.JsString (senderString (sender m)));
                   ("content", Api.JsString (content m));
                   ("timestamp", Api.JsString (toISOString (timestamp m))) ])
               (sliceLast 8 msgs))) ] |}.

Definition sendFailedContent : string :=
  "Sorry, I encountered an error. Please try again.".

(** [sendMessage].  Readings of the clock: 0 for the id of the user
    message, 1 for its timestamp, 2 for the id of the reply, 3 for its
    timestamp.  [None]: the early [return]. *)
Definition sendMessage (svc : Api.Service) (toISOString : N -> string)
    (clock : nat -> N) (st : State) : option State :=
  if negb (Js.truthy (Js.trim (inputMessage st))) || isLoading st then None
  else
    let userMessage :=
      {| id := Js.numberToString (clock 0);
         content := Js.trim (inputMessage st);
         sender := user;
         timestamp := clock 1 |} in
    let reply :=
      match svc pm (chatRequest toISOString (messages st)
                      (Js.trim (inputMessage st))) with
      | inr response =>
          {| id := Js.numberToString (clock 2 + 1);
             content := Api.response response;
             sender := agent;
             timestamp := clock 3 |}
      | inl _ =>
          {| id := Js.numberToString (clock 2 + 1);
             content := sendFailedContent;
             sender := agent;
             timestamp := clock 3 |}
      end in
    Some {| messages := (messages st ++ [userMessage]) ++ [reply];
            inputMessage := "";
            isLoading := false;
            isCreatingTicket := isCreatingTicket st;
            ticketForm := ticketForm st;
            showForm := showForm st |}.

(** *** The extraction pipeline *)

Definition nl : string := String "010"%char "".

(** [/Title:\s*(.+?)(?:\n|$)/] *)
Definition epicTitlePattern : Regex.regex :=
  Regex.seqs
    [ Regex.lits "Title:"; Regex.Star true Regex.space;
      Regex.Group 1 (Regex.plus false Regex.dot);
      Regex.Alt Regex.newline Regex.EndOfInput ].

(** [/Description:\s*(.+?)(?:\n\n|$)/s] *)
Definition epicDescPattern : Regex.regex :=
  Regex.seqs
    [ Regex.lits "Description:"; Regex.Star true Regex.space;
      Regex.Group 1 (Regex.plus false Regex.dotAll);
      Regex.Alt (Regex.Seq Regex.newline Regex.newline) Regex.EndOfInput ].

(** [/Story \d+:\s*Title:\s*(.+?)\s*Description:\s*(.+?)\s*Story Points:\s*(\d+)/gs] *)
Definition storyPattern : Regex.regex :=
  Regex.seqs
    [ Regex.lits "Story "; Regex.plus true Regex.digit; Regex.lits ":";
      Regex.Star true Regex.space;
      Regex.lits "Title:"; Regex.Star true Regex.space;
      Regex.Group 1 (Regex.plus false Regex.dotAll);
      Regex.Star true Regex.space;
      Regex.lits "Description:"; Regex.Star true Regex.space;
      Regex.Group 2 (Regex.plus false Regex.dotAll);
      Regex.Star true Regex.space;
      Regex.lits "Story Points:"; Regex.Star true Regex.space;
      Regex.Group 3 (Regex.plus true Regex.digit) ].

(** [m[n]] of a successful match. *)
Definition group (n : nat) (caps : Regex.captures) : string :=
  from_option (fun x => x) "" (Regex.capture n caps).

(** [s.match(re)] for a regular expression without the [g] flag. *)
Definition jsMatch (s : string) (re : Regex.regex)
    : option Regex.captures :=
  Regex.groups <$> Regex.search re s.

(** The objects pushed to [stories]. *)
Module Story.
Record t : Type := mk {
  title : string;
  description : string;
  storyPoints : Js.number
}.
End Story.

(** The matches of [storyPattern] in a response, in order of appearance. *)
Definition storyMatches (response : string) : list Regex.captures :=
  Regex.execAll (S (String.length response)) storyPattern response.

(** The [while ((match = storyPattern.exec(...)) !== null)] loop. *)
Definition parseStories (response : string) : list Story.t :=
  List.map (fun caps =>
    {| Story.title := Js.trim (group 1 caps);
       Story.description := Js.trim (group 2 caps);
       Story.storyPoints := Js.parseInt (Js.trim (group 3 caps)) |})
    (storyMatches response).

(** [messages.filter(m => m.sender === 'user').map(m => m.content)
     .join('\n\n')] *)
Definition conversationSummary (msgs : list Message) : string :=
  Js.join (nl +:+ nl)
    (List.map content
       (List.filter (fun m => bool_decide (sender m = user)) msgs)).

Definition epicPrompt (summary : string) : string :=
  "Based on our conversation, create a concise epic title (max 10 words) and a brief description (2-3 sentences) that captures the overall feature or capability being requested.

        Format your response as:
        Title: [Epic Title]
        Description: [Epic Description]

        Conversation: " +:+ summary.

Definition storiesPrompt (summary : string) : string :=
  "Based on our conversation, break down this epic into 2-5 individual user stories. Each user story should be a complete, independent piece of functionality.

        For each user story, provide:
        - A clear, concise title (max 15 words)
        - A brief description (2-3 sentences)
        - Suggested story points (1, 2, 3, 5, 8, or 13)

        Format each user story as:
        Story [number]:
        Title: [Story Title]
        Description: [Story Description]
        Story Points: [points]

        Conversation: " +:+ summary.

Definition epicRequest (summary : string) : Api.ChatRequest :=
  {| Api.message := epicPrompt summary;
     Api.context := [("purpose", Api.JsString "epic_generation")] |}.

Definition storiesRequest (summary : string) : Api.ChatRequest :=
  {| Api.message := storiesPrompt summary;
     Api.context := [("purpose", Api.JsString "user_story_breakdown")] |}.

(** [a || b] on strings and on numbers. *)
Definition orString (a b : string) : string := if Js.truthy a then a else b.
Definition orNumber (a b : Js.number) : Js.number :=
  if Js.truthyNumber a then a else b.

(** What one run leaves behind: the component state, the arguments of
    the [onTicketsCreated] call if one was made, whether [onClose] was
    called, and the console: what the service wrote during its calls and
    what the handler writes. *)
Record Effect : Type := {
  state : State;
  ticketsCreated : option (list Ticket.t * Epic.t);
  closed : bool;
  console : list ConsoleEntry
}.

Definition setIsCreatingTicket (st : State) (b : bool) : State :=
  {| messages := messages st; inputMessage := inputMessage st;
     isLoading := isLoading st; isCreatingTicket := b;
     ticketForm := ticketForm st; showForm := showForm st |}.

(** [resetModal]; [now] is the reading of its [new Date()]. *)
Definition resetModal (st : State) (now : N) : State :=
  {| messages := [welcome now]; inputMessage := "";
     isLoading := isLoading st; isCreatingTicket := isCreatingTicket st;
     ticketForm := initialForm; showForm := false |}.

(** The ticket built for the story at [index]; [now] is the reading of
    its [Date.now()]. *)
Definition ticketOfStory (form : TicketForm) (epicId : string)
    (now : N) (index : nat) (story : Story.t) : Ticket.t :=
  {| Ticket.id := "TICKET-" +:+ Js.numberToString now +:+ "-"
                    +:+ Js.numberToString (N.of_nat index);
     Ticket.title := Story.title story;
     Ticket.description := Story.description story;
     Ticket.status := backlog;
     Ticket.assignee := assignee form;
     Ticket.priority := priority form;
     Ticket.storyPoints := Some (Story.storyPoints story);
     Ticket.epicId := Some epicId |}.

(** The locals of [generateEpicFromConversation], each as a function of
    what it is computed from. *)

Definition epicTitle (form : TicketForm) (epicResponse : string) : string :=
  match jsMatch epicResponse epicTitlePattern with
  | Some m => Js.trim (group 1 m)
  | None => orString (title form) "Generated Epic"
  end.

Definition epicDescription (epicResponse : string) : string :=
  match jsMatch epicResponse epicDescPattern with
  | Some m => Js.trim (group 1 m)
  | None => "Epic generated from conversation"
  end.

Definition epicId (now : N) : string := "EPIC-" +:+ Js.numberToString now.

(** The story pushed when [stories.length === 0]. *)
Definition fallbackStory (form : TicketForm) (epicResponse : string)
    : Story.t :=
  {| Story.title := epicTitle form epicResponse;
     Story.description := epicDescription epicResponse;
     Story.storyPoints := orNumber (storyPoints form) (Js.Finite 5) |}.

Definition stories (form : TicketForm) (epicResponse storiesResponse : string)
    : list Story.t :=
  match parseStories storiesResponse with
  | [] => [fallbackStory form epicResponse]
  | parsed => parsed
  end.

(** [stories.map((story, index) => ({ ... }))]; the ticket at [index]
    takes reading [2 + index] of the clock. *)
Definition tickets (form : TicketForm) (clock : nat -> N)
    (l : list Story.t) : list Ticket.t :=
  imap (fun index story =>
          ticketOfStory form (epicId (clock 0)) (clock (2 + index)) index story)
       l.

(** [generateEpicFromConversation].  [clock k] is the k-th reading of the
    clock taken during the run, in milliseconds since the epoch: reading
    0 by the [Date.now()] of the epic id, reading 1 by the [new Date()] of
    [createdAt], reading [2 + index] by the [Date.now()] of the ticket at
    [index], and the next one by [resetModal]. *)
Definition generateEpicFromConversation (svc : Api.Service)
    (clock : nat -> N) (st : State) : Effect :=
  let form := ticketForm st in
  let failed logs error :=
    {| state := setIsCreatingTicket st false;
       ticketsCreated := None;
       closed := false;
       console := logs ++ [ConsoleError "Epic generation failed:" error] |} in
  let summary := conversationSummary (messages st) in
  let epicLogs := Api.logged svc pm (epicRequest summary) in
  let storiesLogs := Api.logged svc pm (storiesRequest summary) in
  match svc pm (epicRequest summary) with
  | inl error => failed epicLogs error
  | inr epicResponse =>
      let epic :=
        {| Epic.id := epicId (clock 0);
           Epic.title := epicTitle form (Api.response epicResponse);
           Epic.description := epicDescription (Api.response epicResponse);
           Epic.createdAt := clock 1 |} in
      match svc pm (storiesRequest summary) with
      | inl error => failed (epicLogs ++ storiesLogs) error
      | inr storiesResponse =>
          let stories :=
            stories form (Api.response epicResponse)
              (Api.response storiesResponse) in
          {| state :=
               setIsCreatingTicket
                 (resetModal st (clock (2 + length stories))) false;
             ticketsCreated := Some (tickets form clock stories, epic);
             closed := true;
             console := epicLogs ++ storiesLogs |}
      end
  end.

(** An identifier built from the clock reading [now]: the epic format or
    the ticket format of the two creation paths. *)
Definition stamped (now : N) (ident : string) : Prop :=
  ident = epicId now \/
  exists index : nat,
    ident = "TICKET-" +:+ Js.numberToString now +:+ "-"
              +:+ Js.numberToString (N.of_nat index).

(** [createEpicManually]; the readings of the clock are numbered as in
    [generateEpicFromConversation].  [None]: the early [return] on an
    empty title. *)
Definition createEpicManually (clock : nat -> N) (st : State)
    : option Effect :=
  let form := ticketForm st in
  if Js.truthy (Js.trim (title form)) then
    let epicId := epicId (clock 0) in
    let epic :=
      {| Epic.id := epicId; Epic.title := title form;
         Epic.description := title form; Epic.createdAt := clock 1 |} in
    let newTicket :=
      {| Ticket.id := "TICKET-" +:+ Js.numberToString (clock 2) +:+ "-0";
         Ticket.title := title form;
         Ticket.description := title form;
         Ticket.status := backlog;
         Ticket.assignee := assignee form;
         Ticket.priority := priority form;
         Ticket.storyPoints := Some (storyPoints form);
         Ticket.epicId := Some epicId |} in
    Some {| state := resetModal st (clock 3);
            ticketsCreated := Some ([newTicket], epic);
            closed := true;
            console := [] |}
  else None.

End TicketCreationModal.

(** ** Index: the page that owns the collections *)

Module Index.

(** The state of the page that the board and the modal read or change. *)
Record State : Type := {
  tickets : list Ticket.t;
  epics : list Epic.t;
  isTicketCreationOpen : bool
}.

(** [handleTicketsCreated] *)
Definition handleTicketsCreated (st : State)
    (newTickets : list Ticket.t) (epic : Epic.t) : State :=
  {| tickets := tickets st ++ newTickets;
     epics := epics st ++ [epic];
     isTicketCreationOpen := isTicketCreationOpen st |}.

(** [onTicketsChange={setTickets}] *)
Definition setTickets (st : State) (ts : list Ticket.t) : State :=
  {| tickets := ts; epics := epics st;
     isTicketCreationOpen := isTicketCreationOpen st |}.

(** [onClose={() => setTicketCreationOpen(false)}] *)
Definition setTicketCreationOpen (st : State) (b : bool) : State :=
  {| tickets := tickets st; epics := epics st;
     isTicketCreationOpen := b |}.

(** The page after the callbacks of a board handler have run. *)
Definition afterBoard (st : State) (e : KanbanBoard.Effect) : State :=
  match KanbanBoard.ticketsChange e with
  | Some ts => setTickets st ts
  | None => st
  end.

(** The page after the callbacks of a modal handler have run. *)
Definition afterModal (st : State) (e : TicketCreationModal.Effect)
    : State :=
  let st1 :=
    match TicketCreationModal.ticketsCreated e with
    | Some (newTickets, epic) => handleTicketsCreated st newTickets epic
    | None => st
    end in
  if TicketCreationModal.closed e then setTicketCreationOpen st1 false
  else st1.

(** A drag gesture ends on the board shown by the page. *)
Definition dragEnd (st : State) (board : KanbanBoard.State)
    (event : KanbanBoard.DragEndEvent) : State :=
  afterBoard st (KanbanBoard.handleDragEnd board (tickets st) event).

(** The extraction pipeline runs in the modal opened by the page. *)
Definition generateEpic (st : State) (svc : Api.Service) (clock : nat -> N)
    (modal : TicketCreationModal.State) : State :=
  afterModal st
    (TicketCreationModal.generateEpicFromConversation svc clock modal).

(** The [dev] action runs on a card of the board. *)
Definition implementStory (st : State) (svc : Api.Service)
    (board : KanbanBoard.State) (ticket : Ticket.t) : State :=
  afterBoard st (KanbanBoard.implementStory svc board (tickets st) ticket).

(** The [qa] action runs on a card of the board. *)
Definition testStory (st : State) (svc : Api.Service)
    (board : KanbanBoard.State) (ticket : Ticket.t) : State :=
  afterBoard st (KanbanBoard.testStory svc board (tickets st) ticket).

(** The manual path runs in the modal opened by the page; nothing happens
    on the early [return]. *)
Definition createManually (st : State) (clock : nat -> N)
    (modal : TicketCreationModal.State) : State :=
  match TicketCreationModal.createEpicManually clock modal with
  | Some e => afterModal st e
  | None => st
  end.

(** Every identifier in use on the page. *)
Definition identifiers (st : State) : list string :=
  List.map Ticket.id (tickets st) ++ List.map Epic.id (epics st).

End Index.

(** ** A session of the page

    The handlers of the board close over the [tickets] of the render they
    were created in.  [handleDragEnd] runs at once, on the latest render.
    [implementStory] and [testStory] are started from a card of some
    render and write back, when the awaited call settles, the collection
    of that render.  The modal appends through
    [setTickets(prev => ...)] and [setEpics(prev => ...)], on the state
    of the moment. *)

Module Session.

Record t : Type := {
  page : Index.State;
  rendered : list (list Ticket.t)
}.

Definition initial : t :=
  {| page := {| Index.tickets := []; Index.epics := [];
                Index.isTicketCreationOpen := false |};
     rendered := [[]] |}.

Inductive Event : Type :=
| DragEnd (board : KanbanBoard.State) (event : KanbanBoard.DragEndEvent)
| Implemented (svc : Api.Service) (board : KanbanBoard.State)
    (snapshot : list Ticket.t) (ticket : Ticket.t)
| Tested (svc : Api.Service) (board : KanbanBoard.State)
    (snapshot : list Ticket.t) (ticket : Ticket.t)
| Generated (svc : Api.Service) (clock : nat -> N)
    (modal : TicketCreationModal.State)
| Manual (clock : nat -> N) (modal : TicketCreationModal.State).

(** An action is started from its button on a card of a render; the form
    of the modal holds what its controls can set. *)
Definition enabled (s : t) (e : Event) : Prop :=
  match e with
  | DragEnd _ _ => True
  | Implemented _ _ snapshot ticket =>
      In snapshot (rendered s) /\ In ticket snapshot /\
      KanbanBoard.getActionButton dev ticket
        = Some KanbanBoard.ImplementStory
  | Tested _ _ snapshot ticket =>
      In snapshot (rendered s) /\ In ticket snapshot /\
      KanbanBoard.getActionButton qa ticket = Some KanbanBoard.TestStory
  | Generated _ _ modal =>
      TicketCreationModal.FormReachable
        (TicketCreationModal.ticketForm modal)
  | Manual _ modal =>
      TicketCreationModal.FormReachable
        (TicketCreationModal.ticketForm modal)
  end.

Definition pageAfter (s : t) (e : Event) : Index.State :=
  match e with
  | DragEnd board event => Index.dragEnd (page s) board event
  | Implemented svc board snapshot ticket =>
      Index.afterBoard (page s)
        (KanbanBoard.implementStory svc board snapshot ticket)
  | Tested svc board snapshot ticket =>
      Index.afterBoard (page s)
        (KanbanBoard.testStory svc board snapshot ticket)
  | Generated svc clock modal => Index.generateEpic (page s) svc clock modal
  | Manual clock modal => Index.createManually (page s) clock modal
  end.

(** One event: the page changes and is rendered again. *)
Definition step (s : t) (e : Event) : t :=
  {| page := pageAfter s e;
     rendered := Index.tickets (pageAfter s e) :: rendered s |}.

(** The events of a list, one after the other. *)
Definition run (s : t) (events : list Event) : t :=
  List.fold_left step events s.

Inductive Reachable : t -> Prop :=
| reach_initial : Reachable initial
| reach_step (s : t) (e : Event) :
    Reachable s -> enabled s e -> Reachable (step s e).

(** What every ticket of a session satisfies with respect to the epics of
    the page. *)
Definition WellFormed (epics : list Epic.t) (ticket : Ticket.t) : Prop :=
  (exists (now : N) (index : nat),
      Ticket.id ticket
      = "TICKET-" +:+ Js.numberToString now +:+ "-"
          +:+ Js.numberToString (N.of_nat index)) /\
  (exists epic, In epic epics /\ Ticket.epicId ticket = Some (Epic.id epic)) /\
  In (Ticket.assignee ticket) TicketCreationModal.assigneeItems /\
  (exists points, Ticket.storyPoints ticket = Some points).

End Session.

(** ** Sample data

    The scenarios of the specification and the inputs the properties
    below are run on. *)

Module Sample.

Definition ticketX : Ticket.t :=
  {| Ticket.id := "TICKET-1730000000000-0";
     Ticket.title := "Email/password login";
     Ticket.description := "Users can log in.";
     Ticket.status := backlog;
     Ticket.assignee := dev;
     Ticket.priority := medium;
     Ticket.storyPoints := Some (Js.Finite 5);
     Ticket.epicId := Some "EPIC-1730000000000" |}.

Definition ticketY : Ticket.t :=
  {| Ticket.id := "TICKET-1730000000000-1";
     Ticket.title := "Password reset";
     Ticket.description := "Users can reset a forgotten password.";
     Ticket.status := in_progress;
     Ticket.assignee := qa;
     Ticket.priority := high;
     Ticket.storyPoints := Some (Js.Finite 3);
     Ticket.epicId := Some "EPIC-1730000000000" |}.

(** A ticket whose identifier contains a column keyword. *)
Definition ticketDoneList : Ticket.t :=
  {| Ticket.id := "STORY-done-list";
     Ticket.title := "List of finished work";
     Ticket.description := "Show what was completed this sprint.";
     Ticket.status := in_progress;
     Ticket.assignee := dev;
     Ticket.priority := low;
     Ticket.storyPoints := None;
     Ticket.epicId := None |}.

Definition epicLogin : Epic.t :=
  {| Epic.id := "EPIC-1730000000000";
     Epic.title := "User Login";
     Epic.description := "Allow users to authenticate.";
     Epic.createdAt := 1730000000000%N |}.

Definition emptyPage : Index.State :=
  {| Index.tickets := []; Index.epics := [];
     Index.isTicketCreationOpen := true |}.

Definition page : Index.State :=
  {| Index.tickets := [ticketX; ticketY];
     Index.epics := [epicLogin];
     Index.isTicketCreationOpen := false |}.

Definition pageWithKeyword : Index.State :=
  {| Index.tickets := [ticketX; ticketDoneList];
     Index.epics := [epicLogin];
     Index.isTicketCreationOpen := false |}.

Definition board : KanbanBoard.State :=
  {| KanbanBoard.implementingTicketId := None;
     KanbanBoard.testingTicketId := None;
     KanbanBoard.implementationError := None;
     KanbanBoard.activeId := Some "TICKET-1730000000000-0" |}.

Definition dropOn (activeId overId : string) : KanbanBoard.DragEndEvent :=
  {| KanbanBoard.active := activeId; KanbanBoard.over := Some overId |}.

Definition respond (text : string) : Api.ChatResponse :=
  {| Api.role := "pm"; Api.response := text; Api.context_used := "";
     Api.timestamp := "2024-10-27T03:33:20.000Z";
     Api.workflow_suggestions := None |}.

Definition epicText : string :=
  "Title: User Login" +:+ TicketCreationModal.nl
    +:+ "Description: Allow users to authenticate.".

Definition storyText : string :=
  "Story 1:" +:+ TicketCreationModal.nl
    +:+ "Title: Email/password login" +:+ TicketCreationModal.nl
    +:+ "Description: Users can log in." +:+ TicketCreationModal.nl
    +:+ "Story Points: 5".

Definition twoStoriesText : string :=
  storyText +:+ TicketCreationModal.nl +:+ TicketCreationModal.nl
    +:+ "Story 2:" +:+ TicketCreationModal.nl
    +:+ "Title: Password reset" +:+ TicketCreationModal.nl
    +:+ "Description: Users can reset a forgotten password."
    +:+ TicketCreationModal.nl
    +:+ "Story Points: 3".

Definition isEpicPass (request : Api.ChatRequest) : bool :=
  match Api.context request with
  | [(_, Api.JsString purpose)] => String.eqb purpose "epic_generation"
  | _ => false
  end.

(** A service with the given outcomes that writes its failures to the
    console as [ApiService.request] does. *)
Definition logging (outcome : Role -> Api.ChatRequest -> Api.Outcome)
    : Api.Service :=
  {| Api.call := outcome;
     Api.logged := fun role request =>
       match outcome role request with
       | inl error =>
           [ConsoleError
              ("API request failed for /chat/" +:+ roleString role +:+ ":")
              error]
       | inr _ => []
       end |}.

(** A service that answers the epic pass with [epic] and any other
    request with [other]. *)
Definition answering (epic other : string) : Api.Service :=
  logging (fun _ request =>
    inr (respond (if isEpicPass request then epic else other))).

Definition serverError : Api.Thrown :=
  Api.ErrorObject "API Error: 500 Internal Server Error".

(** A service that is down. *)
Definition down : Api.Service := logging (fun _ _ => inl serverError).

(** A service that answers the epic pass and fails afterwards. *)
Definition downAfterEpic : Api.Service :=
  logging (fun _ request =>
    if isEpicPass request then inr (respond epicText) else inl serverError).

Definition userMessage : TicketCreationModal.Message :=
  {| TicketCreationModal.id := "1729999990000";
     TicketCreationModal.content :=
       "We need user login with email and password";
     TicketCreationModal.sender := TicketCreationModal.user;
     TicketCreationModal.timestamp := 1729999990000%N |}.

Definition agentMessage : TicketCreationModal.Message :=
  {| TicketCreationModal.id := "1729999990001";
     TicketCreationModal.content := "Understood. Anything else?";
     TicketCreationModal.sender := TicketCreationModal.agent;
     TicketCreationModal.timestamp := 1729999995000%N |}.

Definition eightPoints : TicketCreationModal.TicketForm :=
  TicketCreationModal.setTicketForm TicketCreationModal.initialForm
    (TicketCreationModal.StoryPointsChange "8").

Definition modal : TicketCreationModal.State :=
  {| TicketCreationModal.messages :=
       [TicketCreationModal.welcome 1729999980000%N; userMessage;
        agentMessage];
     TicketCreationModal.inputMessage := "";
     TicketCreationModal.isLoading := false;
     TicketCreationModal.isCreatingTicket := false;
     TicketCreationModal.ticketForm := eightPoints;
     TicketCreationModal.showForm := false |}.

(** The modal with a message typed into the input. *)
Definition typing : TicketCreationModal.State :=
  {| TicketCreationModal.messages := TicketCreationModal.messages modal;
     TicketCreationModal.inputMessage := "Add single sign-on too ";
     TicketCreationModal.isLoading := false;
     TicketCreationModal.isCreatingTicket := false;
     TicketCreationModal.ticketForm := eightPoints;
     TicketCreationModal.showForm := false |}.

(** A clock that advances by one millisecond per reading. *)
Definition ticking (start : N) : nat -> N := fun k => (start + N.of_nat k)%N.

(** A clock that stands still. *)
Definition frozen (now : N) : nat -> N := fun _ => now.

(** The page after the spec's scenario ran on the empty page with a
    frozen clock. *)
Definition pageAfterScenario : Index.State :=
  Eval vm_compute in
    Index.generateEpic emptyPage (answering epicText storyText)
      (frozen 1730000000000%N) modal.

(** What a second run hands over, with the clock frozen at the same
    reading. *)
Definition secondRun : list Ticket.t * Epic.t :=
  Eval vm_compute in
    from_option (fun x => x) ([], epicLogin)
      (TicketCreationModal.ticketsCreated
         (TicketCreationModal.generateEpicFromConversation
            (answering epicText twoStoriesText)
            (frozen 1730000000000%N) modal)).

(** What a later run hands over, the clock having advanced. *)
Definition laterRun : list Ticket.t * Epic.t :=
  Eval vm_compute in
    from_option (fun x => x) ([], epicLogin)
      (TicketCreationModal.ticketsCreated
         (TicketCreationModal.generateEpicFromConversation
            (answering epicText twoStoriesText)
            (ticking 1730000060000%N) modal)).

(** The form with a title typed into it, and the modal showing it. *)
Definition titled : TicketCreationModal.TicketForm :=
  TicketCreationModal.setTicketForm eightPoints
    (TicketCreationModal.TitleChange "Export to CSV").

Definition manualModal : TicketCreationModal.State :=
  {| TicketCreationModal.messages := TicketCreationModal.messages modal;
     TicketCreationModal.inputMessage := "";
     TicketCreationModal.isLoading := false;
     TicketCreationModal.isCreatingTicket := false;
     TicketCreationModal.ticketForm := titled;
     TicketCreationModal.showForm := true |}.

(** A stand-in for [toISOString] that prints the reading in
    milliseconds. *)
Definition printed : N -> string := Js.numberToString.

(** The modal after the message typed into it was sent and answered. *)
Definition afterSend : TicketCreationModal.State :=
  Eval vm_compute in
    from_option (fun x => x) typing
      (TicketCreationModal.sendMessage (answering epicText "Noted.")
         printed (ticking 1730000030000%N) typing).

(** The two matches of the story pattern in [twoStoriesText]. *)
Definition firstMatch : Regex.captures :=
  Eval vm_compute in
    List.hd [] (TicketCreationModal.storyMatches twoStoriesText).

Definition secondMatch : Regex.captures :=
  Eval vm_compute in
    List.hd [] (List.tl (TicketCreationModal.storyMatches twoStoriesText)).

(** A server that answers every request with status 500. *)
Definition internalError : ApiService.Response Api.ChatResponse :=
  {| ApiService.ok := false; ApiService.status := 500%N;
     ApiService.statusText := "Internal Server Error";
     ApiService.json := inl Api.OtherValue |}.

Definition failing : ApiService.Fetch Api.ChatResponse :=
  fun _ _ => inr internalError.

(** A server that fails on the [dev] endpoint and answers elsewhere. *)
Definition failingDev : ApiService.Fetch Api.ChatResponse :=
  fun url _ =>
    if String.eqb url "http://localhost:8000/chat/dev"
    then inr internalError
    else inr {| ApiService.ok := true; ApiService.status := 200%N;
                ApiService.statusText := "OK";
                ApiService.json := inr (respond "Done.") |}.

(** A stand-in for [JSON.stringify] that keeps the message only. *)
Definition messageOnly (request : Api.ChatRequest) : string :=
  Api.message request.



(** A session: a run of the pipeline on the empty page, then the first
    ticket dragged to the second column. *)
Definition afterRun : Session.t :=
  Session.step Session.initial
    (Session.Generated (answering epicText twoStoriesText)
       (ticking 1730000060000%N) modal).

Definition afterDrag : Session.t :=
  Session.step afterRun
    (Session.DragEnd board
       (dropOn "TICKET-1730000060002-0" "column-in-progress")).

(** The two tickets of that run, and the first one after the drag. *)
Definition storyOne : Ticket.t :=
  Eval vm_compute in List.nth 0 (fst laterRun) ticketX.


Definition storyOneStarted : Ticket.t :=
  Eval vm_compute in Ticket.withStatus storyOne in_progress.

(** What a run two minutes later hands over. *)
Definition thirdRun : list Ticket.t * Epic.t :=
  Eval vm_compute in
    from_option (fun x => x) ([], epicLogin)
      (TicketCreationModal.ticketsCreated
         (TicketCreationModal.generateEpicFromConversation
            (answering epicText storyText)
            (ticking 1730000120000%N) modal)).

(** What the manual path does with [manualModal]. *)
Definition manualRun : TicketCreationModal.Effect :=
  Eval vm_compute in
    from_option (fun x => x)
      (TicketCreationModal.generateEpicFromConversation down
         (ticking 1730000090000%N) manualModal)
      (TicketCreationModal.createEpicManually (ticking 1730000090000%N)
         manualModal).

Definition manualTicket : Ticket.t :=
  Eval vm_compute in
    match TicketCreationModal.ticketsCreated manualRun with
    | Some (t :: _, _) => t
    | _ => ticketX
    end.

Definition manualEpic : Epic.t :=
  Eval vm_compute in
    match TicketCreationModal.ticketsCreated manualRun with
    | Some (_, epic) => epic
    | None => epicLogin
    end.

End Sample.


(** * Properties *)

(** ** The matcher makes progress *)

Section Progress.
Context {R : Type}.
Implicit Types (k : string -> Regex.captures -> option R) (x : R).

Lemma iterate_shrinks body greedy k :
  Regex.Shrinks body ->
  forall fuel s caps x,
    Regex.iterate body greedy k fuel s caps = Some x ->
    exists s' caps', k s' caps' = Some x /\
                     String.length s' <= String.length s.
Proof.
  intros Hbody. induction fuel as [|fuel IH]; intros s caps x; simpl.
  - intros Hk. by exists s, caps.
  - assert (forall y,
      body s caps (fun s' caps' =>
        if Nat.ltb (String.length s') (String.length s)
        then Regex.iterate body greedy k fuel s' caps' else None) = Some y ->
      exists s' caps', k s' caps' = Some y /\
                       String.length s' <= String.length s) as Hagain.
    { intros y Hy. apply Hbody in Hy as (s1 & caps1 & Hy & Hle).
      destruct (Nat.ltb_spec (String.length s1) (String.length s));
        [|discriminate].
      apply IH in Hy as (s2 & caps2 & Hy & Hle2).
      exists s2, caps2. split; [done|lia]. }
    destruct greedy.
    + destruct (body s caps _) as [y|] eqn:Hy.
      * intros [= <-]. by apply Hagain.
      * intros Hk. by exists s, caps.
    + destruct (k s caps) as [y|] eqn:Hk.
      * intros [= <-]. by exists s, caps.
      * apply Hagain.
Qed.

Lemma run_shrinks (r : Regex.regex) : Regex.Shrinks (R:=R) (Regex.run r).
Proof.
  induction r as [c|p| | |r1 IH1 r2 IH2|r1 IH1 r2 IH2|greedy r IH|n r IH];
    intros s caps k x; simpl.
  - destruct s as [|c' s']; [discriminate|].
    destruct (Ascii.eqb c c'); [|discriminate].
    intros Hk. exists s', caps. split; [done|simpl; lia].
  - destruct s as [|c' s']; [discriminate|].
    destruct (p c'); [|discriminate].
    intros Hk. exists s', caps. split; [done|simpl; lia].
  - destruct (Js.isEmpty s); [|discriminate]. intros Hk. by exists s, caps.
  - intros Hk. by exists s, caps.
  - intros (s1 & caps1 & H1 & Hle1)%IH1.
    apply IH2 in H1 as (s2 & caps2 & H2 & Hle2).
    exists s2, caps2. split; [done|lia].
  - destruct (Regex.run r1 s caps k) as [y|] eqn:H1.
    + intros [= <-]. by apply IH1 in H1.
    + apply IH2.
  - by apply iterate_shrinks.
  - intros (s1 & caps1 & H1 & Hle1)%IH. eauto.
Qed.

Lemma iterate_ext body greedy (fuel : nat) :
  Regex.Extensional body ->
  Regex.Extensional (fun s caps k => Regex.iterate body greedy k fuel s caps).
Proof.
  intros Hbody. induction fuel as [|fuel IH]; intros s caps k1 k2 Hk; simpl.
  - apply Hk.
  - rewrite (Hk s caps).
    rewrite (Hbody s caps _
               (fun s' caps' =>
                  if Nat.ltb (String.length s') (String.length s)
                  then Regex.iterate body greedy k2 fuel s' caps'
                  else None)); [done|].
    intros s' caps'. destruct (Nat.ltb _ _); [|done]. by apply IH.
Qed.

Lemma run_ext (r : Regex.regex) : Regex.Extensional (R:=R) (Regex.run r).
Proof.
  induction r as [c|p| | |r1 IH1 r2 IH2|r1 IH1 r2 IH2|greedy r IH|n r IH];
    intros s caps k1 k2 Hk; simpl.
  - destruct s as [|c' s']; [done|]. by destruct (Ascii.eqb c c').
  - destruct s as [|c' s']; [done|]. by destruct (p c').
  - by destruct (Js.isEmpty s).
  - apply Hk.
  - apply IH1. intros s' caps'. by apply IH2.
  - by rewrite (IH1 s caps k1 k2 Hk), (IH2 s caps k1 k2 Hk).
  - by apply (iterate_ext (Regex.run r) greedy (String.length s) IH).
  - apply IH. intros s' caps'. apply Hk.
Qed.

(** The iterations of a repetition do not depend on the fuel once it
    covers the length of the input. *)
Lemma iterate_fuel body greedy k (f1 f2 : nat) s caps :
  Regex.Shrinks body -> Regex.Extensional body ->
  String.length s <= f1 -> String.length s <= f2 ->
  Regex.iterate body greedy k f1 s caps
  = Regex.iterate body greedy k f2 s caps.
Proof.
  intros Hshr Hext.
  assert (forall s caps, body s caps (fun _ _ => None) = None) as Hnone.
  { intros s0 caps0. destruct (body s0 caps0 _) as [x|] eqn:Hx; [|done].
    by apply Hshr in Hx as (? & ? & ? & _). }
  assert (forall f caps,
            Regex.iterate body greedy k f "" caps = k "" caps) as Hempty.
  { intros [|f] caps0; simpl; [done|].
    rewrite Hnone. by destruct greedy, (k "" caps0). }
  revert f2 s caps. induction f1 as [|f1 IH]; intros f2 s caps H1 H2.
  { destruct s; [|simpl in H1; lia]. by rewrite !Hempty. }
  destruct f2 as [|f2].
  { destruct s; [|simpl in H2; lia]. by rewrite !Hempty. }
  simpl.
  rewrite (Hext s caps _
             (fun s' caps' =>
                if Nat.ltb (String.length s') (String.length s)
                then Regex.iterate body greedy k f2 s' caps'
                else None)); [done|].
  intros s' caps'.
  destruct (Nat.ltb_spec (String.length s') (String.length s)); [|done].
  apply IH; lia.
Qed.

(** A repetition run with any fuel that covers the input is the
    repetition of the matcher. *)
Lemma star_fuel (greedy : bool) (r : Regex.regex) (fuel : nat) s caps k :
  String.length s <= fuel ->
  Regex.run (Regex.Star greedy r) s caps k
  = Regex.iterate (Regex.run r) greedy k fuel s caps.
Proof.
  intros Hfuel. simpl.
  apply iterate_fuel; [apply run_shrinks|apply run_ext|lia|done].
Qed.

(** A pattern that starts with a literal consumes input. *)
Lemma run_literal_first (c : ascii) (r1 r2 : Regex.regex) s caps k x :
  Regex.run (Regex.Seq (Regex.Seq (Regex.Lit c) r1) r2) s caps k = Some x ->
  exists s' caps', k s' caps' = Some x /\
                   String.length s' < String.length s.
Proof.
  simpl. destruct s as [|c' s0]; [discriminate|].
  destruct (Ascii.eqb c c'); [|discriminate].
  intros (s1 & caps1 & H1 & Hle1)%run_shrinks.
  apply run_shrinks in H1 as (s2 & caps2 & H2 & Hle2).
  exists s2, caps2. split; [done|simpl; lia].
Qed.

End Progress.

Section StoryLoop.

Lemma storyPattern_consumes : Regex.Consumes TicketCreationModal.storyPattern.
Proof.
  intros s m. unfold Regex.matchAt, TicketCreationModal.storyPattern.
  intros (s' & caps' & [= <-] & Hlt)%run_literal_first. done.
Qed.

Lemma search_consumes (r : Regex.regex) (s : string) (m : Regex.result) :
  Regex.Consumes r ->
  Regex.search r s = Some m ->
  String.length (Regex.rest m) < String.length s.
Proof.
  intros Hr. induction s as [|c s IH]; simpl.
  - destruct (Regex.matchAt r "") as [y|] eqn:Hy; [|discriminate].
    intros [= <-]. by apply Hr in Hy.
  - destruct (Regex.matchAt r (String c s)) as [y|] eqn:Hy.
    + intros [= <-]. by apply Hr in Hy.
    + intros Hs%IH. lia.
Qed.

(** With more fuel than the input is long, the loop ends because no
    match is left, and any such fuel gives the same matches. *)
Lemma execAll_fuel (r : Regex.regex) (f1 f2 : nat) (s : string) :
  Regex.Consumes r ->
  String.length s < f1 -> String.length s < f2 ->
  Regex.execAll f1 r s = Regex.execAll f2 r s.
Proof.
  intros Hr. revert f2 s.
  induction f1 as [|f1 IH]; intros [|f2] s H1 H2; try lia; simpl.
  destruct (Regex.search r s) as [m|] eqn:Hm; [|done].
  apply search_consumes in Hm; [|done].
  destruct (Nat.ltb_spec (String.length (Regex.rest m)) (String.length s));
    [|lia].
  f_equal. apply IH; lia.
Qed.

(** The loop equation of the source: push the match and search again
    from where it ended, until [exec] returns [null]. *)
Lemma storyMatches_loop (response : string) :
  TicketCreationModal.storyMatches response =
  match Regex.search TicketCreationModal.storyPattern response with
  | None => []
  | Some m => Regex.groups m :: TicketCreationModal.storyMatches (Regex.rest m)
  end.
Proof.
  unfold TicketCreationModal.storyMatches at 1. simpl.
  destruct (Regex.search _ response) as [m|] eqn:Hm; [|done].
  pose proof (search_consumes _ _ _ storyPattern_consumes Hm) as Hlt.
  destruct (Nat.ltb_spec (String.length (Regex.rest m))
              (String.length response)); [|lia].
  f_equal. unfold TicketCreationModal.storyMatches.
  apply execAll_fuel; [apply storyPattern_consumes|lia..].
Qed.

(** The pattern has no match exactly when the first [exec] returns
    [null]. *)
Lemma storyMatches_nil (response : string) :
  TicketCreationModal.storyMatches response = [] <->
  Regex.search TicketCreationModal.storyPattern response = None.
Proof.
  rewrite storyMatches_loop.
  by destruct (Regex.search _ response).
Qed.

End StoryLoop.

(** ** The status map *)

Section StatusMap.
Implicit Types (tickets : list Ticket.t) (id : string) (s : TicketStatus).

Lemma withStatus_same (t : Ticket.t) :
  Ticket.withStatus t (Ticket.status t) = t.
Proof. by destruct t. Qed.

Lemma mapStatus_length tickets id s :
  length (KanbanBoard.mapStatus tickets id s) = length tickets.
Proof. apply List.length_map. Qed.

Lemma mapStatus_lookup tickets id s (i : nat) :
  KanbanBoard.mapStatus tickets id s !! i =
  (fun t => if String.eqb (Ticket.id t) id then Ticket.withStatus t s else t)
    <$> tickets !! i.
Proof. unfold KanbanBoard.mapStatus. apply list_lookup_fmap. Qed.

Lemma findTicket_mapStatus tickets id s t :
  KanbanBoard.findTicket tickets id = Some t ->
  KanbanBoard.findTicket (KanbanBoard.mapStatus tickets id s) id
  = Some (Ticket.withStatus t s).
Proof.
  unfold KanbanBoard.findTicket, KanbanBoard.mapStatus.
  induction tickets as [|x l IH]; simpl; [discriminate|].
  destruct (String.eqb (Ticket.id x) id) eqn:E; simpl.
  - rewrite E. congruence.
  - rewrite E. exact IH.
Qed.

Lemma findTicket_id tickets id t :
  KanbanBoard.findTicket tickets id = Some t -> Ticket.id t = id.
Proof.
  unfold KanbanBoard.findTicket. intros H.
  apply List.find_some in H as [_ H]. by apply String.eqb_eq.
Qed.

Lemma findTicket_In tickets id t :
  KanbanBoard.findTicket tickets id = Some t -> In t tickets.
Proof.
  unfold KanbanBoard.findTicket. intros H.
  by apply List.find_some in H as [H _].
Qed.

(** The map with the status every ticket of that id already has changes
    nothing. *)
Lemma mapStatus_current tickets id s :
  (forall t, In t tickets -> Ticket.id t = id -> Ticket.status t = s) ->
  KanbanBoard.mapStatus tickets id s = tickets.
Proof.
  unfold KanbanBoard.mapStatus. induction tickets as [|x l IH]; [done|].
  intros Hall. simpl. rewrite IH by (intros t Ht; apply Hall; by right).
  destruct (String.eqb_spec (Ticket.id x) id) as [Hid|]; [|done].
  by rewrite <- (Hall x (or_introl eq_refl) Hid), withStatus_same.
Qed.

(** With identifiers that are pairwise distinct, asking for the current
    status of a ticket gives back the same collection. *)
Lemma mapStatus_idempotent tickets id t :
  NoDup (List.map Ticket.id tickets) ->
  KanbanBoard.findTicket tickets id = Some t ->
  KanbanBoard.mapStatus tickets id (Ticket.status t) = tickets.
Proof.
  intros Hnodup Hfind. apply mapStatus_current. intros u Hu Hid.
  pose proof (findTicket_In _ _ _ Hfind) as Ht.
  pose proof (findTicket_id _ _ _ Hfind) as Hidt.
  apply list_elem_of_In, list_elem_of_lookup in Hu as [i Hi].
  apply list_elem_of_In, list_elem_of_lookup in Ht as [j Hj].
  assert (i = j) as ->.
  { apply (NoDup_lookup (List.map Ticket.id tickets) i j id Hnodup).
    - change (List.map Ticket.id tickets) with (Ticket.id <$> tickets).
      by rewrite list_lookup_fmap, Hi; simpl; rewrite Hid.
    - change (List.map Ticket.id tickets) with (Ticket.id <$> tickets).
      by rewrite list_lookup_fmap, Hj; simpl; rewrite Hidt. }
  congruence.
Qed.

End StatusMap.

(** ** Drag and drop *)

Section Drag.
Variables (page : Index.State) (board : KanbanBoard.State).

Lemma resolveStatus_column (tickets : list Ticket.t) (col : TicketStatus) :
  KanbanBoard.resolveStatus tickets (KanbanBoard.columnId col) = Some col.
Proof. by destruct col. Qed.

Lemma resolveStatus_keyword (tickets : list Ticket.t) (overId : string)
    (s : TicketStatus) :
  KanbanBoard.firstKeyword overId = Some s ->
  KanbanBoard.resolveStatus tickets overId = Some s.
Proof.
  unfold KanbanBoard.firstKeyword, KanbanBoard.resolveStatus,
    KanbanBoard.columnKeywords; simpl.
  repeat (destruct (Js.includes overId _); simpl; [congruence|]).
  discriminate.
Qed.

Lemma resolveStatus_ticket (tickets : list Ticket.t) (overId : string)
    (u : Ticket.t) :
  (forall s, Js.includes overId (statusString s) = false) ->
  KanbanBoard.findTicket tickets overId = Some u ->
  KanbanBoard.resolveStatus tickets overId = Some (Ticket.status u).
Proof.
  intros Hno Hu. unfold KanbanBoard.resolveStatus.
  pose proof (Hno backlog) as H1. pose proof (Hno in_progress) as H2.
  pose proof (Hno ready_for_testing) as H3. pose proof (Hno done) as H4.
  simpl statusString in *.
  by rewrite H1, H2, H3, H4, Hu.
Qed.

(** A gesture whose target resolves to [s] leaves the active ticket with
    status [s], every other field as it was. *)
Lemma dragEnd_resolved (event : KanbanBoard.DragEndEvent) (overId : string)
    (a : Ticket.t) (s : TicketStatus) :
  KanbanBoard.over event = Some overId ->
  KanbanBoard.findTicket (Index.tickets page) (KanbanBoard.active event)
    = Some a ->
  KanbanBoard.resolveStatus (Index.tickets page) overId = Some s ->
  KanbanBoard.findTicket (Index.tickets (Index.dragEnd page board event))
    (KanbanBoard.active event) = Some (Ticket.withStatus a s).
Proof.
  intros Hover Ha Hs.
  unfold Index.dragEnd, Index.afterBoard, KanbanBoard.handleDragEnd.
  rewrite Hover, Ha, Hs.
  destruct (decide (Ticket.status a = s)) as [<-|Hne]; simpl.
  - by rewrite withStatus_same.
  - by apply findTicket_mapStatus.
Qed.

(** C2. A drag gesture whose resolved target status is the current status
    of the active ticket makes no [onTicketsChange] call, and the page
    keeps the very same collection: the status change is idempotent. *)
Theorem drag_to_current_status_unchanged
    (event : KanbanBoard.DragEndEvent) (overId : string) (t : Ticket.t) :
  KanbanBoard.over event = Some overId ->
  KanbanBoard.findTicket (Index.tickets page) (KanbanBoard.active event)
    = Some t ->
  KanbanBoard.resolveStatus (Index.tickets page) overId
    = Some (Ticket.status t) ->
  KanbanBoard.ticketsChange
    (KanbanBoard.handleDragEnd board (Index.tickets page) event) = None
  /\ Index.dragEnd page board event = page.
Proof.
  intros Hover Ht Hs.
  unfold Index.dragEnd, Index.afterBoard, KanbanBoard.handleDragEnd.
  rewrite Hover, Ht, Hs.
  by rewrite decide_True.
Qed.

(** C3. When a drag gesture changes a status, the new collection has the
    length and order of the old one; the ticket at each position keeps its
    id, title, description, assignee, priority, story points and epic
    reference; a ticket other than the dragged one is unchanged, and the
    dragged one carries the resolved status.  The epics are untouched. *)
Theorem drag_status_change_frame
    (event : KanbanBoard.DragEndEvent) (after : list Ticket.t) :
  KanbanBoard.ticketsChange
    (KanbanBoard.handleDragEnd board (Index.tickets page) event)
    = Some after ->
  exists overId newStatus,
    KanbanBoard.over event = Some overId /\
    KanbanBoard.resolveStatus (Index.tickets page) overId = Some newStatus /\
    Index.tickets (Index.dragEnd page board event) = after /\
    Index.epics (Index.dragEnd page board event) = Index.epics page /\
    length after = length (Index.tickets page) /\
    forall (i : nat) (t : Ticket.t),
      Index.tickets page !! i = Some t ->
      exists t',
        after !! i = Some t' /\
        Ticket.id t' = Ticket.id t /\
        Ticket.title t' = Ticket.title t /\
        Ticket.description t' = Ticket.description t /\
        Ticket.assignee t' = Ticket.assignee t /\
        Ticket.priority t' = Ticket.priority t /\
        Ticket.storyPoints t' = Ticket.storyPoints t /\
        Ticket.epicId t' = Ticket.epicId t /\
        (Ticket.id t = KanbanBoard.active event ->
           Ticket.status t' = newStatus) /\
        (Ticket.id t <> KanbanBoard.active event -> t' = t).
Proof.
  unfold Index.dragEnd, Index.afterBoard, KanbanBoard.handleDragEnd.
  destruct (KanbanBoard.over event) as [overId|]; [|discriminate].
  destruct (KanbanBoard.findTicket _ _) as [a|]; [|discriminate].
  destruct (KanbanBoard.resolveStatus _ _) as [s|] eqn:Hs; [|discriminate].
  destruct (decide _) as [|Hne]; [discriminate|]; simpl.
  intros [= <-]. exists overId, s.
  split; [done|]. split; [done|]. split; [done|]. split; [done|].
  split; [apply mapStatus_length|].
  intros i t Hi. rewrite mapStatus_lookup, Hi; simpl.
  destruct (String.eqb_spec (Ticket.id t) (KanbanBoard.active event)).
  - exists (Ticket.withStatus t s). by repeat split.
  - exists t. by repeat split.
Qed.

(** C4. Dropping on one of the four column drop zones leaves the active
    ticket with that column's status, whatever its status was; its other
    fields are kept. *)
Theorem drop_on_column_sets_column_status
    (activeId : string) (col : TicketStatus) (t : Ticket.t) :
  KanbanBoard.findTicket (Index.tickets page) activeId = Some t ->
  exists t',
    KanbanBoard.findTicket
      (Index.tickets
         (Index.dragEnd page board
            {| KanbanBoard.active := activeId;
               KanbanBoard.over := Some (KanbanBoard.columnId col) |}))
      activeId = Some t'
    /\ Ticket.status t' = col
    /\ t' = Ticket.withStatus t col.
Proof.
  intros Ht. exists (Ticket.withStatus t col).
  split; [|done].
  apply (dragEnd_resolved
           {| KanbanBoard.active := activeId;
              KanbanBoard.over := Some (KanbanBoard.columnId col) |}
           (KanbanBoard.columnId col)); [done|done|].
  apply resolveStatus_column.
Qed.

(** Dropping on a ticket [u] whose identifier contains none of the four
    column keywords leaves the active ticket with the status [u] has at
    the time of the drop. *)
Lemma drop_on_ticket_without_keyword
    (activeId overId : string) (a u : Ticket.t) :
  KanbanBoard.findTicket (Index.tickets page) activeId = Some a ->
  KanbanBoard.findTicket (Index.tickets page) overId = Some u ->
  (forall s, Js.includes overId (statusString s) = false) ->
  exists a',
    KanbanBoard.findTicket
      (Index.tickets
         (Index.dragEnd page board
            {| KanbanBoard.active := activeId;
               KanbanBoard.over := Some overId |}))
      activeId = Some a'
    /\ Ticket.status a' = Ticket.status u.
Proof.
  intros Ha Hu Hno. exists (Ticket.withStatus a (Ticket.status u)).
  split; [|done].
  apply (dragEnd_resolved
           {| KanbanBoard.active := activeId;
              KanbanBoard.over := Some overId |} overId); [done|done|].
  by apply resolveStatus_ticket.
Qed.

(** C10. The drop target is classified by the first column keyword it
    contains, in the order backlog, in-progress, ready-for-testing, done,
    before any ticket is looked up: whatever the collection holds, also a
    ticket with that very identifier in another column, the resolved
    status is the one the keyword names, and the active ticket ends with
    it. *)
Theorem column_keyword_takes_precedence
    (activeId overId : string) (s : TicketStatus) (a : Ticket.t) :
  KanbanBoard.firstKeyword overId = Some s ->
  KanbanBoard.findTicket (Index.tickets page) activeId = Some a ->
  KanbanBoard.resolveStatus (Index.tickets page) overId = Some s
  /\ KanbanBoard.findTicket
       (Index.tickets
          (Index.dragEnd page board
             {| KanbanBoard.active := activeId;
                KanbanBoard.over := Some overId |}))
       activeId = Some (Ticket.withStatus a s).
Proof.
  intros Hk Ha.
  pose proof (resolveStatus_keyword (Index.tickets page) overId s Hk) as Hs.
  split; [done|].
  by apply (dragEnd_resolved
              {| KanbanBoard.active := activeId;
                 KanbanBoard.over := Some overId |} overId).
Qed.

End Drag.

(** ** Role actions *)

Section RoleActions.
Variables (page : Index.State) (svc : Api.Service) (board : KanbanBoard.State).


End RoleActions.

(** ** The extraction pipeline *)

Section Pipeline.
Import TicketCreationModal.
Variables (page : Index.State) (svc : Api.Service) (clock : nat -> N)
  (modal : State).


Lemma stories_nonempty (f : TicketForm) (r1 r2 : string) :
  stories f r1 r2 <> [].
Proof. unfold stories. by destruct (parseStories r2). Qed.

Lemma tickets_length (f : TicketForm) (l : list Story.t) :
  length (tickets f clock l) = length l.
Proof. apply length_imap. Qed.

Lemma tickets_lookup (f : TicketForm) (l : list Story.t) (i : nat) :
  tickets f clock l !! i =
  ticketOfStory f (epicId (clock 0)) (clock (2 + i)) i <$> l !! i.
Proof. unfold tickets. by rewrite list_lookup_imap. Qed.

(** The form never holds story points that [||] replaces. *)
Lemma storyPoints_reachable (f : TicketForm) :
  FormReachable f -> Js.truthyNumber (storyPoints f) = true.
Proof.
  induction 1 as [|f e _ IH Hoff]; [done|].
  destruct e as [v|v|v|v]; simpl in *; try done.
  unfold storyPointItems in Hoff.
  repeat (destruct Hoff as [<-|Hoff]; [by vm_compute|]).
  destruct Hoff.
Qed.

(** A run in which both passes return a response. *)
Lemma generate_success (r1 r2 : Api.ChatResponse) :
  svc pm (epicRequest (conversationSummary (messages modal))) = inr r1 ->
  svc pm (storiesRequest (conversationSummary (messages modal))) = inr r2 ->
  ticketsCreated (generateEpicFromConversation svc clock modal) =
  Some (tickets (ticketForm modal) clock
          (stories (ticketForm modal) (Api.response r1) (Api.response r2)),
        {| Epic.id := epicId (clock 0);
           Epic.title := epicTitle (ticketForm modal) (Api.response r1);
           Epic.description := epicDescription (Api.response r1);
           Epic.createdAt := clock 1 |}).
Proof.
  intros H1 H2. unfold generateEpicFromConversation.
  by rewrite H1, H2.
Qed.

(** C1. A run in which both passes return a response hands one epic and a
    non-empty list of tickets to the page, which appends exactly that epic
    and those tickets; every ticket refers to the epic, is in the backlog
    and has the assignee and the priority of the form. *)
Theorem pipeline_success_one_epic_some_tickets (r1 r2 : Api.ChatResponse) :
  svc pm (epicRequest (conversationSummary (messages modal))) = inr r1 ->
  svc pm (storiesRequest (conversationSummary (messages modal))) = inr r2 ->
  exists (newTickets : list Ticket.t) (epic : Epic.t),
    ticketsCreated (generateEpicFromConversation svc clock modal)
      = Some (newTickets, epic) /\
    Index.epics (Index.generateEpic page svc clock modal)
      = Index.epics page ++ [epic] /\
    Index.tickets (Index.generateEpic page svc clock modal)
      = Index.tickets page ++ newTickets /\
    newTickets <> [] /\
    Forall (fun t =>
              Ticket.epicId t = Some (Epic.id epic) /\
              Ticket.status t = backlog /\
              Ticket.assignee t = assignee (ticketForm modal) /\
              Ticket.priority t = priority (ticketForm modal))
           newTickets.
Proof.
  intros H1 H2. pose proof (generate_success r1 r2 H1 H2) as Hc.
  eexists _, _. split; [exact Hc|].
  assert (closed (generateEpicFromConversation svc clock modal) = true) as Hcl.
  { unfold generateEpicFromConversation. by rewrite H1, H2. }
  unfold Index.generateEpic, Index.afterModal. rewrite Hc, Hcl. simpl.
  split; [done|]. split; [done|]. split.
  - intros Hnil. apply (f_equal length) in Hnil.
    rewrite tickets_length in Hnil.
    by destruct (stories (ticketForm modal) (Api.response r1)
                   (Api.response r2)) eqn:E;
      [apply stories_nonempty in E|].
  - apply Forall_lookup_2. intros i t. rewrite tickets_lookup.
    destruct (_ !! i); simpl; [|discriminate]. by intros [= <-].
Qed.

(** Without a match of the story pattern the run hands over the ticket of
    the fallback story, whatever the form holds. *)
Lemma generate_fallback (r1 r2 : Api.ChatResponse) :
  svc pm (epicRequest (conversationSummary (messages modal))) = inr r1 ->
  svc pm (storiesRequest (conversationSummary (messages modal))) = inr r2 ->
  storyMatches (Api.response r2) = [] ->
  ticketsCreated (generateEpicFromConversation svc clock modal) =
  Some ([ticketOfStory (ticketForm modal) (epicId (clock 0)) (clock 2) 0
           (fallbackStory (ticketForm modal) (Api.response r1))],
        {| Epic.id := epicId (clock 0);
           Epic.title := epicTitle (ticketForm modal) (Api.response r1);
           Epic.description := epicDescription (Api.response r1);
           Epic.createdAt := clock 1 |}).
Proof.
  intros H1 H2 Hnone. rewrite (generate_success r1 r2 H1 H2).
  unfold stories, parseStories. by rewrite Hnone.
Qed.

(** C6. When the story pattern has no match in the story-breakdown
    response, the run produces exactly one ticket; its title and
    description are those of the produced epic and its story points are
    the story points of the form. *)
Theorem pipeline_fallback_single_ticket (r1 r2 : Api.ChatResponse) :
  FormReachable (ticketForm modal) ->
  svc pm (epicRequest (conversationSummary (messages modal))) = inr r1 ->
  svc pm (storiesRequest (conversationSummary (messages modal))) = inr r2 ->
  storyMatches (Api.response r2) = [] ->
  exists (t : Ticket.t) (epic : Epic.t),
    ticketsCreated (generateEpicFromConversation svc clock modal)
      = Some ([t], epic) /\
    Index.tickets (Index.generateEpic page svc clock modal)
      = Index.tickets page ++ [t] /\
    Ticket.title t = Epic.title epic /\
    Ticket.description t = Epic.description epic /\
    Ticket.storyPoints t = Some (storyPoints (ticketForm modal)).
Proof.
  intros Hform H1 H2 Hnone.
  pose proof (generate_fallback r1 r2 H1 H2 Hnone) as Hc.
  eexists _, _. split; [exact Hc|].
  split.
  { unfold Index.generateEpic, Index.afterModal. rewrite Hc.
    by destruct (closed _). }
  simpl. split; [done|]. split; [done|].
  unfold orNumber. by rewrite (storyPoints_reachable _ Hform).
Qed.

(** C8 (what the code does). When either pass rejects, the run makes no
    [onTicketsCreated] call and the page is exactly as before; the modal
    keeps its messages, its form and its input, and the failure goes to
    the console only, after what the service wrote there during the
    calls made: no state the modal renders records it. *)
Theorem pipeline_failure_is_only_logged (error : Api.Thrown) :
  (svc pm (epicRequest (conversationSummary (messages modal))) = inl error \/
   exists r1,
     svc pm (epicRequest (conversationSummary (messages modal))) = inr r1 /\
     svc pm (storiesRequest (conversationSummary (messages modal)))
       = inl error) ->
  let e := generateEpicFromConversation svc clock modal in
  ticketsCreated e = None /\
  Index.generateEpic page svc clock modal = page /\
  state e = setIsCreatingTicket modal false /\
  messages (state e) = messages modal /\
  console e
  = Api.logged svc pm (epicRequest (conversationSummary (messages modal)))
      ++ match svc pm (epicRequest (conversationSummary (messages modal)))
         with
         | inl _ => []
         | inr _ =>
             Api.logged svc pm
               (storiesRequest (conversationSummary (messages modal)))
         end
      ++ [ConsoleError "Epic generation failed:" error].
Proof.
  unfold Index.generateEpic, Index.afterModal, generateEpicFromConversation.
  intros [H1|(r1 & H1 & H2)]; rewrite H1; [|rewrite H2]; simpl;
    by rewrite <- ?app_assoc.
Qed.

(** The chat, in contrast, shows a failed call: [sendMessage] appends an
    agent message that says so. *)
Lemma sendMessage_failure_is_shown (toISOString : N -> string)
    (error : Api.Thrown) :
  Js.truthy (Js.trim (inputMessage modal)) = true ->
  isLoading modal = false ->
  svc pm (chatRequest toISOString (messages modal)
            (Js.trim (inputMessage modal))) = inl error ->
  exists modal' shown,
    sendMessage svc toISOString clock modal = Some modal' /\
    last (messages modal') = Some shown /\
    sender shown = agent /\
    content shown = sendFailedContent.
Proof.
  intros Htext Hidle Hfail. unfold sendMessage.
  rewrite Htext, Hidle, Hfail.
  eexists _, _. split; [reflexivity|].
  cbn [messages]. by rewrite last_snoc.
Qed.

End Pipeline.

(** ** Identifiers *)

Section Identifiers.

Lemma append_nil (s : string) : "" +:+ s = s.
Proof. reflexivity. Qed.

Lemma append_cons (c : ascii) (s1 s2 : string) :
  String c s1 +:+ s2 = String c (s1 +:+ s2).
Proof. reflexivity. Qed.

Lemma allChars_app (p : ascii -> bool) (s1 s2 : string) :
  Js.allChars p (s1 +:+ s2) = Js.allChars p s1 && Js.allChars p s2.
Proof.
  induction s1 as [|c s1 IH]; simpl; [done|].
  by rewrite IH, andb_assoc.
Qed.

Lemma pretty_N_char_digit (x : N) : Js.isDigit (pretty_N_char x) = true.
Proof. unfold pretty_N_char. by repeat case_match. Qed.

Lemma pretty_N_go_digits (x : N) (s : string) :
  Js.allChars Js.isDigit s = true ->
  Js.allChars Js.isDigit (pretty_N_go x s) = true.
Proof.
  revert s. induction (N.lt_wf_0 x) as [x _ IH]; intros s Hs.
  destruct (decide (x = 0%N)) as [->|Hx]; [by rewrite pretty_N_go_0|].
  rewrite pretty_N_go_step by lia.
  apply IH; [apply N.div_lt; lia|].
  simpl. by rewrite pretty_N_char_digit.
Qed.

(** A printed number consists of decimal digits. *)
Lemma numberToString_digits (n : N) :
  Js.allChars Js.isDigit (Js.numberToString n) = true.
Proof.
  unfold Js.numberToString, pretty, pretty_N.
  case_decide; [done|]. by apply pretty_N_go_digits.
Qed.

Lemma numberToString_inj (n m : N) :
  Js.numberToString n = Js.numberToString m -> n = m.
Proof. apply pretty_N_inj. Qed.

(** Two runs of digits, each followed by a dash, start equal texts only
    when they are the same run. *)
Lemma digits_dash_inj (d1 d2 e1 e2 : string) :
  Js.allChars Js.isDigit d1 = true ->
  Js.allChars Js.isDigit d2 = true ->
  d1 +:+ "-" +:+ e1 = d2 +:+ "-" +:+ e2 ->
  d1 = d2 /\ e1 = e2.
Proof.
  revert d2. induction d1 as [|c d1 IH]; intros [|c' d2];
    rewrite ?append_cons, ?append_nil; simpl.
  - intros _ _ [= ->]. done.
  - intros _ Hc [= <- _]. by vm_compute in Hc.
  - intros Hc _ [= -> _]. by vm_compute in Hc.
  - intros [_ H1]%andb_prop [_ H2]%andb_prop [= -> Heq].
    destruct (IH d2 H1 H2 Heq) as [-> ->]. done.
Qed.

Lemma ticket_id_inj (a b : N) (i j : nat) :
  "TICKET-" +:+ Js.numberToString a +:+ "-" +:+ Js.numberToString (N.of_nat i)
  = "TICKET-" +:+ Js.numberToString b +:+ "-"
      +:+ Js.numberToString (N.of_nat j) ->
  a = b /\ i = j.
Proof.
  rewrite !append_cons, !append_nil. intros [= Heq].
  apply digits_dash_inj in Heq as [Ha Hi];
    [|apply numberToString_digits..].
  apply numberToString_inj in Ha, Hi. split; [done|lia].
Qed.

(** An identifier is built from one clock reading only. *)
Lemma stamped_reading (t t' : N) (ident : string) :
  TicketCreationModal.stamped t ident ->
  TicketCreationModal.stamped t' ident -> t = t'.
Proof.
  unfold TicketCreationModal.stamped, TicketCreationModal.epicId.
  intros [->|[i ->]] [H|[j H]].
  - rewrite !append_cons, !append_nil in H. injection H as H.
    by apply numberToString_inj.
  - discriminate.
  - discriminate.
  - by apply ticket_id_inj in H as [-> _].
Qed.

Variables (page : Index.State) (svc : Api.Service) (clock : nat -> N)
  (modal : TicketCreationModal.State).

Lemma ticket_ids_lookup (f : TicketCreationModal.TicketForm)
    (l : list TicketCreationModal.Story.t) (i : nat) (ident : string) :
  List.map Ticket.id (TicketCreationModal.tickets f clock l) !! i
    = Some ident ->
  ident = "TICKET-" +:+ Js.numberToString (clock (2 + i)) +:+ "-"
            +:+ Js.numberToString (N.of_nat i).
Proof.
  intros H. apply list_lookup_fmap_Some in H as (t & -> & Ht).
  rewrite tickets_lookup in Ht.
  destruct (l !! i); simpl in Ht; [|discriminate].
  by injection Ht as <-.
Qed.

Lemma ticket_ids_stamped (f : TicketCreationModal.TicketForm)
    (l : list TicketCreationModal.Story.t) (ident : string) :
  In ident (List.map Ticket.id (TicketCreationModal.tickets f clock l)) ->
  exists i : nat,
    ident = "TICKET-" +:+ Js.numberToString (clock (2 + i)) +:+ "-"
              +:+ Js.numberToString (N.of_nat i).
Proof.
  intros H. apply list_elem_of_In, list_elem_of_lookup in H as [i Hi].
  exists i. by apply ticket_ids_lookup in Hi.
Qed.

Lemma ticket_ids_NoDup (f : TicketCreationModal.TicketForm)
    (l : list TicketCreationModal.Story.t) :
  NoDup (List.map Ticket.id (TicketCreationModal.tickets f clock l)).
Proof.
  apply NoDup_alt. intros i j ident Hi Hj.
  apply ticket_ids_lookup in Hi, Hj. rewrite Hi in Hj.
  by apply ticket_id_inj in Hj as [_ ?].
Qed.

(** The identifiers a run hands over. *)
Lemma produced_inv (newTickets : list Ticket.t) (epic : Epic.t) :
  TicketCreationModal.ticketsCreated
    (TicketCreationModal.generateEpicFromConversation svc clock modal)
    = Some (newTickets, epic) ->
  Epic.id epic = TicketCreationModal.epicId (clock 0) /\
  exists f l, newTickets = TicketCreationModal.tickets f clock l.
Proof.
  unfold TicketCreationModal.generateEpicFromConversation.
  destruct (svc pm (TicketCreationModal.epicRequest _)) as [|r1];
    [discriminate|].
  destruct (svc pm (TicketCreationModal.storiesRequest _)) as [|r2];
    [discriminate|].
  simpl. intros [= <- <-]. split; [done|]. eauto.
Qed.

(** Each of them is built from a reading of the clock of the run. *)
Lemma produced_stamped (newTickets : list Ticket.t) (epic : Epic.t)
    (ident : string) :
  TicketCreationModal.ticketsCreated
    (TicketCreationModal.generateEpicFromConversation svc clock modal)
    = Some (newTickets, epic) ->
  In ident (Epic.id epic :: List.map Ticket.id newTickets) ->
  exists k, TicketCreationModal.stamped (clock k) ident.
Proof.
  intros (He & f & l & ->)%produced_inv [<-|Hin].
  - exists 0. by left.
  - apply ticket_ids_stamped in Hin as [i ->].
    exists (2 + i). right. by exists i.
Qed.

Lemma produced_NoDup (newTickets : list Ticket.t) (epic : Epic.t) :
  TicketCreationModal.ticketsCreated
    (TicketCreationModal.generateEpicFromConversation svc clock modal)
    = Some (newTickets, epic) ->
  NoDup (Epic.id epic :: List.map Ticket.id newTickets).
Proof.
  intros (He & f & l & ->)%produced_inv. rewrite He.
  apply NoDup_cons. split; [|apply ticket_ids_NoDup].
  intros Hin%list_elem_of_In%ticket_ids_stamped. by destruct Hin as [i Hi].
Qed.

Lemma produced_fresh (newTickets : list Ticket.t) (epic : Epic.t) :
  TicketCreationModal.ticketsCreated
    (TicketCreationModal.generateEpicFromConversation svc clock modal)
    = Some (newTickets, epic) ->
  (forall ident, In ident (Index.identifiers page) ->
     exists t, TicketCreationModal.stamped t ident /\
               forall k, (t < clock k)%N) ->
  forall ident,
    In ident (Epic.id epic :: List.map Ticket.id newTickets) ->
    ~ In ident (Index.identifiers page).
Proof.
  intros Hrun Hold ident Hnew Hin.
  destruct (Hold ident Hin) as (t & Ht & Hlt).
  destruct (produced_stamped _ _ _ Hrun Hnew) as [k Hk].
  pose proof (stamped_reading _ _ _ Ht Hk) as ->.
  specialize (Hlt k). lia.
Qed.

(** C7 (amended). The identifiers one run produces, epic and tickets, are
    pairwise distinct; and they are distinct from every identifier on the
    page when each of those was built from a clock reading earlier than
    every reading of this run.  (The run itself never looks at the
    collections.) *)
Theorem pipeline_identifiers_distinct
    (newTickets : list Ticket.t) (epic : Epic.t) :
  TicketCreationModal.ticketsCreated
    (TicketCreationModal.generateEpicFromConversation svc clock modal)
    = Some (newTickets, epic) ->
  NoDup (Epic.id epic :: List.map Ticket.id newTickets) /\
  ((forall ident, In ident (Index.identifiers page) ->
      exists t, TicketCreationModal.stamped t ident /\
                forall k, (t < clock k)%N) ->
   forall ident,
     In ident (Epic.id epic :: List.map Ticket.id newTickets) ->
     ~ In ident (Index.identifiers page)).
Proof.
  intros Hrun. split.
  - by apply produced_NoDup.
  - by apply produced_fresh.
Qed.

(** With a clock that has advanced, the identifiers on the page stay
    pairwise distinct across a run. *)
Lemma identifiers_stay_distinct :
  NoDup (Index.identifiers page) ->
  (forall ident, In ident (Index.identifiers page) ->
     exists t, TicketCreationModal.stamped t ident /\
               forall k, (t < clock k)%N) ->
  NoDup (Index.identifiers (Index.generateEpic page svc clock modal)).
Proof.
  intros Hnodup Hold.
  unfold Index.generateEpic, Index.afterModal.
  destruct (TicketCreationModal.ticketsCreated _) as [[newTickets epic]|]
    eqn:Hrun.
  - pose proof (produced_NoDup _ _ Hrun) as Hnew.
    pose proof (produced_fresh _ _ Hrun Hold) as Hfresh.
    assert (Index.identifiers
              (Index.handleTicketsCreated page newTickets epic)
            ≡ₚ Index.identifiers page
                 ++ (Epic.id epic :: List.map Ticket.id newTickets)) as Hperm.
    { unfold Index.identifiers, Index.handleTicketsCreated. simpl.
      rewrite !List.map_app. simpl. solve_Permutation. }
    assert (NoDup (Index.identifiers
                     (Index.handleTicketsCreated page newTickets epic)))
      as Hres.
    { rewrite Hperm. apply NoDup_app. split; [done|]. split; [|done].
      intros ident Hin%list_elem_of_In Hin'%list_elem_of_In.
      by apply (Hfresh ident). }
    by destruct (TicketCreationModal.closed _).
  - by destruct (TicketCreationModal.closed _).
Qed.

End Identifiers.

(** ** Generated identifiers and column keywords *)

Section GeneratedIdentifiers.

Lemma allChars_impl (p q : ascii -> bool) (s : string) :
  (forall c, p c = true -> q c = true) ->
  Js.allChars p s = true -> Js.allChars q s = true.
Proof.
  intros Hpq. induction s as [|c s IH]; simpl; [done|].
  intros [Hc Hs]%andb_prop. by rewrite (Hpq c Hc), IH.
Qed.

(** A text without the code unit [c] contains no text that starts with
    [c]. *)
Lemma includes_needs_head (c : ascii) (sub s : string) :
  Js.allChars (fun x => negb (Ascii.eqb x c)) s = true ->
  Js.includes s (String c sub) = false.
Proof.
  induction s as [|x s IH]; simpl; [done|].
  intros [Hx Hs]%andb_prop. rewrite (IH Hs), orb_false_r.
  destruct (ascii_dec c x) as [->|]; [|done].
  by rewrite Ascii.eqb_refl in Hx.
Qed.

Lemma digit_not_letter (c x : ascii) :
  In c ["b"; "i"; "r"; "d"]%char ->
  Js.isDigit x = true -> negb (Ascii.eqb x c) = true.
Proof.
  intros Hc Hx. apply negb_true_iff, Ascii.eqb_neq. intros ->.
  simpl in Hc. by destruct Hc as [<-|[<-|[<-|[<-|[]]]]].
Qed.

Lemma stamped_without (c : ascii) (t : N) (ident : string) :
  In c ["b"; "i"; "r"; "d"]%char ->
  TicketCreationModal.stamped t ident ->
  Js.allChars (fun x => negb (Ascii.eqb x c)) ident = true.
Proof.
  intros Hc Hst.
  assert (forall n, Js.allChars (fun x => negb (Ascii.eqb x c))
                      (Js.numberToString n) = true) as Hnum.
  { intros n. apply (allChars_impl Js.isDigit); [|apply numberToString_digits].
    intros x. by apply digit_not_letter. }
  assert (forall s, In s ["EPIC-"; "TICKET-"; "-"] ->
            Js.allChars (fun x => negb (Ascii.eqb x c)) s = true) as Hlit.
  { intros s Hs. simpl in Hc, Hs.
    destruct Hc as [<-|[<-|[<-|[<-|[]]]]];
      by destruct Hs as [<-|[<-|[<-|[]]]]. }
  destruct Hst as [->|[i ->]]; unfold TicketCreationModal.epicId;
    rewrite !allChars_app, !Hnum, !Hlit; simpl; auto.
Qed.

(** The identifiers the two creation paths build contain no column
    keyword. *)
Lemma stamped_no_keyword (t : N) (ident : string) (s : TicketStatus) :
  TicketCreationModal.stamped t ident ->
  Js.includes ident (statusString s) = false.
Proof.
  intros Hst.
  destruct s; simpl; apply includes_needs_head;
    apply (stamped_without _ t); simpl; auto.
Qed.

(** On a board of generated tickets a drop on a ticket takes that ticket's
    status. *)
Lemma drop_on_generated_ticket (page : Index.State)
    (board : KanbanBoard.State) (activeId : string) (a u : Ticket.t)
    (t : N) :
  KanbanBoard.findTicket (Index.tickets page) activeId = Some a ->
  In u (Index.tickets page) ->
  TicketCreationModal.stamped t (Ticket.id u) ->
  exists a' u',
    KanbanBoard.findTicket (Index.tickets page) (Ticket.id u) = Some u' /\
    KanbanBoard.findTicket
      (Index.tickets
         (Index.dragEnd page board
            {| KanbanBoard.active := activeId;
               KanbanBoard.over := Some (Ticket.id u) |}))
      activeId = Some a'
    /\ Ticket.status a' = Ticket.status u'.
Proof.
  intros Ha Hu Hst.
  destruct (KanbanBoard.findTicket (Index.tickets page) (Ticket.id u))
    as [u'|] eqn:Hu'.
  - exists (Ticket.withStatus a (Ticket.status u')), u'.
    split; [done|]. split; [|done].
    apply (dragEnd_resolved page board
             {| KanbanBoard.active := activeId;
                KanbanBoard.over := Some (Ticket.id u) |} (Ticket.id u));
      [done|done|].
    apply resolveStatus_ticket; [|done].
    intros s. by apply (stamped_no_keyword t).
  - unfold KanbanBoard.findTicket in Hu'.
    eapply List.find_none in Hu'; [|exact Hu].
    by rewrite String.eqb_refl in Hu'.
Qed.

End GeneratedIdentifiers.

(** ** Scenarios of the specification *)

Section Scenarios.

(** Epic pass and story pass of the login conversation: one epic, one
    ticket with the parsed title and story points, in the backlog. *)
Example scenario_login :
  Index.generateEpic Sample.emptyPage
    (Sample.answering Sample.epicText Sample.storyText)
    (Sample.frozen 1730000000000%N) Sample.modal
  = {| Index.tickets := [Sample.ticketX];
       Index.epics := [Sample.epicLogin];
       Index.isTicketCreationOpen := false |}.
Proof. by vm_compute. Qed.

(** A story pass without a story block: one ticket that repeats the
    epic, with the story points of the form. *)
Example scenario_fallback :
  Index.tickets
    (Index.generateEpic Sample.emptyPage
       (Sample.answering Sample.epicText "Sorry, no breakdown today.")
       (Sample.frozen 1730000000000%N) Sample.modal)
  = [ {| Ticket.id := "TICKET-1730000000000-0";
         Ticket.title := "User Login";
         Ticket.description := "Allow users to authenticate.";
         Ticket.status := backlog;
         Ticket.assignee := dev;
         Ticket.priority := medium;
         Ticket.storyPoints := Some (Js.Finite 8);
         Ticket.epicId := Some "EPIC-1730000000000" |} ].
Proof. by vm_compute. Qed.

(** Ticket X goes from the backlog to the in-progress column; the same
    drop again changes nothing. *)
Example scenario_drag_twice :
  let once :=
    Index.dragEnd Sample.page Sample.board
      (Sample.dropOn "TICKET-1730000000000-0" "column-in-progress") in
  Index.tickets once
    = [Ticket.withStatus Sample.ticketX in_progress; Sample.ticketY]
  /\ Index.dragEnd once Sample.board
       (Sample.dropOn "TICKET-1730000000000-0" "column-in-progress")
     = once.
Proof. by vm_compute. Qed.

(** A cancelled gesture, an unknown ticket and an unknown target are
    ignored. *)
Example scenario_declined :
  Index.dragEnd Sample.page Sample.board
    {| KanbanBoard.active := "TICKET-1730000000000-0";
       KanbanBoard.over := None |} = Sample.page
  /\ Index.dragEnd Sample.page Sample.board
       (Sample.dropOn "TICKET-0-0" "column-done") = Sample.page
  /\ Index.dragEnd Sample.page Sample.board
       (Sample.dropOn "TICKET-1730000000000-0" "sidebar") = Sample.page.
Proof. by vm_compute. Qed.

End Scenarios.

(** ** The properties at concrete inputs *)

Section Instances.

Lemma drag_to_current_status_unchanged_witness :
  KanbanBoard.ticketsChange
    (KanbanBoard.handleDragEnd Sample.board (Index.tickets Sample.page)
       (Sample.dropOn "TICKET-1730000000000-1" "column-in-progress")) = None
  /\ Index.dragEnd Sample.page Sample.board
       (Sample.dropOn "TICKET-1730000000000-1" "column-in-progress")
     = Sample.page.
Proof.
  apply (drag_to_current_status_unchanged Sample.page Sample.board
           (Sample.dropOn "TICKET-1730000000000-1" "column-in-progress")
           "column-in-progress" Sample.ticketY);
    reflexivity.
Defined.

Lemma drag_status_change_frame_witness :
  exists overId newStatus,
    KanbanBoard.over (Sample.dropOn "TICKET-1730000000000-0" "column-done")
      = Some overId /\
    KanbanBoard.resolveStatus (Index.tickets Sample.page) overId
      = Some newStatus /\
    Index.tickets
      (Index.dragEnd Sample.page Sample.board
         (Sample.dropOn "TICKET-1730000000000-0" "column-done"))
      = [Ticket.withStatus Sample.ticketX done; Sample.ticketY] /\
    Index.epics
      (Index.dragEnd Sample.page Sample.board
         (Sample.dropOn "TICKET-1730000000000-0" "column-done"))
      = Index.epics Sample.page /\
    length [Ticket.withStatus Sample.ticketX done; Sample.ticketY]
      = length (Index.tickets Sample.page) /\
    forall (i : nat) (t : Ticket.t),
      Index.tickets Sample.page !! i = Some t ->
      exists t',
        [Ticket.withStatus Sample.ticketX done; Sample.ticketY] !! i
          = Some t' /\
        Ticket.id t' = Ticket.id t /\
        Ticket.title t' = Ticket.title t /\
        Ticket.description t' = Ticket.description t /\
        Ticket.assignee t' = Ticket.assignee t /\
        Ticket.priority t' = Ticket.priority t /\
        Ticket.storyPoints t' = Ticket.storyPoints t /\
        Ticket.epicId t' = Ticket.epicId t /\
        (Ticket.id t
           = KanbanBoard.active
               (Sample.dropOn "TICKET-1730000000000-0" "column-done") ->
           Ticket.status t' = newStatus) /\
        (Ticket.id t
           <> KanbanBoard.active
                (Sample.dropOn "TICKET-1730000000000-0" "column-done") ->
           t' = t).
Proof.
  apply (drag_status_change_frame Sample.page Sample.board
           (Sample.dropOn "TICKET-1730000000000-0" "column-done")
           [Ticket.withStatus Sample.ticketX done; Sample.ticketY]).
  reflexivity.
Defined.

Lemma drop_on_column_sets_column_status_witness :
  exists t',
    KanbanBoard.findTicket
      (Index.tickets
         (Index.dragEnd Sample.page Sample.board
            {| KanbanBoard.active := "TICKET-1730000000000-1";
               KanbanBoard.over :=
                 Some (KanbanBoard.columnId ready_for_testing) |}))
      "TICKET-1730000000000-1" = Some t'
    /\ Ticket.status t' = ready_for_testing
    /\ t' = Ticket.withStatus Sample.ticketY ready_for_testing.
Proof.
  apply (drop_on_column_sets_column_status Sample.page Sample.board
           "TICKET-1730000000000-1" ready_for_testing Sample.ticketY).
  reflexivity.
Defined.

Lemma column_keyword_takes_precedence_witness :
  KanbanBoard.resolveStatus (Index.tickets Sample.pageWithKeyword)
    "STORY-done-list" = Some done
  /\ KanbanBoard.findTicket
       (Index.tickets
          (Index.dragEnd Sample.pageWithKeyword Sample.board
             {| KanbanBoard.active := "TICKET-1730000000000-0";
                KanbanBoard.over := Some "STORY-done-list" |}))
       "TICKET-1730000000000-0" = Some (Ticket.withStatus Sample.ticketX done).
Proof.
  apply (column_keyword_takes_precedence Sample.pageWithKeyword Sample.board
           "TICKET-1730000000000-0" "STORY-done-list" done Sample.ticketX);
    reflexivity.
Defined.


End Instances.

Section PipelineInstances.

Lemma pipeline_success_one_epic_some_tickets_witness :
  exists (newTickets : list Ticket.t) (epic : Epic.t),
    TicketCreationModal.ticketsCreated
      (TicketCreationModal.generateEpicFromConversation
         (Sample.answering Sample.epicText Sample.twoStoriesText)
         (Sample.ticking 1730000060000%N) Sample.modal)
      = Some (newTickets, epic) /\
    Index.epics
      (Index.generateEpic Sample.page
         (Sample.answering Sample.epicText Sample.twoStoriesText)
         (Sample.ticking 1730000060000%N) Sample.modal)
      = Index.epics Sample.page ++ [epic] /\
    Index.tickets
      (Index.generateEpic Sample.page
         (Sample.answering Sample.epicText Sample.twoStoriesText)
         (Sample.ticking 1730000060000%N) Sample.modal)
      = Index.tickets Sample.page ++ newTickets /\
    newTickets <> [] /\
    Forall (fun t =>
              Ticket.epicId t = Some (Epic.id epic) /\
              Ticket.status t = backlog /\
              Ticket.assignee t
                = TicketCreationModal.assignee
                    (TicketCreationModal.ticketForm Sample.modal) /\
              Ticket.priority t
                = TicketCreationModal.priority
                    (TicketCreationModal.ticketForm Sample.modal))
           newTickets.
Proof.
  apply (pipeline_success_one_epic_some_tickets Sample.page
           (Sample.answering Sample.epicText Sample.twoStoriesText)
           (Sample.ticking 1730000060000%N) Sample.modal
           (Sample.respond Sample.epicText)
           (Sample.respond Sample.twoStoriesText));
    reflexivity.
Defined.

Lemma pipeline_fallback_single_ticket_witness :
  exists (t : Ticket.t) (epic : Epic.t),
    TicketCreationModal.ticketsCreated
      (TicketCreationModal.generateEpicFromConversation
         (Sample.answering Sample.epicText "Sorry, no breakdown today.")
         (Sample.ticking 1730000060000%N) Sample.modal)
      = Some ([t], epic) /\
    Index.tickets
      (Index.generateEpic Sample.page
         (Sample.answering Sample.epicText "Sorry, no breakdown today.")
         (Sample.ticking 1730000060000%N) Sample.modal)
      = Index.tickets Sample.page ++ [t] /\
    Ticket.title t = Epic.title epic /\
    Ticket.description t = Epic.description epic /\
    Ticket.storyPoints t
      = Some (TicketCreationModal.storyPoints
                (TicketCreationModal.ticketForm Sample.modal)).
Proof.
  apply (pipeline_fallback_single_ticket Sample.page
           (Sample.answering Sample.epicText "Sorry, no breakdown today.")
           (Sample.ticking 1730000060000%N) Sample.modal
           (Sample.respond Sample.epicText)
           (Sample.respond "Sorry, no breakdown today.")).
  - apply (TicketCreationModal.reach_event TicketCreationModal.initialForm
             (TicketCreationModal.StoryPointsChange "8")
             TicketCreationModal.reach_initial).
    simpl. tauto.
  - reflexivity.
  - reflexivity.
  - vm_compute. reflexivity.
Defined.

Lemma pipeline_failure_is_only_logged_witness :
  TicketCreationModal.ticketsCreated
    (TicketCreationModal.generateEpicFromConversation Sample.downAfterEpic
       (Sample.ticking 1730000060000%N) Sample.modal) = None /\
  Index.generateEpic Sample.page Sample.downAfterEpic
    (Sample.ticking 1730000060000%N) Sample.modal = Sample.page /\
  TicketCreationModal.state
    (TicketCreationModal.generateEpicFromConversation Sample.downAfterEpic
       (Sample.ticking 1730000060000%N) Sample.modal)
    = TicketCreationModal.setIsCreatingTicket Sample.modal false /\
  TicketCreationModal.messages
    (TicketCreationModal.state
       (TicketCreationModal.generateEpicFromConversation Sample.downAfterEpic
          (Sample.ticking 1730000060000%N) Sample.modal))
    = TicketCreationModal.messages Sample.modal /\
  TicketCreationModal.console
    (TicketCreationModal.generateEpicFromConversation Sample.downAfterEpic
       (Sample.ticking 1730000060000%N) Sample.modal)
    = [ConsoleError "API request failed for /chat/pm:" Sample.serverError;
       ConsoleError "Epic generation failed:" Sample.serverError].
Proof.
  apply (pipeline_failure_is_only_logged Sample.page Sample.downAfterEpic
           (Sample.ticking 1730000060000%N) Sample.modal Sample.serverError).
  right. exists (Sample.respond Sample.epicText).
  split; reflexivity.
Defined.

(** The page of the scenario holds identifiers built from a reading that
    every reading of a run a minute later exceeds. *)
Lemma scenario_identifiers_older :
  forall ident, In ident (Index.identifiers Sample.pageAfterScenario) ->
    exists t, TicketCreationModal.stamped t ident /\
              forall k, (t < Sample.ticking 1730000060000%N k)%N.
Proof.
  intros ident Hin. exists 1730000000000%N. split.
  - simpl in Hin. destruct Hin as [<-|[<-|[]]].
    + right. by exists 0.
    + by left.
  - intros k. unfold Sample.ticking. lia.
Qed.

Lemma pipeline_identifiers_distinct_witness :
  NoDup (Epic.id (snd Sample.laterRun)
           :: List.map Ticket.id (fst Sample.laterRun)) /\
  forall ident,
    In ident (Epic.id (snd Sample.laterRun)
                :: List.map Ticket.id (fst Sample.laterRun)) ->
    ~ In ident (Index.identifiers Sample.pageAfterScenario).
Proof.
  destruct (pipeline_identifiers_distinct Sample.pageAfterScenario
              (Sample.answering Sample.epicText Sample.twoStoriesText)
              (Sample.ticking 1730000060000%N) Sample.modal
              (fst Sample.laterRun) (snd Sample.laterRun))
    as [Hdistinct Hfresh].
  - vm_compute. reflexivity.
  - split.
    + exact Hdistinct.
    + apply Hfresh. exact scenario_identifiers_older.
Defined.

(** C7 as stated fails: a second run with the clock at the reading of the
    first produces the identifiers the page already holds. *)
Lemma pipeline_identifiers_collide_counterexample :
  ~ (forall (page : Index.State) (svc : Api.Service) (clock : nat -> N)
       (modal : TicketCreationModal.State)
       (newTickets : list Ticket.t) (epic : Epic.t),
        TicketCreationModal.ticketsCreated
          (TicketCreationModal.generateEpicFromConversation svc clock modal)
          = Some (newTickets, epic) ->
        NoDup (Epic.id epic :: List.map Ticket.id newTickets) /\
        forall ident,
          In ident (Epic.id epic :: List.map Ticket.id newTickets) ->
          ~ In ident (Index.identifiers page)).
Proof.
  intros claim.
  assert (TicketCreationModal.ticketsCreated
            (TicketCreationModal.generateEpicFromConversation
               (Sample.answering Sample.epicText Sample.twoStoriesText)
               (Sample.frozen 1730000000000%N) Sample.modal)
          = Some (fst Sample.secondRun, snd Sample.secondRun)) as Hrun
    by (vm_compute; reflexivity).
  destruct (claim Sample.pageAfterScenario _ _ _ _ _ Hrun) as [_ Hfresh].
  apply (Hfresh "TICKET-1730000000000-0").
  - right. left. reflexivity.
  - left. reflexivity.
Qed.

End PipelineInstances.

(** * Further properties of the board *)

Section Columns.
Implicit Types (tickets : list Ticket.t) (s : TicketStatus).

Lemma getTicketsByStatus_In tickets s (t : Ticket.t) :
  In t (KanbanBoard.getTicketsByStatus tickets s) <->
  In t tickets /\ Ticket.status t = s.
Proof.
  unfold KanbanBoard.getTicketsByStatus. rewrite List.filter_In.
  by rewrite bool_decide_eq_true.
Qed.

Lemma columns_lengths tickets :
  length (KanbanBoard.getTicketsByStatus tickets backlog)
  + length (KanbanBoard.getTicketsByStatus tickets in_progress)
  + length (KanbanBoard.getTicketsByStatus tickets ready_for_testing)
  + length (KanbanBoard.getTicketsByStatus tickets done)
  = length tickets.
Proof.
  unfold KanbanBoard.getTicketsByStatus.
  induction tickets as [|x l IH]; [done|].
  simpl. destruct (Ticket.status x); simpl; lia.
Qed.

Lemma getTicketsByStatus_sublist tickets s :
  sublist (KanbanBoard.getTicketsByStatus tickets s) tickets.
Proof.
  unfold KanbanBoard.getTicketsByStatus.
  induction tickets as [|x l IH]; simpl; [done|].
  destruct (bool_decide _); by constructor.
Qed.

(** X1. The four columns of the board show every ticket of the collection
    exactly once: a ticket is in the column of its status and in no other,
    each column keeps the order of the collection, and the counts of the
    column badges add up to the number of tickets. *)
Theorem columns_partition tickets :
  (forall (t : Ticket.t) s,
      In t (KanbanBoard.getTicketsByStatus tickets s) <->
      In t tickets /\ Ticket.status t = s) /\
  (forall s, sublist (KanbanBoard.getTicketsByStatus tickets s) tickets) /\
  List.concat
    (List.map (KanbanBoard.getTicketsByStatus tickets) KanbanBoard.columns)
    ≡ₚ tickets /\
  list_sum
    (List.map (fun s => length (KanbanBoard.getTicketsByStatus tickets s))
       KanbanBoard.columns)
  = length tickets.
Proof.
  split; [intros t s; apply getTicketsByStatus_In|].
  split; [intros s; apply getTicketsByStatus_sublist|].
  split.
  - unfold KanbanBoard.columns, KanbanBoard.getTicketsByStatus. simpl.
    rewrite app_nil_r.
    induction tickets as [|x l IH]; [done|].
    simpl. destruct (Ticket.status x); simpl.
    + by constructor.
    + rewrite <- Permutation_middle. by constructor.
    + rewrite app_assoc, <- Permutation_middle, <- app_assoc.
      by constructor.
    + rewrite !app_assoc, <- Permutation_middle, <- !app_assoc.
      by constructor.
  - unfold KanbanBoard.columns. simpl.
    pose proof (columns_lengths tickets). lia.
Qed.

End Columns.

Section DragFurther.
Implicit Types (tickets : list Ticket.t) (s : TicketStatus).
Implicit Types (page : Index.State) (board : KanbanBoard.State).

Lemma findTicket_mapStatus_ne tickets (id id' : string) s :
  id' <> id ->
  KanbanBoard.findTicket (KanbanBoard.mapStatus tickets id s) id'
  = KanbanBoard.findTicket tickets id'.
Proof.
  intros Hne. unfold KanbanBoard.findTicket, KanbanBoard.mapStatus.
  induction tickets as [|x l IH]; simpl; [done|].
  destruct (String.eqb_spec (Ticket.id x) id) as [Hx|Hx]; simpl.
  - destruct (String.eqb_spec (Ticket.id x) id'); [congruence|done].
  - by destruct (String.eqb (Ticket.id x) id').
Qed.

Lemma mapStatus_mapStatus tickets (id : string) (s1 s2 : TicketStatus) :
  KanbanBoard.mapStatus (KanbanBoard.mapStatus tickets id s1) id s2
  = KanbanBoard.mapStatus tickets id s2.
Proof.
  unfold KanbanBoard.mapStatus. rewrite List.map_map.
  apply List.map_ext. intros x.
  destruct (String.eqb (Ticket.id x) id) eqn:E; simpl; by rewrite E.
Qed.

(** The status a target resolves to does not change when the active
    ticket takes that status. *)
Lemma resolveStatus_after tickets (activeId overId : string) s
    (a : Ticket.t) :
  KanbanBoard.findTicket tickets activeId = Some a ->
  KanbanBoard.resolveStatus tickets overId = Some s ->
  KanbanBoard.resolveStatus (KanbanBoard.mapStatus tickets activeId s) overId
  = Some s.
Proof.
  intros Ha. unfold KanbanBoard.resolveStatus.
  repeat (destruct (Js.includes overId _); [done|]).
  destruct (String.eqb_spec overId activeId) as [->|Hne].
  - by rewrite (findTicket_mapStatus _ _ _ _ Ha).
  - by rewrite findTicket_mapStatus_ne.
Qed.

(** A gesture the handler declines. *)
Lemma dragEnd_declined page board (event : KanbanBoard.DragEndEvent) :
  (KanbanBoard.over event = None \/
   KanbanBoard.findTicket (Index.tickets page) (KanbanBoard.active event)
     = None \/
   (exists overId,
       KanbanBoard.over event = Some overId /\
       KanbanBoard.resolveStatus (Index.tickets page) overId = None)) ->
  Index.dragEnd page board event = page.
Proof.
  unfold Index.dragEnd, Index.afterBoard, KanbanBoard.handleDragEnd.
  intros [H|[H|(overId & H1 & H2)]].
  - by rewrite H.
  - destruct (KanbanBoard.over event); [|done]. by rewrite H.
  - rewrite H1, H2. by destruct (KanbanBoard.findTicket _ _).
Qed.

(** A gesture that resolves to the status the active ticket has. *)
Lemma dragEnd_same_status page board (event : KanbanBoard.DragEndEvent)
    (overId : string) (a : Ticket.t) :
  KanbanBoard.over event = Some overId ->
  KanbanBoard.findTicket (Index.tickets page) (KanbanBoard.active event)
    = Some a ->
  KanbanBoard.resolveStatus (Index.tickets page) overId
    = Some (Ticket.status a) ->
  Index.dragEnd page board event = page.
Proof.
  intros Hover Ha Hs.
  unfold Index.dragEnd, Index.afterBoard, KanbanBoard.handleDragEnd.
  rewrite Hover, Ha, Hs. by rewrite decide_True.
Qed.

(** A gesture that resolves to another status. *)
Lemma dragEnd_changed page board (event : KanbanBoard.DragEndEvent)
    (overId : string) (a : Ticket.t) s :
  KanbanBoard.over event = Some overId ->
  KanbanBoard.findTicket (Index.tickets page) (KanbanBoard.active event)
    = Some a ->
  KanbanBoard.resolveStatus (Index.tickets page) overId = Some s ->
  Ticket.status a <> s ->
  Index.dragEnd page board event
  = Index.setTickets page
      (KanbanBoard.mapStatus (Index.tickets page)
         (KanbanBoard.active event) s).
Proof.
  intros Hover Ha Hs Hne.
  unfold Index.dragEnd, Index.afterBoard, KanbanBoard.handleDragEnd.
  rewrite Hover, Ha, Hs. by rewrite decide_False.
Qed.

(** X2. A gesture that ends over nothing, that drags an identifier no
    ticket has, or whose target is neither a column nor a ticket, is
    ignored: the page is exactly as before.  Whatever the gesture, the
    handler writes nothing to the console, leaves the error banner and
    the pending actions alone and clears the dragged identifier. *)
Theorem invalid_drag_is_ignored page board
    (event : KanbanBoard.DragEndEvent) :
  (KanbanBoard.over event = None \/
   KanbanBoard.findTicket (Index.tickets page) (KanbanBoard.active event)
     = None \/
   (exists overId,
       KanbanBoard.over event = Some overId /\
       KanbanBoard.resolveStatus (Index.tickets page) overId = None) ->
   Index.dragEnd page board event = page) /\
  KanbanBoard.state
    (KanbanBoard.handleDragEnd board (Index.tickets page) event)
    = KanbanBoard.setActiveId board None /\
  KanbanBoard.console
    (KanbanBoard.handleDragEnd board (Index.tickets page) event) = [].
Proof.
  split; [apply dragEnd_declined|].
  unfold KanbanBoard.handleDragEnd.
  destruct (KanbanBoard.over event); [|done].
  destruct (KanbanBoard.findTicket _ _); [|done].
  destruct (KanbanBoard.resolveStatus _ _); [|done].
  by destruct (decide _).
Qed.

(** X3. Ending the same gesture twice gives the page that ending it once
    gives: the second drop finds the ticket in the resolved status and
    changes nothing. *)
Theorem dragEnd_twice page board (board' : KanbanBoard.State)
    (event : KanbanBoard.DragEndEvent) :
  Index.dragEnd (Index.dragEnd page board event) board' event
  = Index.dragEnd page board event.
Proof.
  destruct (KanbanBoard.over event) as [overId|] eqn:Hover.
  2: { rewrite (dragEnd_declined page board) by (by left).
       apply dragEnd_declined. by left. }
  destruct (KanbanBoard.findTicket (Index.tickets page)
              (KanbanBoard.active event)) as [a|] eqn:Ha.
  2: { rewrite (dragEnd_declined page board) by (by right; left).
       apply dragEnd_declined. by right; left. }
  destruct (KanbanBoard.resolveStatus (Index.tickets page) overId)
    as [s|] eqn:Hs.
  2: { rewrite (dragEnd_declined page board)
         by (right; right; by exists overId).
       apply dragEnd_declined. right; right. by exists overId. }
  destruct (decide (Ticket.status a = s)) as [<-|Hne].
  - rewrite (dragEnd_same_status page board event overId a) by done.
    by apply (dragEnd_same_status page board' event overId a).
  - rewrite (dragEnd_changed page board event overId a s) by done.
    apply (dragEnd_same_status _ board' event overId
             (Ticket.withStatus a s)); [done|..]; simpl.
    + by apply findTicket_mapStatus.
    + by apply (resolveStatus_after _ _ _ _ a).
Qed.

(** With identifiers that are pairwise distinct the map changes one
    position. *)
Lemma mapStatus_split tickets (id : string) s (t : Ticket.t) :
  NoDup (List.map Ticket.id tickets) ->
  KanbanBoard.findTicket tickets id = Some t ->
  exists l1 l2,
    tickets = l1 ++ t :: l2 /\
    KanbanBoard.mapStatus tickets id s = l1 ++ Ticket.withStatus t s :: l2.
Proof.
  unfold KanbanBoard.findTicket, KanbanBoard.mapStatus.
  induction tickets as [|x l IH]; simpl; [discriminate|].
  intros [Hx Hl]%NoDup_cons.
  destruct (String.eqb_spec (Ticket.id x) id) as [Hid|Hid].
  - intros [= <-]. exists [], l. split; [done|]. simpl. f_equal.
    change (KanbanBoard.mapStatus l id s = l).
    apply mapStatus_current. intros u Hu Hu'. exfalso. apply Hx.
    rewrite Hid, <- Hu'. apply list_elem_of_In, List.in_map. exact Hu.
  - intros Hf. destruct (IH Hl Hf) as (l1 & l2 & -> & Hmap).
    exists (x :: l1), l2. split; [done|]. simpl. by rewrite Hmap.
Qed.

(** X4. With identifiers that are pairwise distinct, a gesture that
    changes the status moves one card: the column the ticket was in has
    one card less, the column it was dropped to has one more and holds
    the ticket with its new status, and the two other columns show the
    same cards as before. *)
Theorem drag_moves_one_card page board (event : KanbanBoard.DragEndEvent)
    (after : list Ticket.t) (a : Ticket.t) :
  NoDup (List.map Ticket.id (Index.tickets page)) ->
  KanbanBoard.findTicket (Index.tickets page) (KanbanBoard.active event)
    = Some a ->
  KanbanBoard.ticketsChange
    (KanbanBoard.handleDragEnd board (Index.tickets page) event)
    = Some after ->
  exists target,
    target <> Ticket.status a /\
    In (Ticket.withStatus a target)
       (KanbanBoard.getTicketsByStatus after target) /\
    S (length (KanbanBoard.getTicketsByStatus after (Ticket.status a)))
    = length (KanbanBoard.getTicketsByStatus (Index.tickets page)
                (Ticket.status a)) /\
    length (KanbanBoard.getTicketsByStatus after target)
    = S (length (KanbanBoard.getTicketsByStatus (Index.tickets page)
                   target)) /\
    forall s, s <> Ticket.status a -> s <> target ->
      KanbanBoard.getTicketsByStatus after s
      = KanbanBoard.getTicketsByStatus (Index.tickets page) s.
Proof.
  intros Hnodup Ha. unfold KanbanBoard.handleDragEnd. rewrite Ha.
  destruct (KanbanBoard.over event) as [overId|]; [|discriminate].
  destruct (KanbanBoard.resolveStatus _ _) as [target|]; [|discriminate].
  destruct (decide _) as [|Hne]; [discriminate|]. simpl.
  intros [= <-]. exists target. split; [done|].
  destruct (mapStatus_split _ _ target _ Hnodup Ha) as (l1 & l2 & Hsplit & ->).
  rewrite Hsplit. unfold KanbanBoard.getTicketsByStatus.
  rewrite !List.filter_app. simpl.
  rewrite !(bool_decide_eq_true_2 (target = target)) by done.
  rewrite !(bool_decide_eq_true_2 (Ticket.status a = Ticket.status a))
    by done.
  rewrite (bool_decide_eq_false_2 (target = Ticket.status a)) by done.
  rewrite (bool_decide_eq_false_2 (Ticket.status a = target)) by done.
  split; [apply List.in_or_app; right; by left|].
  rewrite !List.length_app. simpl.
  split; [lia|]. split; [lia|].
  intros s Hs1 Hs2. rewrite !List.filter_app. simpl.
  rewrite (bool_decide_eq_false_2 (target = s)) by done.
  by rewrite (bool_decide_eq_false_2 (Ticket.status a = s)) by done.
Qed.

End DragFurther.

Section ActionsFurther.
Implicit Types (tickets : list Ticket.t) (s : TicketStatus).
Implicit Types (page : Index.State) (board : KanbanBoard.State).
Implicit Types (svc : Api.Service).

(** X5. The [qa] action changes a status only when the Agent Service has
    answered, and then to done; when the call rejects, the page is
    exactly as before, the message of the failure is stored in
    [implementationError] and the button is enabled again. *)
Theorem qa_action_changes_status_only_on_success page svc board
    (ticket : Ticket.t) :
  let e := KanbanBoard.testStory svc board (Index.tickets page) ticket in
  (forall error : Api.Thrown,
      svc qa (KanbanBoard.testRequest ticket) = inl error ->
      KanbanBoard.ticketsChange e = None /\
      Index.testStory page svc board ticket = page /\
      KanbanBoard.implementationError (KanbanBoard.state e)
        = Some (KanbanBoard.errorMessage error "Failed to test story") /\
      KanbanBoard.testingTicketId (KanbanBoard.state e) = None)
  /\
  (forall response : Api.ChatResponse,
      svc qa (KanbanBoard.testRequest ticket) = inr response ->
      KanbanBoard.ticketsChange e
        = Some (KanbanBoard.mapStatus (Index.tickets page)
                  (Ticket.id ticket) done) /\
      KanbanBoard.implementationError (KanbanBoard.state e) = None /\
      KanbanBoard.testingTicketId (KanbanBoard.state e) = None).
Proof.
  unfold Index.testStory, Index.afterBoard, KanbanBoard.testStory.
  split.
  - intros error ->. by simpl.
  - intros response ->. by simpl.
Qed.

(** The button a card shows, by role and status. *)
Lemma getActionButton_spec (role : Role) (ticket : Ticket.t) :
  KanbanBoard.getActionButton role ticket =
  match role, Ticket.status ticket with
  | dev, in_progress => Some KanbanBoard.ImplementStory
  | qa, ready_for_testing => Some KanbanBoard.TestStory
  | _, _ => None
  end.
Proof.
  unfold KanbanBoard.getActionButton.
  destruct role, (Ticket.status ticket);
    repeat (case_decide; try done); intuition congruence.
Qed.

(** X6. The two role actions chain.  A card that offers the [dev] action,
    once that action has succeeded, offers the [qa] action and no longer
    the [dev] one; once the [qa] action has succeeded too, the ticket is
    done, every other field as it was, and no role is offered an action
    on it. *)
Theorem role_actions_chain page (svc1 svc2 : Api.Service)
    (board1 board2 : KanbanBoard.State) (ticket : Ticket.t)
    (r1 r2 : Api.ChatResponse) :
  KanbanBoard.findTicket (Index.tickets page) (Ticket.id ticket)
    = Some ticket ->
  KanbanBoard.getActionButton dev ticket = Some KanbanBoard.ImplementStory ->
  svc1 dev (KanbanBoard.implementRequest ticket) = inr r1 ->
  svc2 qa (KanbanBoard.testRequest
             (Ticket.withStatus ticket ready_for_testing)) = inr r2 ->
  let page1 := Index.implementStory page svc1 board1 ticket in
  let page2 :=
    Index.testStory page1 svc2 board2
      (Ticket.withStatus ticket ready_for_testing) in
  KanbanBoard.findTicket (Index.tickets page1) (Ticket.id ticket)
    = Some (Ticket.withStatus ticket ready_for_testing) /\
  KanbanBoard.getActionButton qa (Ticket.withStatus ticket ready_for_testing)
    = Some KanbanBoard.TestStory /\
  KanbanBoard.getActionButton dev (Ticket.withStatus ticket ready_for_testing)
    = None /\
  KanbanBoard.findTicket (Index.tickets page2) (Ticket.id ticket)
    = Some (Ticket.withStatus ticket done) /\
  Index.tickets page2
    = KanbanBoard.mapStatus (Index.tickets page) (Ticket.id ticket) done /\
  forall role,
    KanbanBoard.getActionButton role (Ticket.withStatus ticket done) = None.
Proof.
  intros Hfind _ H1 H2. simpl.
  unfold Index.implementStory, Index.testStory, Index.afterBoard,
    KanbanBoard.implementStory, KanbanBoard.testStory.
  rewrite H1. simpl. rewrite H2. simpl.
  rewrite mapStatus_mapStatus.
  rewrite !(findTicket_mapStatus _ _ _ _ Hfind).
  repeat split; try done.
  intros role. rewrite getActionButton_spec. by destruct role.
Qed.

Lemma assignTicket_lookup tickets (id : string) (r : Role) (i : nat) :
  KanbanBoard.assignTicket tickets id r !! i =
  (fun t => if String.eqb (Ticket.id t) id
            then Ticket.withAssignee t r else t) <$> tickets !! i.
Proof. unfold KanbanBoard.assignTicket. apply list_lookup_fmap. Qed.

(** X7. Reassigning a ticket keeps the length and the order of the
    collection; the ticket at each position keeps its id, title,
    description, status, priority, story points and epic reference; a
    ticket with another id is unchanged and a ticket with the given id
    has the new assignee. *)
Theorem assignTicket_frame tickets (ticketId : string) (newAssignee : Role) :
  length (KanbanBoard.assignTicket tickets ticketId newAssignee)
    = length tickets /\
  forall (i : nat) (t : Ticket.t),
    tickets !! i = Some t ->
    exists t',
      KanbanBoard.assignTicket tickets ticketId newAssignee !! i = Some t' /\
      Ticket.id t' = Ticket.id t /\
      Ticket.title t' = Ticket.title t /\
      Ticket.description t' = Ticket.description t /\
      Ticket.status t' = Ticket.status t /\
      Ticket.priority t' = Ticket.priority t /\
      Ticket.storyPoints t' = Ticket.storyPoints t /\
      Ticket.epicId t' = Ticket.epicId t /\
      (Ticket.id t = ticketId -> Ticket.assignee t' = newAssignee) /\
      (Ticket.id t <> ticketId -> t' = t).
Proof.
  split; [apply List.length_map|].
  intros i t Hi. rewrite assignTicket_lookup, Hi. simpl.
  destruct (String.eqb_spec (Ticket.id t) ticketId).
  - exists (Ticket.withAssignee t newAssignee). by repeat split.
  - exists t. by repeat split.
Qed.

(** X8. Reassigning and changing a status do not interfere: done in
    either order they give the same collection, and reassigning never
    moves a card to another column. *)
Theorem assign_and_status_commute tickets (id1 id2 : string) (r : Role) s :
  KanbanBoard.mapStatus (KanbanBoard.assignTicket tickets id1 r) id2 s
  = KanbanBoard.assignTicket (KanbanBoard.mapStatus tickets id2 s) id1 r
  /\
  forall column,
    KanbanBoard.getTicketsByStatus (KanbanBoard.assignTicket tickets id1 r)
      column
    = KanbanBoard.assignTicket
        (KanbanBoard.getTicketsByStatus tickets column) id1 r.
Proof.
  split.
  - unfold KanbanBoard.mapStatus, KanbanBoard.assignTicket.
    rewrite !List.map_map. apply List.map_ext. intros x.
    destruct (String.eqb (Ticket.id x) id1) eqn:E1,
      (String.eqb (Ticket.id x) id2) eqn:E2; simpl; by rewrite ?E1, ?E2.
  - intros column.
    unfold KanbanBoard.getTicketsByStatus, KanbanBoard.assignTicket.
    induction tickets as [|x l IH]; [done|]. simpl.
    assert (Ticket.status
              (if String.eqb (Ticket.id x) id1
               then Ticket.withAssignee x r else x) = Ticket.status x) as ->
      by (by destruct (String.eqb _ _)).
    destruct (bool_decide _); simpl; by rewrite IH.
Qed.

End ActionsFurther.

Section StoryIdentifier.

Lemma split_no_separator (sep : ascii) (s : string) :
  Js.allChars (fun x => negb (Ascii.eqb x sep)) s = true ->
  Js.split sep s = [s].
Proof.
  induction s as [|c s IH]; simpl; [done|].
  intros [Hc Hs]%andb_prop. apply negb_true_iff in Hc.
  by rewrite Hc, (IH Hs).
Qed.

Lemma split_at_separator (sep : ascii) (a b : string) :
  Js.allChars (fun x => negb (Ascii.eqb x sep)) a = true ->
  Js.split sep (a +:+ String sep b) = a :: Js.split sep b.
Proof.
  induction a as [|c a IH]; simpl.
  - intros _. change ("" +:+ String sep b) with (String sep b). simpl.
    by rewrite Ascii.eqb_refl.
  - intros [Hc Ha]%andb_prop. apply negb_true_iff in Hc.
    rewrite ?append_cons. simpl. by rewrite Hc, (IH Ha).
Qed.

Lemma split_head (sep c : ascii) (b : string) :
  c <> sep ->
  exists h rest, Js.split sep (String c b) = String c h :: rest.
Proof.
  intros Hc. simpl. apply Ascii.eqb_neq in Hc. rewrite Hc.
  destruct (Js.split sep b) as [|h rest]; eauto.
Qed.

Lemma stamped_no_dot (t : N) (ident : string) :
  TicketCreationModal.stamped t ident ->
  Js.allChars (fun x => negb (Ascii.eqb x "."%char)) ident = true.
Proof.
  intros Hst.
  assert (forall n, Js.allChars (fun x => negb (Ascii.eqb x "."%char))
                      (Js.numberToString n) = true) as Hnum.
  { intros n. apply (allChars_impl Js.isDigit); [|apply numberToString_digits].
    intros x Hx. apply negb_true_iff, Ascii.eqb_neq. by intros ->. }
  destruct Hst as [->|[i ->]]; unfold TicketCreationModal.epicId;
    rewrite !allChars_app, !Hnum; by simpl.
Qed.

(** X9. The command of the [dev] action names the story by epic and
    ticket: for a ticket whose identifier was built by one of the two
    creation paths it is [dev implement story <epicId>.<id>]; for a ticket
    whose identifier already has a dot followed by a non-empty part it is
    [dev implement story <id>]. *)
Theorem implement_command (ticket : Ticket.t) :
  (forall (now : N) (epicId : string),
      TicketCreationModal.stamped now (Ticket.id ticket) ->
      Ticket.epicId ticket = Some epicId ->
      Api.message (KanbanBoard.implementRequest ticket)
      = "dev implement story " +:+ epicId +:+ "." +:+ Ticket.id ticket) /\
  (forall (a b : string) (c : ascii),
      Ticket.id ticket = a +:+ String "."%char (String c b) ->
      Js.allChars (fun x => negb (Ascii.eqb x "."%char)) a = true ->
      c <> "."%char ->
      Api.message (KanbanBoard.implementRequest ticket)
      = "dev implement story " +:+ Ticket.id ticket).
Proof.
  unfold KanbanBoard.implementRequest, KanbanBoard.storyIdentifier. simpl.
  split.
  - intros now epicId Hst Hepic.
    rewrite (split_no_separator _ _ (stamped_no_dot _ _ Hst)). simpl.
    by rewrite Hepic.
  - intros a b c Hid Ha Hc. rewrite Hid.
    rewrite (split_at_separator _ _ _ Ha).
    destruct (split_head "."%char c b Hc) as (h & rest & ->). by simpl.
Qed.

End StoryIdentifier.

(** * Further properties of the modal *)

Section ManualPath.
Import TicketCreationModal.
Variables (page : Index.State) (clock : nat -> N) (modal : State).

(** X10. The manual path.  With a title that is empty or blank nothing is
    created and the page is exactly as before.  Otherwise the page gets
    exactly one more epic and one more ticket and the modal is closed;
    the ticket refers to the epic, title and description of both are the
    title of the form, the ticket is in the backlog with the assignee,
    priority and story points of the form, and the modal is back to the
    welcome message and the initial form. *)
Theorem manual_creation :
  (Js.trim (title (ticketForm modal)) = "" ->
   createEpicManually clock modal = None /\
   Index.createManually page clock modal = page) /\
  (Js.trim (title (ticketForm modal)) <> "" ->
   exists (t : Ticket.t) (epic : Epic.t) (e : Effect),
     createEpicManually clock modal = Some e /\
     ticketsCreated e = Some ([t], epic) /\
     Index.tickets (Index.createManually page clock modal)
       = Index.tickets page ++ [t] /\
     Index.epics (Index.createManually page clock modal)
       = Index.epics page ++ [epic] /\
     Index.isTicketCreationOpen (Index.createManually page clock modal)
       = false /\
     Ticket.epicId t = Some (Epic.id epic) /\
     Ticket.title t = title (ticketForm modal) /\
     Ticket.description t = title (ticketForm modal) /\
     Epic.title epic = title (ticketForm modal) /\
     Epic.description epic = title (ticketForm modal) /\
     Ticket.status t = backlog /\
     Ticket.assignee t = assignee (ticketForm modal) /\
     Ticket.priority t = priority (ticketForm modal) /\
     Ticket.storyPoints t = Some (storyPoints (ticketForm modal)) /\
     messages (state e) = [welcome (clock 3)] /\
     ticketForm (state e) = initialForm /\
     inputMessage (state e) = "" /\
     showForm (state e) = false).
Proof.
  unfold Index.createManually, createEpicManually, Js.truthy.
  split.
  - intros ->. by simpl.
  - intros Hne.
    destruct (Js.trim (title (ticketForm modal))) as [|c rest] eqn:E;
      [done|].
    simpl. eexists _, _, _. split; [reflexivity|]. by repeat split.
Qed.

(** What the controls of the form can make it hold. *)
Lemma form_values (f : TicketForm) :
  FormReachable f ->
  In (assignee f) assigneeItems /\
  exists points : Z,
    storyPoints f = Js.Finite points /\
    In points [1; 2; 3; 5; 8; 13]%Z.
Proof.
  induction 1 as [|f e _ [IHa IHp] Hoff].
  - split; [simpl; tauto|]. exists 5%Z. split; [done|simpl; tauto].
  - destruct e as [v|v|v|v]; simpl in *; try done.
    split; [done|].
    repeat (destruct Hoff as [<-|Hoff];
            [eexists; split; [by vm_compute|simpl; tauto]|]).
    destruct Hoff.
Qed.

(** X11. Whatever is done with the controls of the form, a ticket of the
    manual path is assigned to [dev] or [qa], never to [analyst] or [pm],
    and carries 1, 2, 3, 5, 8 or 13 story points. *)
Theorem manual_ticket_values (e : Effect) (t : Ticket.t) (epic : Epic.t) :
  FormReachable (ticketForm modal) ->
  createEpicManually clock modal = Some e ->
  ticketsCreated e = Some ([t], epic) ->
  (Ticket.assignee t = dev \/ Ticket.assignee t = qa) /\
  exists points : Z,
    Ticket.storyPoints t = Some (Js.Finite points) /\
    In points [1; 2; 3; 5; 8; 13]%Z.
Proof.
  intros [Ha (points & Hp & Hin)]%form_values. unfold createEpicManually.
  destruct (Js.truthy _); [|discriminate].
  intros [= <-]. simpl. intros [= <- _]. simpl.
  split; [|exists points; by rewrite Hp].
  unfold assigneeItems in Ha. simpl in Ha. intuition.
Qed.

End ManualPath.

Section Chat.
Import TicketCreationModal.
Variables (svc : Api.Service) (toISOString : N -> string)
  (clock : nat -> N) (modal : State).

Lemma sliceLast_length {A : Type} (n : nat) (l : list A) :
  length (sliceLast n l) = Nat.min n (length l).
Proof. unfold sliceLast. rewrite length_drop. lia. Qed.

Lemma sliceLast_suffix {A : Type} (n : nat) (l : list A) :
  sliceLast n l `suffix_of` l.
Proof. unfold sliceLast. apply suffix_drop. Qed.

(** X12. [sendMessage] does nothing when the input is empty or blank or
    a call is pending.  Otherwise the messages shown before stay, in
    order, and exactly two are added: the trimmed input as a message of
    the user, then one message of the agent, which carries the response
    of the service or, when the call rejected, the fixed apology.  The
    input is cleared and the form is not touched. *)
Theorem sendMessage_appends :
  ((Js.trim (inputMessage modal) = "" \/ isLoading modal = true) ->
   sendMessage svc toISOString clock modal = None) /\
  (Js.trim (inputMessage modal) <> "" -> isLoading modal = false ->
   exists (modal' : State) (mine reply : Message),
     sendMessage svc toISOString clock modal = Some modal' /\
     messages modal' = messages modal ++ [mine; reply] /\
     sender mine = user /\
     content mine = Js.trim (inputMessage modal) /\
     sender reply = agent /\
     content reply =
       match svc pm (chatRequest toISOString (messages modal)
                       (Js.trim (inputMessage modal))) with
       | inr response => Api.response response
       | inl _ => sendFailedContent
       end /\
     inputMessage modal' = "" /\
     isLoading modal' = false /\
     ticketForm modal' = ticketForm modal).
Proof.
  unfold sendMessage, Js.truthy. split.
  - intros [->| ->]; [done|]. by rewrite orb_true_r.
  - intros Hne ->.
    destruct (Js.trim (inputMessage modal)) as [|c rest] eqn:E; [done|].
    simpl. eexists _, _, _. split; [reflexivity|]. simpl.
    split; [by rewrite <- app_assoc|].
    repeat split; try done.
    + by destruct (svc pm _).
    + by destruct (svc pm _).
Qed.

(** The entry of a request context. *)
Lemma chatRequest_context (msgs : list Message) (text : string) :
  exists items,
    Api.context (chatRequest toISOString msgs text)
    = [("purpose", Api.JsString "ticket_creation");
       ("previous_messages", Api.JsArray items)] /\
    length items = Nat.min 8 (length msgs).
Proof.
  unfold chatRequest. simpl. eexists. split; [reflexivity|].
  by rewrite List.length_map, sliceLast_length.
Qed.

(** X13. The request of the chat carries the text as typed, trimmed, and
    as context at most the last eight messages shown before, oldest
    first: all of them when there are eight or fewer. *)
Theorem chat_context_is_bounded (msgs : list Message) (text : string) :
  Api.message (chatRequest toISOString msgs text) = text /\
  sliceLast 8 msgs `suffix_of` msgs /\
  length (sliceLast 8 msgs) = Nat.min 8 (length msgs) /\
  (length msgs <= 8 -> sliceLast 8 msgs = msgs) /\
  Api.context (chatRequest toISOString msgs text)
  = [("purpose", Api.JsString "ticket_creation");
     ("previous_messages",
      Api.JsArray
        (List.map (fun m =>
           Api.JsObject
             [("sender", Api.JsString (senderString (sender m)));
              ("content", Api.JsString (content m));
              ("timestamp", Api.JsString (toISOString (timestamp m)))])
           (sliceLast 8 msgs)))].
Proof.
  split; [done|]. split; [apply sliceLast_suffix|].
  split; [apply sliceLast_length|]. split; [|done].
  intros Hle. unfold sliceLast.
  by replace (length msgs - 8) with 0 by lia.
Qed.

End Chat.

(** * Further properties of the matcher and of the patterns *)

Section MatcherFacts.
Context {R : Type}.
Implicit Types (k : string -> Regex.captures -> option R) (x : R).
Implicit Types (p : ascii -> bool) (caps : Regex.captures).

Lemma length_append (s1 s2 : string) :
  String.length (s1 +:+ s2) = String.length s1 + String.length s2.
Proof.
  induction s1 as [|c s1 IH]; [done|].
  rewrite append_cons. simpl. by rewrite IH.
Qed.

Lemma append_empty_r (s : string) : s +:+ "" = s.
Proof.
  induction s as [|c s IH]; [done|]. by rewrite append_cons, IH.
Qed.

Lemma append_assoc (s1 s2 s3 : string) :
  (s1 +:+ s2) +:+ s3 = s1 +:+ (s2 +:+ s3).
Proof.
  induction s1 as [|c s1 IH]; [done|]. by rewrite !append_cons, IH.
Qed.

Lemma take_append (s1 s2 : string) :
  Js.take (String.length (s1 +:+ s2) - String.length s2) (s1 +:+ s2) = s1.
Proof.
  rewrite length_append.
  replace (String.length s1 + String.length s2 - String.length s2)
    with (String.length s1) by lia.
  induction s1 as [|c s1 IH].
  - rewrite append_nil. by destruct s2.
  - rewrite append_cons. simpl. by rewrite IH.
Qed.

(** A literal text matches exactly itself. *)
Lemma run_lits (lit s : string) caps k :
  Regex.run (Regex.lits lit) (lit +:+ s) caps k = k s caps.
Proof.
  induction lit as [|c lit IH]; [done|].
  rewrite append_cons. simpl. by rewrite Ascii.eqb_refl.
Qed.

Lemma run_lits_fails (lit s : string) (r : Regex.regex) caps k :
  String.prefix lit s = false ->
  Regex.run (Regex.Seq (Regex.lits lit) r) s caps k = None.
Proof.
  revert s. induction lit as [|c lit IH]; intros s.
  { by destruct s. }
  destruct s as [|c' s]; [done|]. simpl.
  destruct (ascii_dec c c') as [->|Hne].
  - rewrite Ascii.eqb_refl. intros Hp. by apply (IH s) in Hp.
  - intros _. apply Ascii.eqb_neq in Hne. by rewrite Hne.
Qed.

(** A greedy repetition of a class takes the whole run of the class when
    what follows matches after it. *)
Lemma greedy_class_run p (w rest : string) k caps x (fuel : nat) :
  Js.allChars p w = true ->
  (forall c rest', rest = String c rest' -> p c = false) ->
  k rest caps = Some x ->
  String.length (w +:+ rest) <= fuel ->
  Regex.iterate (Regex.run (Regex.Class p)) true k fuel (w +:+ rest) caps
  = Some x.
Proof.
  intros Hw Hrest Hk. revert fuel.
  induction w as [|c w IH]; intros fuel Hfuel.
  - rewrite append_nil. destruct fuel as [|fuel]; simpl; [done|].
    destruct rest as [|c rest']; [by rewrite Hk|].
    by rewrite (Hrest c rest' eq_refl), Hk.
  - rewrite append_cons in *. simpl in Hw, Hfuel.
    apply andb_prop in Hw as [Hc Hw].
    destruct fuel as [|fuel]; [lia|]. simpl. rewrite Hc.
    rewrite (proj2 (Nat.ltb_lt _ _)) by lia.
    rewrite IH; [done|done|lia].
Qed.

(** A lazy repetition of a class stops at the first place where what
    follows matches. *)
Lemma lazy_class_run p (u rest : string) k caps x (fuel : nat) :
  Js.allChars p u = true ->
  (forall u1 c u2, u = u1 +:+ String c u2 ->
     k (String c u2 +:+ rest) caps = None) ->
  k rest caps = Some x ->
  String.length (u +:+ rest) <= fuel ->
  Regex.iterate (Regex.run (Regex.Class p)) false k fuel (u +:+ rest) caps
  = Some x.
Proof.
  intros Hu Hnot Hk. revert fuel.
  induction u as [|c u IH]; intros fuel Hfuel.
  - rewrite append_nil. destruct fuel as [|fuel]; simpl; by rewrite ?Hk.
  - pose proof (Hnot "" c u eq_refl) as Hhere.
    rewrite append_cons in *. simpl in Hu, Hfuel.
    apply andb_prop in Hu as [Hc Hu].
    destruct fuel as [|fuel]; [lia|]. simpl.
    rewrite Hhere, Hc.
    rewrite (proj2 (Nat.ltb_lt _ _)) by lia.
    apply IH; [done| |lia].
    intros u1 c' u2 ->. apply (Hnot (String c u1) c' u2). by rewrite append_cons.
Qed.

End MatcherFacts.

Section SearchFacts.

Lemma includes_prefix (s lit : string) :
  Js.includes s lit = false -> String.prefix lit s = false.
Proof. destruct s; simpl; by intros [? _]%orb_false_elim. Qed.

Lemma includes_tail (c : ascii) (s lit : string) :
  Js.includes (String c s) lit = false -> Js.includes s lit = false.
Proof. simpl. by intros [_ ?]%orb_false_elim. Qed.

Lemma search_here (r : Regex.regex) (s : string) (m : Regex.result) :
  Regex.matchAt r s = Some m -> Regex.search r s = Some m.
Proof. intros H. destruct s; simpl; by rewrite H. Qed.

Lemma search_cons (r : Regex.regex) (c : ascii) (s : string) :
  Regex.search r (String c s) =
  match Regex.matchAt r (String c s) with
  | Some x => Some x
  | None => Regex.search r s
  end.
Proof. reflexivity. Qed.

Lemma search_empty (r : Regex.regex) :
  Regex.search r "" = Regex.matchAt r "".
Proof. simpl. by destruct (Regex.matchAt r ""). Qed.

(** A pattern that starts with a literal text has no match in a text that
    does not contain it. *)
Lemma search_needs_literal (lit : string) (r : Regex.regex) (s : string) :
  Js.includes s lit = false ->
  Regex.search (Regex.Seq (Regex.lits lit) r) s = None.
Proof.
  induction s as [|c s IH]; intros Hs.
  - rewrite search_empty. unfold Regex.matchAt.
    by rewrite (run_lits_fails lit "" r _ _ (includes_prefix _ _ Hs)).
  - rewrite search_cons. unfold Regex.matchAt.
    rewrite (run_lits_fails lit (String c s) r _ _ (includes_prefix _ _ Hs)).
    apply IH. by apply includes_tail in Hs.
Qed.

(** A text that contains none of its own code unit [z] does not begin
    across a [z]. *)
Lemma prefix_stops (lit q b : string) (z : ascii) :
  Js.allChars (fun x => negb (Ascii.eqb x z)) lit = true ->
  String.prefix lit (q +:+ String z b) = true ->
  String.prefix lit q = true.
Proof.
  revert q. induction lit as [|c lit IH]; intros q Hlit.
  { intros _. by destruct q. }
  simpl in Hlit. apply andb_prop in Hlit as [Hc Hlit].
  apply negb_true_iff, Ascii.eqb_neq in Hc.
  destruct q as [|c' q].
  - rewrite append_nil. simpl. by destruct (ascii_dec c z).
  - rewrite append_cons. simpl.
    destruct (ascii_dec c c'); [|done]. by apply IH.
Qed.

(** The search skips a stretch that does not contain the literal and ends
    with a code unit the literal does not have. *)
Lemma search_skips (lit : string) (r : Regex.regex) (pre s : string)
    (z : ascii) :
  Js.includes pre lit = false ->
  Js.allChars (fun x => negb (Ascii.eqb x z)) lit = true ->
  Regex.search (Regex.Seq (Regex.lits lit) r) (pre +:+ String z s)
  = Regex.search (Regex.Seq (Regex.lits lit) r) s.
Proof.
  intros Hpre Hz.
  assert (forall q, String.prefix lit q = false ->
            Regex.matchAt (Regex.Seq (Regex.lits lit) r) (q +:+ String z s)
            = None) as Hfail.
  { intros q Hq. unfold Regex.matchAt. apply run_lits_fails.
    destruct (String.prefix lit (q +:+ String z s)) eqn:E; [|done].
    by rewrite (prefix_stops _ _ _ _ Hz E) in Hq. }
  induction pre as [|c pre IH].
  - pose proof (Hfail "" (includes_prefix _ _ Hpre)) as H.
    rewrite append_nil in *. by rewrite search_cons, H.
  - pose proof (Hfail (String c pre) (includes_prefix _ _ Hpre)) as H.
    rewrite append_cons in *. rewrite search_cons, H.
    apply IH. by apply includes_tail in Hpre.
Qed.

Lemma includes_suffix_prefix (a q lit : string) :
  Js.includes (a +:+ q) lit = false -> String.prefix lit q = false.
Proof.
  induction a as [|c a IH].
  - rewrite append_nil. apply includes_prefix.
  - rewrite append_cons. intros H%includes_tail. by apply IH.
Qed.

End SearchFacts.

Section TrimFacts.

Lemma trimStart_split (t : string) :
  exists w, t = w +:+ Js.trimStart t /\ Js.allChars Js.isWhiteSpace w = true.
Proof.
  induction t as [|c t (w & Ht & Hw)]; [by exists ""|].
  simpl. destruct (Js.isWhiteSpace c) eqn:Hc.
  - exists (String c w). rewrite append_cons, <- Ht. simpl.
    by rewrite Hc, Hw.
  - by exists "".
Qed.

Lemma trimStart_head (t u : string) (c : ascii) :
  Js.trimStart t = String c u -> Js.isWhiteSpace c = false.
Proof.
  induction t as [|c' t IH]; [done|]. simpl.
  destruct (Js.isWhiteSpace c') eqn:Hc; [done|]. by intros [= <- _].
Qed.

Lemma trimStart_idempotent (t : string) :
  Js.trimStart (Js.trimStart t) = Js.trimStart t.
Proof.
  induction t as [|c t IH]; [done|]. simpl.
  destruct (Js.isWhiteSpace c) eqn:Hc; [done|]. simpl. by rewrite Hc.
Qed.

Lemma trim_trimStart (t : string) : Js.trim (Js.trimStart t) = Js.trim t.
Proof. unfold Js.trim. by rewrite trimStart_idempotent. Qed.

End TrimFacts.

Section EpicParsing.
Import TicketCreationModal.

Lemma run_seq {R : Type} (r1 r2 : Regex.regex) (s : string)
    (caps : Regex.captures) (k : string -> Regex.captures -> option R) :
  Regex.run (Regex.Seq r1 r2) s caps k
  = Regex.run r1 s caps (fun s' caps' => Regex.run r2 s' caps' k).
Proof. reflexivity. Qed.

Lemma run_star {R : Type} (greedy : bool) (r : Regex.regex) (s : string)
    (caps : Regex.captures) (k : string -> Regex.captures -> option R) :
  Regex.run (Regex.Star greedy r) s caps k
  = Regex.iterate (Regex.run r) greedy k (String.length s) s caps.
Proof. reflexivity. Qed.

Lemma run_lit_cons {R : Type} (a c : ascii) (s : string)
    (caps : Regex.captures) (k : string -> Regex.captures -> option R) :
  Regex.run (Regex.Lit a) (String c s) caps k
  = if Ascii.eqb a c then k s caps else None.
Proof. reflexivity. Qed.

Lemma run_alt {R : Type} (r1 r2 : Regex.regex) (s : string)
    (caps : Regex.captures) (k : string -> Regex.captures -> option R) :
  Regex.run (Regex.Alt r1 r2) s caps k
  = match Regex.run r1 s caps k with
    | Some x => Some x
    | None => Regex.run r2 s caps k
    end.
Proof. reflexivity. Qed.

Lemma run_end_cons {R : Type} (c : ascii) (s : string)
    (caps : Regex.captures) (k : string -> Regex.captures -> option R) :
  Regex.run Regex.EndOfInput (String c s) caps k = None.
Proof. reflexivity. Qed.

(** [(?:\n|$)] does not match in front of a code unit that is no line
    break. *)
Lemma line_end_fails {R : Type} (c : ascii) (s : string)
    (caps : Regex.captures) (k : string -> Regex.captures -> option R) :
  negb (Js.isLineTerminator c) = true ->
  Regex.run (Regex.Alt Regex.newline Regex.EndOfInput) (String c s) caps k
  = None.
Proof.
  intros Hc. unfold Regex.newline.
  rewrite run_alt, run_lit_cons, run_end_cons.
  destruct (Ascii.eqb_spec "010"%char c) as [<-|]; [done|done].
Qed.

(** [(?:\n\n|$)] does not match in front of a text that is not empty and
    does not begin with two line breaks. *)
Lemma paragraph_end_fails {R : Type} (c : ascii) (s : string)
    (caps : Regex.captures) (k : string -> Regex.captures -> option R) :
  String.prefix (TicketCreationModal.nl +:+ TicketCreationModal.nl)
    (String c s) = false ->
  Regex.run
    (Regex.Alt (Regex.Seq Regex.newline Regex.newline) Regex.EndOfInput)
    (String c s) caps k = None.
Proof.
  unfold TicketCreationModal.nl, Regex.newline. intros Hno.
  rewrite run_alt, run_seq, run_lit_cons, run_end_cons.
  destruct (Ascii.eqb_spec "010"%char c) as [<-|]; [|done].
  destruct s as [|c' s]; [done|]. rewrite run_lit_cons.
  destruct (Ascii.eqb_spec "010"%char c') as [<-|]; [|done].
  by destruct s.
Qed.

(** A capturing group around a lazy [+] of a class captures up to the
    first place where what follows matches. *)
Lemma group_lazy_run {R : Type} (p : ascii -> bool) (n : nat)
    (c0 : ascii) (u rest : string) (caps : Regex.captures)
    (k : string -> Regex.captures -> option R) (x : R) :
  Js.allChars p (String c0 u) = true ->
  (forall u1 c u2 caps', u = u1 +:+ String c u2 ->
     k (String c u2 +:+ rest) caps' = None) ->
  k rest ((n, String c0 u) :: caps) = Some x ->
  Regex.run (Regex.Group n (Regex.plus false (Regex.Class p)))
    (String c0 u +:+ rest) caps k = Some x.
Proof.
  intros Hu Hnot Hk. simpl in Hu. apply andb_prop in Hu as [Hc0 Hu].
  unfold Regex.plus. simpl. rewrite Hc0.
  apply lazy_class_run; [done| | |done].
  - intros u1 c u2 ->. apply Hnot with (u1 := u1). done.
  - pose proof (take_append (String c0 u) rest) as Htake.
    rewrite append_cons in Htake at 1. simpl in Htake. by rewrite Htake.
Qed.

(** What the title pattern finds in a response that begins with a
    labelled title line. *)
Lemma title_match (t after : string) (c0 : ascii) (u : string) :
  Js.allChars (fun c => negb (Js.isLineTerminator c)) t = true ->
  Js.trimStart t = String c0 u ->
  jsMatch ("Title:" +:+ t +:+ nl +:+ after) epicTitlePattern
  = Some [(1, Js.trimStart t)].
Proof.
  intros Ht Hu. unfold jsMatch.
  destruct (trimStart_split t) as (w & Hsplit & Hw).
  assert (Js.allChars (fun c => negb (Js.isLineTerminator c))
            (String c0 u) = true) as Hline.
  { rewrite Hsplit, allChars_app in Ht. apply andb_prop in Ht as [_ Ht].
    by rewrite Hu in Ht. }
  rewrite (search_here _ _ {| Regex.groups := [(1, Js.trimStart t)];
                              Regex.rest := after |}); [done|].
  unfold Regex.matchAt, epicTitlePattern, Regex.seqs.
  rewrite run_seq, run_lits, run_seq.
  rewrite Hsplit at 1. rewrite append_assoc.
  unfold Regex.space. rewrite run_star.
  apply greedy_class_run; [done| | |done].
  - intros c rest'. rewrite Hu, append_cons. intros [= <- _].
    by apply (trimStart_head t u).
  - cbv beta. rewrite Hu. rewrite run_seq.
    apply group_lazy_run; [done| |].
    + intros u1 c u2 caps' ->. rewrite append_cons.
      apply line_end_fails.
      simpl in Hline. apply andb_prop in Hline as [_ Hline].
      rewrite allChars_app in Hline. apply andb_prop in Hline as [_ Hline].
      simpl in Hline. by apply andb_prop in Hline as [Hc _].
    + unfold nl. rewrite append_cons, append_nil.
      unfold Regex.newline. by rewrite run_alt, run_lit_cons.
Qed.

(** What the description pattern finds after a stretch without the label
    that ends its line. *)
Lemma description_match (pre d : string) (c0 : ascii) (u : string) :
  Js.includes pre "Description:" = false ->
  Js.includes d (nl +:+ nl) = false ->
  Js.trimStart d = String c0 u ->
  jsMatch (pre +:+ nl +:+ "Description:" +:+ d) epicDescPattern
  = Some [(1, Js.trimStart d)].
Proof.
  intros Hpre Hd Hu. unfold jsMatch, epicDescPattern, Regex.seqs, nl.
  rewrite (append_cons "010" ""), append_nil.
  rewrite search_skips; [|done|done].
  destruct (trimStart_split d) as (w & Hsplit & Hw).
  rewrite (search_here _ _ {| Regex.groups := [(1, Js.trimStart d)];
                              Regex.rest := "" |}); [done|].
  unfold Regex.matchAt.
  rewrite run_seq, run_lits, run_seq.
  rewrite Hsplit at 1.
  rewrite <- (append_empty_r (w +:+ Js.trimStart d)), append_assoc.
  unfold Regex.space. rewrite run_star.
  apply greedy_class_run; [done| | |done].
  - intros c rest'. rewrite Hu, append_cons. intros [= <- _].
    by apply (trimStart_head d u).
  - cbv beta. rewrite Hu. rewrite run_seq. unfold Regex.dotAll.
    apply group_lazy_run; [|  |by simpl].
    + clear. generalize (String c0 u). intros s.
      induction s as [|c s IH]; simpl; [done|exact IH].
    + intros u1 c u2 caps' Hu2. rewrite append_empty_r.
      assert (String.prefix (nl +:+ nl) (String c u2) = false) as Hno.
      { apply (includes_suffix_prefix (w +:+ String c0 u1)).
        rewrite append_assoc, append_cons, <- Hu2, <- Hu.
        by rewrite <- Hsplit. }
      by apply paragraph_end_fails.
Qed.

(** X15. The epic pass never fails on unexpected text.  A response that
    does not contain [Title:] gives the title typed into the form or,
    when that is empty, [Generated Epic]; a response that does not
    contain [Description:] gives the fixed description. *)
Theorem epic_fallbacks (form : TicketForm) (response : string) :
  (Js.includes response "Title:" = false ->
   epicTitle form response
   = if Js.isEmpty (title form) then "Generated Epic" else title form) /\
  (Js.includes response "Description:" = false ->
   epicDescription response = "Epic generated from conversation").
Proof.
  unfold epicTitle, epicDescription, jsMatch, epicTitlePattern,
    epicDescPattern, Regex.seqs.
  split; intros H; rewrite (search_needs_literal _ _ _ H); simpl; [|done].
  unfold orString, Js.truthy. by destruct (Js.isEmpty _).
Qed.

(** X16. A response in the format the prompt asks for is read back: from
    [Title: <t>], a line break and [Description: <d>] the epic gets the
    trimmed [t] as title and the trimmed [d] as description, for every
    one-line [t] and every [d] without an empty line, neither blank nor
    containing the other label. *)
Theorem epic_labelled_response (form : TicketForm) (t d : string) :
  Js.allChars (fun c => negb (Js.isLineTerminator c)) t = true ->
  Js.trimStart t <> "" ->
  Js.includes ("Title:" +:+ t) "Description:" = false ->
  Js.includes d (nl +:+ nl) = false ->
  Js.trimStart d <> "" ->
  let response := "Title:" +:+ t +:+ nl +:+ "Description:" +:+ d in
  epicTitle form response = Js.trim t /\
  epicDescription response = Js.trim d.
Proof.
  intros Ht Htne Hlabel Hd Hdne. simpl.
  assert (exists ct ut, Js.trimStart t = String ct ut) as (ct & ut & Et)
    by (destruct (Js.trimStart t); [done|eauto]).
  assert (exists cd ud, Js.trimStart d = String cd ud) as (cd & ud & Ed)
    by (destruct (Js.trimStart d); [done|eauto]).
  split.
  - unfold epicTitle. rewrite (title_match t _ ct ut Ht Et).
    apply trim_trimStart.
  - unfold epicDescription.
    rewrite <- (append_assoc "Title:" t).
    rewrite (description_match _ d cd ud Hlabel Hd Ed).
    apply trim_trimStart.
Qed.

End EpicParsing.

Section StoryParsing.
Import TicketCreationModal.
Variables (page : Index.State) (svc : Api.Service) (clock : nat -> N)
  (modal : State).

Lemma storyMatches_without_label (response : string) :
  Js.includes response "Story " = false ->
  storyMatches response = [].
Proof.
  intros H. apply storyMatches_nil.
  unfold storyPattern, Regex.seqs. by apply search_needs_literal.
Qed.

Lemma lookup_map {A B : Type} (f : A -> B) (l : list A) (i : nat) :
  List.map f l !! i = f <$> l !! i.
Proof. apply list_lookup_fmap. Qed.

(** X17. A story-breakdown response that nowhere contains [Story ]
    followed by the rest of a block, in particular one that does not
    contain the text [Story ] at all, gives the single ticket that
    repeats the epic: title and description of the epic, and the story
    points of the form, or 5 when the form holds [0], [-0] or [NaN]. *)
Theorem response_without_story_label (r1 r2 : Api.ChatResponse) :
  svc pm (epicRequest (conversationSummary (messages modal))) = inr r1 ->
  svc pm (storiesRequest (conversationSummary (messages modal))) = inr r2 ->
  Js.includes (Api.response r2) "Story " = false ->
  exists (t : Ticket.t) (epic : Epic.t),
    ticketsCreated (generateEpicFromConversation svc clock modal)
      = Some ([t], epic) /\
    Ticket.title t = Epic.title epic /\
    Ticket.description t = Epic.description epic /\
    Ticket.epicId t = Some (Epic.id epic) /\
    Ticket.storyPoints t
      = Some (match storyPoints (ticketForm modal) with
              | Js.Finite 0 | Js.NegativeZero | Js.NaN => Js.Finite 5
              | points => points
              end).
Proof.
  intros H1 H2 Hno.
  rewrite (generate_fallback svc clock modal r1 r2 H1 H2
             (storyMatches_without_label _ Hno)).
  eexists _, _. split; [reflexivity|]. simpl. repeat split.
  unfold orNumber, Js.truthyNumber.
  by destruct (storyPoints (ticketForm modal)) as [[| |]| | | |].
Qed.

(** X18. When the story pattern has matches, the run produces one ticket
    per match, in the order of the matches in the response: the ticket at
    position [i] has the trimmed first and second capture of match [i]
    as title and description, what [parseInt] makes of its third capture
    as story points (the nearest double to the integer written, or
    [Infinity]), and an identifier that ends in [-i]. *)
Theorem tickets_follow_story_blocks (r1 r2 : Api.ChatResponse)
    (first : Regex.captures) (others : list Regex.captures) :
  svc pm (epicRequest (conversationSummary (messages modal))) = inr r1 ->
  svc pm (storiesRequest (conversationSummary (messages modal))) = inr r2 ->
  storyMatches (Api.response r2) = first :: others ->
  exists (newTickets : list Ticket.t) (epic : Epic.t),
    ticketsCreated (generateEpicFromConversation svc clock modal)
      = Some (newTickets, epic) /\
    length newTickets = S (length others) /\
    forall (i : nat) (caps : Regex.captures),
      (first :: others) !! i = Some caps ->
      exists t,
        newTickets !! i = Some t /\
        Ticket.title t = Js.trim (group 1 caps) /\
        Ticket.description t = Js.trim (group 2 caps) /\
        Ticket.storyPoints t = Some (Js.parseInt (Js.trim (group 3 caps))) /\
        Ticket.id t = "TICKET-" +:+ Js.numberToString (clock (2 + i)) +:+ "-"
                        +:+ Js.numberToString (N.of_nat i).
Proof.
  intros H1 H2 Hm.
  rewrite (generate_success svc clock modal r1 r2 H1 H2).
  eexists _, _. split; [reflexivity|].
  assert (stories (ticketForm modal) (Api.response r1) (Api.response r2)
          = parseStories (Api.response r2)) as ->.
  { unfold stories, parseStories. by rewrite Hm. }
  unfold parseStories. rewrite Hm. split.
  - by rewrite tickets_length, List.length_map.
  - intros i caps Hi. rewrite tickets_lookup, lookup_map, Hi. simpl.
    eexists. split; [reflexivity|]. by simpl.
Qed.

End StoryParsing.

Section Summary.
Import TicketCreationModal.

Lemma join_snoc (sep : string) (l : list string) (x : string) :
  Js.join sep (l ++ [x]) =
  match l with
  | [] => x
  | _ :: _ => Js.join sep l +:+ sep +:+ x
  end.
Proof.
  induction l as [|y l IH]; [done|].
  destruct l as [|z l]; [done|].
  change (Js.join sep ((y :: z :: l) ++ [x]))
    with (y +:+ sep +:+ Js.join sep ((z :: l) ++ [x])).
  rewrite IH.
  change (Js.join sep (y :: z :: l))
    with (y +:+ sep +:+ Js.join sep (z :: l)).
  by rewrite !append_assoc.
Qed.

Lemma filter_user_app (l1 l2 : list Message) :
  List.filter (fun m => bool_decide (sender m = user)) (l1 ++ l2)
  = List.filter (fun m => bool_decide (sender m = user)) l1
    ++ List.filter (fun m => bool_decide (sender m = user)) l2.
Proof. apply List.filter_app. Qed.

(** X14. The conversation summary is made of what the user wrote and of
    nothing else.  A message of the agent, wherever it stands, does not
    change it; and an exchange sent with [sendMessage] extends it by the
    trimmed input, after an empty line when the user had written before,
    whatever the agent answered. *)
Theorem summary_follows_user (svc : Api.Service) (toISOString : N -> string)
    (clock : nat -> N) (modal modal' : State) :
  (forall (before after : list Message) (m : Message),
      sender m = agent ->
      conversationSummary (before ++ m :: after)
      = conversationSummary (before ++ after)) /\
  (sendMessage svc toISOString clock modal = Some modal' ->
   conversationSummary (messages modal') =
   match List.filter (fun m => bool_decide (sender m = user))
           (messages modal) with
   | [] => Js.trim (inputMessage modal)
   | _ :: _ =>
       conversationSummary (messages modal) +:+ (nl +:+ nl)
         +:+ Js.trim (inputMessage modal)
   end).
Proof.
  split.
  - intros before after m Hm. unfold conversationSummary.
    rewrite !filter_user_app. simpl. by rewrite Hm.
  - unfold sendMessage.
    destruct (negb _ || _); [discriminate|]. intros [= <-].
    unfold conversationSummary. simpl messages.
    rewrite !filter_user_app. simpl.
    assert (bool_decide
              (sender
                 match svc pm (chatRequest toISOString (messages modal)
                                 (Js.trim (inputMessage modal))) with
                 | inl _ =>
                     {| id := Js.numberToString (clock 2 + 1);
                        content := sendFailedContent; sender := agent;
                        timestamp := clock 3 |}
                 | inr response =>
                     {| id := Js.numberToString (clock 2 + 1);
                        content := Api.response response; sender := agent;
                        timestamp := clock 3 |}
                 end = user) = false) as ->
      by (by destruct (svc pm _)).
    rewrite app_nil_r, List.map_app. simpl. rewrite join_snoc.
    by destruct (List.filter _ (messages modal)).
Qed.

End Summary.

(** * The API service *)

Section Service.
Context {T : Type}.
Variables (fetch : ApiService.Fetch T) (endpoint : string)
  (options : ApiService.RequestInit).

(** X19. [request] hands data to its caller only when [fetch] resolved
    with a response that is [ok] and whose body parsed; a response that
    is not [ok] is turned into an [Error] whose message is
    [API Error: <status> <statusText>], a rejection of [fetch] or of the
    parsing is passed on, and every failure, and nothing else, is written
    to the console, once, with the endpoint. *)
Theorem request_outcome :
  let url := ApiService.API_BASE_URL +:+ endpoint in
  let result := fst (ApiService.request fetch endpoint options) in
  let console := snd (ApiService.request fetch endpoint options) in
  (forall data,
      result = inr data <->
      exists response,
        fetch url (ApiService.fetchInit options) = inr response /\
        ApiService.ok response = true /\
        ApiService.json response = inr data) /\
  (forall response,
      fetch url (ApiService.fetchInit options) = inr response ->
      ApiService.ok response = false ->
      result = inl (Api.ErrorObject
                      ("API Error: "
                         +:+ Js.numberToString (ApiService.status response)
                         +:+ " " +:+ ApiService.statusText response))) /\
  (forall error,
      fetch url (ApiService.fetchInit options) = inl error ->
      result = inl error) /\
  (forall response error,
      fetch url (ApiService.fetchInit options) = inr response ->
      ApiService.ok response = true ->
      ApiService.json response = inl error ->
      result = inl error) /\
  (forall data, result = inr data -> console = []) /\
  (forall error,
      result = inl error ->
      console
      = [ConsoleError ("API request failed for " +:+ endpoint +:+ ":")
           error]).
Proof.
  unfold ApiService.request. simpl.
  destruct (fetch _ _) as [err|response]; simpl;
    [|destruct (ApiService.ok response) eqn:Hok;
      [destruct (ApiService.json response) as [err|data] eqn:Hjson|]];
    simpl; repeat split; try done.
  all: try (intros (r & [= <-] & Hk & Hj); congruence).
  all: try (intros r [= <-] Hk; congruence).
  all: try (intros r e [= <-] Hk Hj; congruence).
  all: try (by intros error [= ->]).
  intros [= <-]. eauto.
Qed.

End Service.

Section ServiceCalls.
Variables (stringify : Api.ChatRequest -> string).

(** The one call [chatWithRole] makes. *)
Lemma chatWithRole_call (fetch : ApiService.Fetch Api.ChatResponse)
    (roleId : string) (request : Api.ChatRequest) :
  ApiService.chatWithRole fetch stringify roleId request =
  let failed error :=
    (inl error,
     [ConsoleError ("API request failed for /chat/" +:+ roleId +:+ ":")
        error]) in
  match fetch ("http://localhost:8000/chat/" +:+ roleId)
          {| ApiService.method := Some "POST";
             ApiService.body := Some (stringify request);
             ApiService.headers :=
               Some [("Content-Type", "application/json")] |} with
  | inl error => failed error
  | inr response =>
      if ApiService.ok response then
        match ApiService.json response with
        | inr data => (inr data, [])
        | inl error => failed error
        end
      else
        failed (Api.ErrorObject
                  ("API Error: "
                     +:+ Js.numberToString (ApiService.status response)
                     +:+ " " +:+ ApiService.statusText response))
  end.
Proof.
  unfold ApiService.chatWithRole, ApiService.request, ApiService.fetchInit,
    ApiService.API_BASE_URL.
  simpl. by rewrite !append_assoc.
Qed.

(** X20. [chatWithRole] makes one request and depends on the network
    through it alone: a POST to [http://localhost:8000/chat/<role>] whose
    body is the serialised chat request and whose only header is
    [Content-Type: application/json].  Two networks that answer this one
    request alike give the same outcome and the same console. *)
Theorem chatWithRole_single_request
    (fetch1 fetch2 : ApiService.Fetch Api.ChatResponse)
    (roleId : string) (request : Api.ChatRequest) :
  fetch1 ("http://localhost:8000/chat/" +:+ roleId)
    {| ApiService.method := Some "POST";
       ApiService.body := Some (stringify request);
       ApiService.headers := Some [("Content-Type", "application/json")] |}
  = fetch2 ("http://localhost:8000/chat/" +:+ roleId)
      {| ApiService.method := Some "POST";
         ApiService.body := Some (stringify request);
         ApiService.headers :=
           Some [("Content-Type", "application/json")] |} ->
  ApiService.chatWithRole fetch1 stringify roleId request
  = ApiService.chatWithRole fetch2 stringify roleId request.
Proof. intros H. by rewrite !chatWithRole_call, H. Qed.

(** X21. When the server answers the [dev] action with a response that is
    not [ok], the board shows [API Error: <status> <statusText>] in its
    error banner and the collection is not changed; the console gets the
    entry of the service and then the entry of the handler. *)
Theorem http_error_reaches_the_banner
    (fetch : ApiService.Fetch Api.ChatResponse)
    (page : Index.State) (board : KanbanBoard.State) (ticket : Ticket.t)
    (response : ApiService.Response Api.ChatResponse) :
  fetch "http://localhost:8000/chat/dev"
    {| ApiService.method := Some "POST";
       ApiService.body :=
         Some (stringify (KanbanBoard.implementRequest ticket));
       ApiService.headers := Some [("Content-Type", "application/json")] |}
  = inr response ->
  ApiService.ok response = false ->
  let e :=
    KanbanBoard.implementStory (ApiService.service fetch stringify) board
      (Index.tickets page) ticket in
  KanbanBoard.implementationError (KanbanBoard.state e)
    = Some ("API Error: " +:+ Js.numberToString (ApiService.status response)
              +:+ " " +:+ ApiService.statusText response) /\
  KanbanBoard.ticketsChange e = None /\
  Index.implementStory page (ApiService.service fetch stringify) board ticket
    = page /\
  KanbanBoard.errorBanner (KanbanBoard.state e)
    = Some ("API Error: " +:+ Js.numberToString (ApiService.status response)
              +:+ " " +:+ ApiService.statusText response) /\
  KanbanBoard.console e
    = [ConsoleError "API request failed for /chat/dev:"
         (Api.ErrorObject
            ("API Error: "
               +:+ Js.numberToString (ApiService.status response)
               +:+ " " +:+ ApiService.statusText response));
       ConsoleError "Story implementation failed:"
         (Api.ErrorObject
            ("API Error: "
               +:+ Js.numberToString (ApiService.status response)
               +:+ " " +:+ ApiService.statusText response))].
Proof.
  intros Hfetch Hok.
  assert (ApiService.chatWithRole fetch stringify "dev"
            (KanbanBoard.implementRequest ticket)
          = (inl (Api.ErrorObject
                    ("API Error: "
                       +:+ Js.numberToString (ApiService.status response)
                       +:+ " " +:+ ApiService.statusText response)),
             [ConsoleError "API request failed for /chat/dev:"
                (Api.ErrorObject
                   ("API Error: "
                      +:+ Js.numberToString (ApiService.status response)
                      +:+ " " +:+ ApiService.statusText response))]))
    as Hcall.
  { rewrite chatWithRole_call.
    change ("http://localhost:8000/chat/" +:+ "dev")
      with "http://localhost:8000/chat/dev".
    by rewrite Hfetch, Hok. }
  unfold Index.implementStory, Index.afterBoard, KanbanBoard.implementStory,
    KanbanBoard.errorBanner, ApiService.service.
  simpl. rewrite Hcall. simpl. by rewrite (append_cons "A" "PI Error: ").
Qed.

End ServiceCalls.

(** * Sessions of the page *)

Section SessionFacts.

Lemma WellFormed_mono (epics epics' : list Epic.t) (ticket : Ticket.t) :
  (forall epic, In epic epics -> In epic epics') ->
  Session.WellFormed epics ticket -> Session.WellFormed epics' ticket.
Proof.
  intros Hsub (Hid & (epic & Hin & He) & Ha & Hp).
  repeat split; try done. exists epic. auto.
Qed.

Lemma mapStatus_elements (l : list Ticket.t) (id : string)
    (s : TicketStatus) (t' : Ticket.t) :
  In t' (KanbanBoard.mapStatus l id s) ->
  exists t, In t l /\ (t' = t \/ t' = Ticket.withStatus t s).
Proof.
  unfold KanbanBoard.mapStatus. rewrite List.in_map_iff.
  intros (t & <- & Hin). exists t. split; [done|].
  destruct (String.eqb _ _); auto.
Qed.

Lemma WellFormed_mapStatus (epics : list Epic.t) (l : list Ticket.t)
    (id : string) (s : TicketStatus) :
  (forall t, In t l -> Session.WellFormed epics t) ->
  forall t, In t (KanbanBoard.mapStatus l id s) ->
            Session.WellFormed epics t.
Proof.
  intros Hl t' (t & Hin & [->| ->])%mapStatus_elements; [auto|].
  by apply Hl in Hin.
Qed.

(** What a board handler run on [snapshot] leaves on the page. *)
Lemma afterBoard_dragEnd (page : Index.State) (board : KanbanBoard.State)
    (event : KanbanBoard.DragEndEvent) :
  Index.epics (Index.dragEnd page board event) = Index.epics page /\
  (Index.tickets (Index.dragEnd page board event) = Index.tickets page \/
   exists s,
     Index.tickets (Index.dragEnd page board event)
     = KanbanBoard.mapStatus (Index.tickets page)
         (KanbanBoard.active event) s).
Proof.
  unfold Index.dragEnd, Index.afterBoard, KanbanBoard.handleDragEnd.
  destruct (KanbanBoard.over event) as [overId|]; [|by auto].
  destruct (KanbanBoard.findTicket _ _) as [a|]; [|by auto].
  destruct (KanbanBoard.resolveStatus _ _) as [st|]; [|by auto].
  case_decide; simpl; eauto.
Qed.

Lemma afterBoard_implement (page : Index.State) (svc : Api.Service)
    (board : KanbanBoard.State) (snapshot : list Ticket.t)
    (ticket : Ticket.t) :
  let page' :=
    Index.afterBoard page
      (KanbanBoard.implementStory svc board snapshot ticket) in
  Index.epics page' = Index.epics page /\
  (Index.tickets page' = Index.tickets page \/
   Index.tickets page'
   = KanbanBoard.mapStatus snapshot (Ticket.id ticket) ready_for_testing).
Proof.
  unfold Index.afterBoard, KanbanBoard.implementStory.
  destruct (svc dev _); simpl; auto.
Qed.

Lemma afterBoard_test (page : Index.State) (svc : Api.Service)
    (board : KanbanBoard.State) (snapshot : list Ticket.t)
    (ticket : Ticket.t) :
  let page' :=
    Index.afterBoard page
      (KanbanBoard.testStory svc board snapshot ticket) in
  Index.epics page' = Index.epics page /\
  (Index.tickets page' = Index.tickets page \/
   Index.tickets page'
   = KanbanBoard.mapStatus snapshot (Ticket.id ticket) done).
Proof.
  unfold Index.afterBoard, KanbanBoard.testStory.
  destruct (svc qa _); simpl; auto.
Qed.

(** What a run of the pipeline leaves on the page. *)
Lemma generateEpic_cases (page : Index.State) (svc : Api.Service)
    (clock : nat -> N) (modal : TicketCreationModal.State) :
  Index.generateEpic page svc clock modal = page \/
  exists l epic,
    l <> [] /\
    Epic.id epic = TicketCreationModal.epicId (clock 0) /\
    Index.tickets (Index.generateEpic page svc clock modal)
    = Index.tickets page
        ++ TicketCreationModal.tickets
             (TicketCreationModal.ticketForm modal) clock l /\
    Index.epics (Index.generateEpic page svc clock modal)
    = Index.epics page ++ [epic].
Proof.
  unfold Index.generateEpic, Index.afterModal,
    TicketCreationModal.generateEpicFromConversation.
  destruct (svc pm (TicketCreationModal.epicRequest _)) as [|r1];
    [by left|].
  destruct (svc pm (TicketCreationModal.storiesRequest _)) as [|r2];
    [by left|].
  right. simpl. eexists _, _. split; [apply stories_nonempty|].
  by repeat split.
Qed.

(** What the manual path leaves on the page. *)
Lemma createManually_cases (page : Index.State) (clock : nat -> N)
    (modal : TicketCreationModal.State) :
  Index.createManually page clock modal = page \/
  exists t epic,
    Epic.id epic = TicketCreationModal.epicId (clock 0) /\
    Ticket.id t
    = "TICKET-" +:+ Js.numberToString (clock 2) +:+ "-0" /\
    Ticket.assignee t
    = TicketCreationModal.assignee (TicketCreationModal.ticketForm modal) /\
    Ticket.storyPoints t
    = Some (TicketCreationModal.storyPoints
              (TicketCreationModal.ticketForm modal)) /\
    Ticket.epicId t = Some (Epic.id epic) /\
    Index.tickets (Index.createManually page clock modal)
    = Index.tickets page ++ [t] /\
    Index.epics (Index.createManually page clock modal)
    = Index.epics page ++ [epic].
Proof.
  unfold Index.createManually, TicketCreationModal.createEpicManually.
  destruct (Js.truthy _); [|by left].
  right. unfold Index.afterModal. simpl. eexists _, _.
  repeat split; reflexivity.
Qed.

Lemma pageAfter_epics (s : Session.t) (e : Session.Event) :
  Index.epics (Session.pageAfter s e) = Index.epics (Session.page s) \/
  exists epic,
    Index.epics (Session.pageAfter s e)
    = Index.epics (Session.page s) ++ [epic].
Proof.
  destruct e as [board event|svc board snap ticket|svc board snap ticket
                 |svc clock modal|clock modal]; simpl.
  - left. apply afterBoard_dragEnd.
  - left. apply afterBoard_implement.
  - left. apply afterBoard_test.
  - destruct (generateEpic_cases (Session.page s) svc clock modal)
      as [->|(l & epic & _ & _ & _ & ->)]; eauto.
  - destruct (createManually_cases (Session.page s) clock modal)
      as [->|(t & epic & _ & _ & _ & _ & _ & _ & ->)]; eauto.
Qed.

(** X22. No sequence of events of a session removes, changes or reorders
    an epic: the epics of the page before are a prefix of the epics
    after, and each event adds at most one. *)
Theorem epics_only_grow (s : Session.t) (events : list Session.Event) :
  Index.epics (Session.page s)
    `prefix_of` Index.epics (Session.page (Session.run s events)) /\
  length (Index.epics (Session.page (Session.run s events)))
    <= length (Index.epics (Session.page s)) + length events.
Proof.
  revert s. induction events as [|e events IH]; intros s.
  - simpl. split; [done|lia].
  - unfold Session.run in *. simpl List.fold_left.
    destruct (IH (Session.step s e)) as [Hpre Hlen].
    simpl Session.page in Hpre, Hlen at 2.
    destruct (pageAfter_epics s e) as [Heq|[epic Heq]];
      rewrite Heq in Hpre, Hlen; split.
    + done.
    + simpl. lia.
    + etrans; [|exact Hpre]. by apply prefix_app_r.
    + rewrite length_app in Hlen. simpl in *. lia.
Qed.

(** The tickets the two creation paths build for a reachable form. *)
Lemma created_WellFormed (f : TicketCreationModal.TicketForm)
    (clock : nat -> N) (l : list TicketCreationModal.Story.t)
    (epics : list Epic.t) (epic : Epic.t) (t : Ticket.t) :
  TicketCreationModal.FormReachable f ->
  Epic.id epic = TicketCreationModal.epicId (clock 0) ->
  In t (TicketCreationModal.tickets f clock l) ->
  Session.WellFormed (epics ++ [epic]) t.
Proof.
  intros Hf He Hin.
  apply list_elem_of_In, list_elem_of_lookup in Hin as [i Hi].
  rewrite tickets_lookup in Hi.
  destruct (l !! i) as [story|]; [|done]. injection Hi as <-.
  repeat split.
  - by exists (clock (2 + i)), i.
  - exists epic. split; [apply in_or_app; simpl; auto|]. simpl. by rewrite He.
  - simpl. by apply form_values.
  - simpl. eauto.
Qed.

Lemma step_invariant (s : Session.t) (e : Session.Event) :
  Session.enabled s e ->
  (In (Index.tickets (Session.page s)) (Session.rendered s) /\
   forall snapshot t,
     In snapshot (Session.rendered s) -> In t snapshot ->
     Session.WellFormed (Index.epics (Session.page s)) t) ->
  forall t,
    In t (Index.tickets (Session.pageAfter s e)) ->
    Session.WellFormed (Index.epics (Session.pageAfter s e)) t.
Proof.
  intros Hen [Hcur Hinv].
  destruct e as [board event|svc board snap ticket|svc board snap ticket
                 |svc clock modal|clock modal]; simpl in *.
  - destruct (afterBoard_dragEnd (Session.page s) board event)
      as [-> [->|[st ->]]]; [by eauto|].
    apply WellFormed_mapStatus. eauto.
  - destruct Hen as (Hsnap & _ & _).
    destruct (afterBoard_implement (Session.page s) svc board snap ticket)
      as [-> [->| ->]]; [by eauto|].
    apply WellFormed_mapStatus. eauto.
  - destruct Hen as (Hsnap & _ & _).
    destruct (afterBoard_test (Session.page s) svc board snap ticket)
      as [-> [->| ->]]; [by eauto|].
    apply WellFormed_mapStatus. eauto.
  - destruct (generateEpic_cases (Session.page s) svc clock modal)
      as [->|(l & epic & _ & He & -> & ->)]; [by eauto|].
    intros t [Hin|Hin]%in_app_or.
    + eapply WellFormed_mono; [|by eauto].
      intros x Hx. apply in_or_app. auto.
    + by eapply created_WellFormed.
  - destruct (createManually_cases (Session.page s) clock modal)
      as [->|(t0 & epic & He & Hid & Ha & Hp & Hep & -> & ->)];
      [by eauto|].
    intros t [Hin|[<-|[]]]%in_app_or.
    + eapply WellFormed_mono; [|by eauto].
      intros x Hx. apply in_or_app. auto.
    + repeat split.
      * exists (clock 2), 0. by rewrite Hid.
      * exists epic. split; [apply in_or_app; simpl; auto|done].
      * rewrite Ha. by apply form_values.
      * eauto.
Qed.

Lemma reachable_invariant (s : Session.t) :
  Session.Reachable s ->
  In (Index.tickets (Session.page s)) (Session.rendered s) /\
  forall snapshot t,
    In snapshot (Session.rendered s) -> In t snapshot ->
    Session.WellFormed (Index.epics (Session.page s)) t.
Proof.
  induction 1 as [|s e _ IH Hen].
  - split; [by left|]. intros snapshot t [<-|[]] [].
  - split; [by left|].
    intros snapshot t [<-|Hsnap] Ht.
    + by apply step_invariant.
    + simpl. destruct IH as [_ IH].
      eapply WellFormed_mono; [|by eauto].
      intros x Hx.
      destruct (pageAfter_epics s e) as [->|[epic ->]]; [done|].
      apply in_or_app. auto.
Qed.

(** X23. In every session that starts from the empty page and goes
    through drags, [dev] and [qa] actions started from a card, runs of
    the pipeline and manual creations, every ticket on the page, and
    every ticket of an earlier render, has an identifier of the format
    [TICKET-<ms>-<index>], names an epic that is on the page, is assigned
    to [dev] or [qa] and carries story points. *)
Theorem session_tickets_well_formed (s : Session.t) (t : Ticket.t) :
  Session.Reachable s ->
  (In t (Index.tickets (Session.page s)) \/
   exists snapshot, In snapshot (Session.rendered s) /\ In t snapshot) ->
  (exists now index,
      Ticket.id t
      = "TICKET-" +:+ Js.numberToString now +:+ "-"
          +:+ Js.numberToString (N.of_nat index)) /\
  (exists epic,
      In epic (Index.epics (Session.page s)) /\
      Ticket.epicId t = Some (Epic.id epic)) /\
  (Ticket.assignee t = dev \/ Ticket.assignee t = qa) /\
  (exists points, Ticket.storyPoints t = Some points).
Proof.
  intros [Hcur Hinv]%reachable_invariant Ht.
  assert (Session.WellFormed (Index.epics (Session.page s)) t)
    as (Hid & He & Ha & Hp).
  { destruct Ht as [Ht|(snapshot & Hs & Ht)]; eauto. }
  repeat split; try done.
  simpl in Ha. intuition.
Qed.



(** X25. The [dev] action writes back the collection of the render it
    was started from.  When a run of the pipeline adds tickets while the
    call to the agent is pending, the collection after the call is the
    old one with the status of the card changed: the new tickets are not
    in it, and their epic stays on the page without a ticket. *)
Theorem pending_action_drops_new_tickets (s : Session.t)
    (svc svc' : Api.Service) (clock : nat -> N)
    (modal : TicketCreationModal.State) (board : KanbanBoard.State)
    (ticket : Ticket.t) (response : Api.ChatResponse)
    (newTickets : list Ticket.t) (epic : Epic.t) :
  Session.Reachable s ->
  In ticket (Index.tickets (Session.page s)) ->
  KanbanBoard.getActionButton dev ticket = Some KanbanBoard.ImplementStory ->
  TicketCreationModal.FormReachable (TicketCreationModal.ticketForm modal) ->
  TicketCreationModal.ticketsCreated
    (TicketCreationModal.generateEpicFromConversation svc clock modal)
    = Some (newTickets, epic) ->
  ~ In (Epic.id epic) (List.map Epic.id (Index.epics (Session.page s))) ->
  svc' dev (KanbanBoard.implementRequest ticket) = inr response ->
  let snapshot := Index.tickets (Session.page s) in
  let s1 := Session.step s (Session.Generated svc clock modal) in
  let s2 :=
    Session.step s1 (Session.Implemented svc' board snapshot ticket) in
  Session.Reachable s2 /\
  newTickets <> [] /\
  Index.tickets (Session.page s1) = snapshot ++ newTickets /\
  Index.tickets (Session.page s2)
    = KanbanBoard.mapStatus snapshot (Ticket.id ticket) ready_for_testing /\
  Index.epics (Session.page s2) = Index.epics (Session.page s) ++ [epic] /\
  forall t,
    In t (Index.tickets (Session.page s2)) ->
    Ticket.epicId t <> Some (Epic.id epic).
Proof.
  intros Hs Hticket Hbutton Hform Hcreated Hfresh Hsvc snapshot s1 s2.
  pose proof (reachable_invariant s Hs) as [Hcur Hinv].
  assert (Session.page s1
          = Index.handleTicketsCreated
              (Index.setTicketCreationOpen (Session.page s) false)
              newTickets epic
          /\ newTickets <> []) as [Hs1 Hne].
  { subst s1. simpl. unfold Index.generateEpic, Index.afterModal.
    revert Hcreated.
    unfold TicketCreationModal.generateEpicFromConversation.
    destruct (svc pm (TicketCreationModal.epicRequest _)) as [|r1];
      [discriminate|].
    destruct (svc pm (TicketCreationModal.storiesRequest _)) as [|r2];
      [discriminate|].
    simpl. intros [= <- <-]. split; [done|].
    intros Hnil. apply (f_equal length) in Hnil.
    rewrite tickets_length in Hnil.
    by apply length_zero_iff_nil, stories_nonempty in Hnil. }
  assert (Session.page s2
          = Index.setTickets (Session.page s1)
              (KanbanBoard.mapStatus snapshot (Ticket.id ticket)
                 ready_for_testing)) as Hs2.
  { subst s2. simpl. unfold Index.afterBoard, KanbanBoard.implementStory.
    by rewrite Hsvc. }
  split; [|split; [done|]].
  { apply Session.reach_step; [by apply Session.reach_step|].
    repeat split; [|done|done]. right. done. }
  rewrite Hs2, Hs1. simpl. repeat split.
  intros t (t0 & Hin & Ht)%mapStatus_elements Hep.
  assert (Ticket.epicId t0 = Some (Epic.id epic)) as Hep0.
  { by destruct Ht as [->| ->]. }
  destruct (Hinv _ _ Hcur Hin) as (_ & (e0 & He0 & Hid) & _).
  apply Hfresh. apply List.in_map_iff. exists e0. split; [|done].
  congruence.
Qed.

End SessionFacts.

(** * Story blocks in the format of the prompt *)

Section StoryBlocks.
Import TicketCreationModal.

Lemma trimEnd_split (s : string) :
  exists w, s = Js.trimEnd s +:+ w /\ Js.allChars Js.isWhiteSpace w = true.
Proof.
  induction s as [|c s (w & Hs & Hw)]; [by exists ""|].
  simpl. destruct (Js.isWhiteSpace c && Js.isEmpty (Js.trimEnd s)) eqn:E.
  - apply andb_prop in E as [Hc He].
    destruct (Js.trimEnd s); [|done]. rewrite append_nil in Hs. subst w.
    exists (String c s). rewrite append_nil. simpl. by rewrite Hc, Hw.
  - exists w. by rewrite append_cons, <- Hs.
Qed.

(** What [trimEnd] returns does not end in white space. *)
Lemma trimEnd_suffix (s a b : string) (x : ascii) :
  Js.trimEnd s = a +:+ String x b ->
  Js.allChars Js.isWhiteSpace (String x b) = false.
Proof.
  revert a x b. induction s as [|c s IH]; intros a x b.
  { simpl. by destruct a. }
  simpl. destruct (Js.isWhiteSpace c && Js.isEmpty (Js.trimEnd s)) eqn:E.
  { by destruct a. }
  destruct a as [|y a].
  - rewrite append_nil. intros [= <- <-]. simpl.
    destruct (Js.trimEnd s) as [|z t'] eqn:Et.
    + simpl in E. rewrite andb_true_r in E. by rewrite E.
    + rewrite (IH "" z t' eq_refl). apply andb_false_r.
  - rewrite append_cons. intros [= _ H]. by apply (IH a).
Qed.

Lemma trimEnd_idempotent (s : string) :
  Js.trimEnd (Js.trimEnd s) = Js.trimEnd s.
Proof.
  induction s as [|c s IH]; [done|]. simpl.
  destruct (Js.isWhiteSpace c && Js.isEmpty (Js.trimEnd s)) eqn:E; [done|].
  simpl. by rewrite IH, E.
Qed.

Lemma trim_idempotent (t : string) : Js.trim (Js.trim t) = Js.trim t.
Proof.
  unfold Js.trim.
  destruct (Js.trimStart t) as [|c u] eqn:Et; [done|].
  pose proof (trimStart_head _ _ _ Et) as Hc.
  assert (Js.trimStart (Js.trimEnd (String c u)) = Js.trimEnd (String c u))
    as ->.
  { simpl. rewrite Hc. simpl. by rewrite Hc. }
  apply trimEnd_idempotent.
Qed.

(** A text is its trimmed text between two stretches of white space. *)
Lemma trim_split (t : string) :
  exists wl wr,
    t = wl +:+ Js.trim t +:+ wr /\
    Js.allChars Js.isWhiteSpace wl = true /\
    Js.allChars Js.isWhiteSpace wr = true.
Proof.
  destruct (trimStart_split t) as (wl & Ht & Hwl).
  destruct (trimEnd_split (Js.trimStart t)) as (wr & Ht' & Hwr).
  exists wl, wr. unfold Js.trim. by rewrite <- Ht', <- Ht.
Qed.

Lemma trim_head (t u : string) (c : ascii) :
  Js.trim t = String c u -> Js.isWhiteSpace c = false.
Proof.
  unfold Js.trim.
  destruct (Js.trimStart t) as [|c' u'] eqn:Et; [done|].
  pose proof (trimStart_head _ _ _ Et) as Hc.
  simpl. rewrite Hc. simpl. by intros [= <- _].
Qed.

Lemma digit_not_space (c : ascii) :
  Js.isDigit c = true -> Js.isWhiteSpace c = false.
Proof. by destruct c as [[] [] [] [] [] [] [] []]. Qed.

Lemma trim_digits (ds : string) :
  Js.allChars Js.isDigit ds = true -> Js.trim ds = ds.
Proof.
  intros Hds. unfold Js.trim.
  assert (Js.trimStart ds = ds) as ->.
  { destruct ds as [|c ds]; [done|]. simpl in *.
    apply andb_prop in Hds as [Hc _]. by rewrite (digit_not_space _ Hc). }
  induction ds as [|c ds IH]; [done|]. simpl in *.
  apply andb_prop in Hds as [Hc Hds].
  by rewrite (digit_not_space _ Hc), (IH Hds).
Qed.

(** A label whose first code unit occurs nowhere else in it does not
    begin in a text that does not contain it, whatever follows. *)
Lemma label_not_across (c : ascii) (l a q b : string) :
  Js.allChars (fun x => negb (Ascii.eqb x c)) l = true ->
  Js.includes (a +:+ q) (String c l) = false ->
  q <> "" ->
  String.prefix (String c l) (q +:+ String c b) = false.
Proof.
  intros Hl Hinc Hq. apply includes_suffix_prefix in Hinc.
  destruct q as [|c' q]; [done|]. rewrite append_cons.
  simpl in *. destruct (ascii_dec c c'); [|done].
  destruct (String.prefix l (q +:+ String c b)) eqn:E; [|done].
  by rewrite (prefix_stops _ _ _ _ Hl E) in Hinc.
Qed.

(** The search skips a stretch that does not contain the label the
    pattern begins with. *)
Lemma search_skips_to_label (c : ascii) (l : string) (r : Regex.regex)
    (pre s : string) :
  Js.allChars (fun x => negb (Ascii.eqb x c)) l = true ->
  Js.includes pre (String c l) = false ->
  Regex.search (Regex.Seq (Regex.lits (String c l)) r)
    (pre +:+ String c s)
  = Regex.search (Regex.Seq (Regex.lits (String c l)) r) (String c s).
Proof.
  intros Hl.
  induction pre as [|c' pre IH]; intros Hpre.
  - by rewrite append_nil.
  - rewrite append_cons, search_cons. unfold Regex.matchAt.
    rewrite run_lits_fails.
    + apply IH. by apply includes_tail in Hpre.
    + rewrite <- append_cons.
      by apply (label_not_across c l "" (String c' pre) s).
Qed.

Lemma iterate_greedy_class_cons {R : Type} (p : ascii -> bool)
    (k : string -> Regex.captures -> option R) (fuel : nat) (c : ascii)
    (s : string) (caps : Regex.captures) :
  Regex.iterate (Regex.run (Regex.Class p)) true k (S fuel) (String c s) caps
  = match
      (if p c
       then if Nat.ltb (String.length s) (String.length (String c s))
            then Regex.iterate (Regex.run (Regex.Class p)) true k fuel s caps
            else None
       else None)
    with
    | Some x => Some x
    | None => k (String c s) caps
    end.
Proof. reflexivity. Qed.

Lemma iterate_greedy_class_nil {R : Type} (p : ascii -> bool)
    (k : string -> Regex.captures -> option R) (fuel : nat)
    (caps : Regex.captures) :
  Regex.iterate (Regex.run (Regex.Class p)) true k fuel "" caps = k "" caps.
Proof. by destruct fuel. Qed.

(** White space and then a label: no match in a text in which the label
    begins after no stretch of white space. *)
Lemma blank_then_label_fails {R : Type} (lit : string) (r : Regex.regex)
    (k : string -> Regex.captures -> option R) (fuel : nat) (s : string)
    (caps : Regex.captures) :
  (forall w q, s = w +:+ q -> Js.allChars Js.isWhiteSpace w = true ->
               String.prefix lit q = false) ->
  Regex.iterate (Regex.run (Regex.Class Js.isWhiteSpace)) true
    (fun s' caps' => Regex.run (Regex.Seq (Regex.lits lit) r) s' caps' k)
    fuel s caps = None.
Proof.
  revert s caps. induction fuel as [|fuel IH]; intros s caps Hs.
  - change (Regex.run (Regex.Seq (Regex.lits lit) r) s caps k = None).
    apply run_lits_fails. by apply (Hs "" s).
  - assert (Regex.run (Regex.Seq (Regex.lits lit) r) s caps k = None) as Hk
      by (apply run_lits_fails; by apply (Hs "" s)).
    destruct s as [|c s]; [by rewrite iterate_greedy_class_nil|].
    rewrite iterate_greedy_class_cons, Hk.
    destruct (Js.isWhiteSpace c) eqn:Hc; [|done].
    destruct (Nat.ltb _ _); [|done].
    rewrite IH; [done|].
    intros w q -> Hw. apply (Hs (String c w) q); [by rewrite append_cons|].
    simpl. by rewrite Hc, Hw.
Qed.

(** A stretch of white space at the front of a text that does not begin
    with white space only ends inside it. *)
Lemma blank_prefix_short (s1 s2 w q : string) :
  s1 +:+ s2 = w +:+ q ->
  Js.allChars Js.isWhiteSpace w = true ->
  Js.allChars Js.isWhiteSpace s1 = false ->
  exists a, a <> "" /\ s1 = w +:+ a /\ q = a +:+ s2.
Proof.
  revert s1. induction w as [|x w IH]; intros s1.
  - rewrite !append_nil. intros <- _ Hs1. exists s1.
    split; [by intros ->|done].
  - destruct s1 as [|y s1]; [done|]. rewrite !append_cons.
    intros [= <- H] Hw Hs1. simpl in Hw, Hs1.
    apply andb_prop in Hw as [Hx Hw]. rewrite Hx in Hs1.
    destruct (IH s1 H Hw Hs1) as (a & Ha & -> & ->).
    exists a. by rewrite append_cons.
Qed.

(** The continuation of a lazy group that is followed by white space and
    a label fails inside the trimmed text the group is to capture. *)
Lemma lazy_group_goes_on {R : Type} (c : ascii) (l : string)
    (r : Regex.regex) (k : string -> Regex.captures -> option R)
    (t u1 u2 more : string) (x : ascii) (wl wr : string)
    (caps : Regex.captures) :
  Js.allChars (fun y => negb (Ascii.eqb y c)) l = true ->
  Js.includes t (String c l) = false ->
  t = wl +:+ Js.trim t +:+ wr ->
  Js.trim t = u1 +:+ String x u2 ->
  Regex.run
    (Regex.Seq (Regex.Star true Regex.space)
       (Regex.Seq (Regex.lits (String c l)) r))
    (String x u2 +:+ wr +:+ String c more) caps k = None.
Proof.
  intros Hl Hinc Ht Hu.
  rewrite run_seq, run_star. unfold Regex.space.
  apply blank_then_label_fails.
  intros w q Hsplit Hw.
  pose proof (trimEnd_suffix _ _ _ _ Hu) as Hblank.
  destruct (blank_prefix_short _ _ _ _ Hsplit Hw Hblank)
    as (a & Ha & Hxa & ->).
  rewrite <- append_assoc.
  apply (label_not_across c l (wl +:+ u1 +:+ w)); [done| |].
  - replace ((wl +:+ u1 +:+ w) +:+ a +:+ wr) with t; [done|].
    rewrite Ht at 1. by rewrite Hu, Hxa, !append_assoc.
  - destruct a; [done|]. by rewrite append_cons.
Qed.

(** A capturing group around a greedy [+] of a class captures the whole
    run of the class. *)
Lemma group_greedy_run {R : Type} (p : ascii -> bool) (n : nat)
    (c0 : ascii) (u rest : string) (caps : Regex.captures)
    (k : string -> Regex.captures -> option R) (x : R) :
  Js.allChars p (String c0 u) = true ->
  (forall c rest', rest = String c rest' -> p c = false) ->
  k rest ((n, String c0 u) :: caps) = Some x ->
  Regex.run (Regex.Group n (Regex.plus true (Regex.Class p)))
    (String c0 u +:+ rest) caps k = Some x.
Proof.
  intros Hu Hrest Hk. simpl in Hu. apply andb_prop in Hu as [Hc0 Hu].
  unfold Regex.plus. simpl. rewrite Hc0.
  apply greedy_class_run; [done|done| |done].
  pose proof (take_append (String c0 u) rest) as Htake.
  rewrite append_cons in Htake at 1. simpl in Htake. by rewrite Htake.
Qed.

Lemma allChars_dotAll (s : string) : Js.allChars (fun _ => true) s = true.
Proof. induction s as [|c s IH]; simpl; [done|exact IH]. Qed.

(** ** What [parseInt] makes of a run of digits *)

Lemma digitValue_char (d : N) :
  (d < 10)%N -> Js.digitValue 10 (pretty_N_char d) = Some d.
Proof.
  intros Hd.
  destruct d as [|p]; [done|].
  do 4 (destruct p as [p|p|]; try lia; try done).
Qed.

Lemma digitValue_digit (c : ascii) :
  Js.isDigit c = true -> exists d, Js.digitValue 10 c = Some d.
Proof. destruct c as [[] [] [] [] [] [] [] []]; by eauto. Qed.

Lemma digit_no_sign (c : ascii) (s : string) :
  Js.isDigit c = true ->
  match String c s with
  | String "-" _ => true
  | _ => false
  end = false /\
  match String c s with
  | String "-" rest | String "+" rest => rest
  | _ => String c s
  end = String c s.
Proof. destruct c as [[] [] [] [] [] [] [] []]; by split. Qed.

Lemma digits_no_prefix (s : string) :
  Js.allChars Js.isDigit s = true ->
  match s with
  | String "0" (String "x" _) | String "0" (String "X" _) => true
  | _ => false
  end = false /\
  match s with
  | String "0" (String "x" rest) | String "0" (String "X" rest) => rest
  | _ => s
  end = s.
Proof.
  destruct s as [|c [|c' s]]; simpl.
  - done.
  - intros _. destruct c as [[] [] [] [] [] [] [] []]; by split.
  - intros [_ [Hc' _]%andb_prop]%andb_prop. revert Hc'.
    destruct c' as [[] [] [] [] [] [] [] []]; try done;
      intros _; destruct c as [[] [] [] [] [] [] [] []]; by split.
Qed.

(** The digits [pretty_N_go] prints in front of [s] write [x]. *)
Lemma digitsFrom_pretty_N_go (x : N) (s : string) :
  Js.digitsFrom 10 (Some 0%N) (pretty_N_go x s)
  = Js.digitsFrom 10 (Some x) s.
Proof.
  revert s. induction (N.lt_wf_0 x) as [x _ IH]; intros s.
  destruct (decide (x = 0%N)) as [->|Hx]; [by rewrite pretty_N_go_0|].
  rewrite pretty_N_go_step by lia.
  rewrite IH by (apply N.div_lt; lia).
  simpl. rewrite digitValue_char by (apply N.mod_lt; lia).
  simpl. do 2 f_equal.
  rewrite (N.div_mod x 10) at 3 by lia. lia.
Qed.

Lemma digitsFrom_start (s : string) :
  Js.allChars Js.isDigit s = true -> s <> "" ->
  Js.digitsFrom 10 None s = Js.digitsFrom 10 (Some 0%N) s.
Proof.
  destruct s as [|c s]; [done|]. simpl.
  intros [Hc _]%andb_prop _.
  by destruct (digitValue_digit c Hc) as [d ->].
Qed.

(** [parseInt] on a run of decimal digits: the integer written, rounded
    to the nearest double. *)
Lemma parseInt_digits (s : string) (n : N) :
  Js.allChars Js.isDigit s = true -> s <> "" ->
  Js.digitsFrom 10 (Some 0%N) s = Some n ->
  Js.parseInt s
  = match Js.nearestDouble n with
    | None => Js.PositiveInfinity
    | Some 0%N => Js.Finite 0
    | Some v => Js.Finite (Z.of_N v)
    end.
Proof.
  intros Hs Hne Hn. unfold Js.parseInt.
  assert (Js.trimStart s = s) as ->.
  { destruct s as [|c s]; [done|]. simpl in *.
    apply andb_prop in Hs as [Hc _]. by rewrite (digit_not_space _ Hc). }
  destruct s as [|c s]; [done|].
  pose proof Hs as Hs'. simpl in Hs'. apply andb_prop in Hs' as [Hc _].
  destruct (digit_no_sign c s Hc) as [-> ->].
  destruct (digits_no_prefix (String c s) Hs) as [-> ->].
  by rewrite digitsFrom_start, Hn.
Qed.

Lemma pretty_N_go_nonempty (x : N) (s : string) :
  s <> "" -> pretty_N_go x s <> "".
Proof.
  revert s. induction (N.lt_wf_0 x) as [x _ IH]; intros s Hs.
  destruct (decide (x = 0%N)) as [->|Hx]; [by rewrite pretty_N_go_0|].
  rewrite pretty_N_go_step by lia.
  apply IH; [apply N.div_lt; lia|done].
Qed.

(** [parseInt] on the values of the story-point items, on longer runs of
    digits, where the integer written is rounded to the nearest double
    with a tie going to the even significand, and on texts that are no
    run of digits. *)
Example parseInt_samples :
  List.map Js.parseInt
    ["1"; "13"; " 8 points"; "9007199254740991"; "9007199254740993";
     "9007199254740995"; "18014398509481986"; "18014398509481990";
     "123456789012345678901234567890"; ""; "points"; "-5"; "+7"; "-0";
     "0x1F"; "0x"; "08"]
  = [Js.Finite 1; Js.Finite 13; Js.Finite 8; Js.Finite 9007199254740991;
     Js.Finite 9007199254740992; Js.Finite 9007199254740996;
     Js.Finite 18014398509481984; Js.Finite 18014398509481992;
     Js.Finite 123456789012345677877719597056; Js.NaN; Js.NaN;
     Js.Finite (-5); Js.Finite 7; Js.NegativeZero; Js.Finite 31; Js.NaN;
     Js.Finite 8].
Proof. by vm_compute. Qed.

(** The largest double, the integers that round to it, and the overflow
    to [Infinity] from the middle between it and 2^1024 on. *)
Example nearestDouble_limits :
  Js.nearestDouble (2 ^ 1024 - 2 ^ 971) = Some (2 ^ 1024 - 2 ^ 971)%N /\
  Js.nearestDouble (2 ^ 1024 - 2 ^ 970 - 1) = Some (2 ^ 1024 - 2 ^ 971)%N /\
  Js.nearestDouble (2 ^ 1024 - 2 ^ 970) = None /\
  Js.nearestDouble (10 ^ 309) = None.
Proof. by vm_compute. Qed.

(** From 2^53 on, [nearestDouble] gives a 53-bit significand times a
    power of two that is within half a unit in the last place of the
    integer, and an even significand at exactly half a unit. *)
Lemma nearestDouble_nearest (n v : N) :
  (2 ^ 53 <= n)%N ->
  Js.nearestDouble n = Some v ->
  exists m : N,
    (v = m * 2 ^ (N.log2 n - 52) /\
     2 ^ 52 <= m <= 2 ^ 53 /\
     2 * v <= 2 * n + 2 ^ (N.log2 n - 52) /\
     2 * n <= 2 * v + 2 ^ (N.log2 n - 52) /\
     (2 * v = 2 * n + 2 ^ (N.log2 n - 52) \/
      2 * n = 2 * v + 2 ^ (N.log2 n - 52) -> N.even m = true))%N.
Proof.
  intros Hn. unfold Js.nearestDouble.
  rewrite (proj2 (N.ltb_ge _ _) Hn).
  assert (0 < n)%N as Hpos by (pose proof (N.pow_nonzero 2 53); lia).
  destruct (N.log2_spec n Hpos) as [Hlo Hhi].
  assert (53 <= N.log2 n)%N as Hlog.
  { apply N.log2_le_pow2; [done|]. exact Hn. }
  set (e := (N.log2 n - 52)%N) in *.
  assert (N.log2 n = e + 52)%N as Hle by (subst e; lia).
  assert (N.succ (N.log2 n) = e + 53)%N as Hse by lia.
  rewrite Hle in Hlo. rewrite Hse in Hhi.
  rewrite N.pow_add_r in Hlo, Hhi.
  assert (2 ^ e = 2 * 2 ^ (e - 1))%N as Hhalf.
  { rewrite <- N.pow_succ_r'. f_equal. subst e. lia. }
  assert (0 < 2 ^ (e - 1))%N as Hhpos by (apply N.neq_0_lt_0, N.pow_nonzero; lia).
  pose proof (N.div_mod n (2 ^ e)) as Hdm.
  pose proof (N.mod_lt n (2 ^ e)) as Hr.
  set (q := (n / 2 ^ e)%N) in *. set (r := (n mod 2 ^ e)%N) in *.
  set (h := (2 ^ (e - 1))%N) in *. set (p := (2 ^ e)%N) in *.
  assert (p <> 0)%N as Hp by lia.
  specialize (Hdm Hp). specialize (Hr Hp).
  assert (2 ^ 52 <= q < 2 ^ 53)%N as [Hq1 Hq2] by (split; nia).
  intros Hv.
  destruct ((h <? r) || (r =? h) && N.odd q)%N eqn:Hup;
    (destruct (_ <? 2 ^ 1024)%N; [|discriminate]); injection Hv as <-.
  - exists (q + 1)%N. apply orb_prop in Hup.
    repeat split; try nia.
    + destruct Hup as [Hlt%N.ltb_lt|[Heq%N.eqb_eq _]%andb_prop]; nia.
    + destruct Hup as [Hlt%N.ltb_lt|[Heq%N.eqb_eq Hodd]%andb_prop].
      * intros [H|H]; nia.
      * intros _. rewrite N.even_add, <- N.negb_odd, Hodd. done.
  - exists q. apply orb_false_elim in Hup as [Hlt%N.ltb_ge Htie].
    repeat split; try nia.
    intros [H|H]; [nia|].
    assert (r = h) as Hrh by nia.
    rewrite (proj2 (N.eqb_eq _ _) Hrh) in Htie. simpl in Htie.
    by rewrite <- N.negb_odd, Htie.
Qed.

(** Below 2^53 [parseInt] reads a printed number back. *)
Lemma parseInt_numberToString (n : N) :
  (n < 2 ^ 53)%N ->
  Js.parseInt (Js.numberToString n) = Js.Finite (Z.of_N n).
Proof.
  intros Hn.
  assert (Js.numberToString n <> ""
          /\ Js.digitsFrom 10 (Some 0%N) (Js.numberToString n) = Some n)
    as [Hne Hval].
  { unfold Js.numberToString, pretty, pretty_N.
    case_decide as H0; [by subst|]. split.
    - rewrite pretty_N_go_step by lia. by apply pretty_N_go_nonempty.
    - by rewrite digitsFrom_pretty_N_go. }
  rewrite (parseInt_digits _ n (numberToString_digits n) Hne Hval).
  unfold Js.nearestDouble.
  rewrite (proj2 (N.ltb_lt _ _) Hn). by destruct n.
Qed.

(** A greedy [+] of a class takes the whole run of the class. *)
Lemma plus_greedy_run {R : Type} (p : ascii -> bool)
    (c0 : ascii) (u rest : string) (caps : Regex.captures)
    (k : string -> Regex.captures -> option R) (x : R) :
  Js.allChars p (String c0 u) = true ->
  (forall c rest', rest = String c rest' -> p c = false) ->
  k rest caps = Some x ->
  Regex.run (Regex.plus true (Regex.Class p))
    (String c0 u +:+ rest) caps k = Some x.
Proof.
  intros Hu Hrest Hk. simpl in Hu. apply andb_prop in Hu as [Hc0 Hu].
  unfold Regex.plus. simpl. rewrite Hc0.
  by apply greedy_class_run.
Qed.

(** The match of the story pattern at the front of a block. *)
Lemma story_block_match (num ws1 t d ws3 ds post : string) :
  num <> "" -> Js.allChars Js.isDigit num = true ->
  Js.allChars Js.isWhiteSpace ws1 = true ->
  Js.trim t <> "" -> Js.includes t "Description:" = false ->
  Js.trim d <> "" -> Js.includes d "Story Points:" = false ->
  Js.allChars Js.isWhiteSpace ws3 = true ->
  ds <> "" -> Js.allChars Js.isDigit ds = true ->
  (forall c post', post = String c post' -> Js.isDigit c = false) ->
  Regex.matchAt storyPattern
    ("Story " +:+ num +:+ ":" +:+ ws1 +:+ "Title:" +:+ t
       +:+ "Description:" +:+ d +:+ "Story Points:" +:+ ws3 +:+ ds +:+ post)
  = Some {| Regex.groups := [(3, ds); (2, Js.trim d); (1, Js.trim t)];
            Regex.rest := post |}.
Proof.
  intros Hnum Hnumd Hws1 Htne Htinc Hdne Hdinc Hws3 Hds Hdsd Hpost.
  destruct (trim_split t) as (wl1 & wr1 & Ht0 & Hwl1 & Hwr1).
  destruct (trim_split d) as (wl2 & wr2 & Hd0 & Hwl2 & Hwr2).
  assert (exists ct ut, Js.trim t = String ct ut) as (ct & ut & Et)
    by (destruct (Js.trim t); [done|eauto]).
  assert (exists cd ud, Js.trim d = String cd ud) as (cd & ud & Ed)
    by (destruct (Js.trim d); [done|eauto]).
  destruct num as [|n0 nu]; [done|]. destruct ds as [|d0 du]; [done|].
  pose proof Ht0 as Ht. rewrite Et in Ht.
  pose proof Hd0 as Hd. rewrite Ed in Hd.
  rewrite Et, Ed. rewrite Ht, Hd.
  unfold Regex.matchAt, storyPattern, Regex.seqs.
  rewrite !append_assoc.
  rewrite run_seq, run_lits, run_seq. unfold Regex.digit, Regex.space.
  apply plus_greedy_run; [done| |].
  { intros c rest'. rewrite append_cons. by intros [= <- _]. }
  rewrite run_seq, run_lits, run_seq, run_star.
  apply greedy_class_run; [done| | |done].
  { intros c rest'. rewrite append_cons. by intros [= <- _]. }
  cbv beta. rewrite run_seq, run_lits, run_seq, run_star.
  apply greedy_class_run; [done| | |done].
  { intros c rest'. rewrite append_cons. intros [= <- _].
    by apply (trim_head t ut). }
  cbv beta. rewrite run_seq. unfold Regex.dotAll.
  apply group_lazy_run; [apply allChars_dotAll| |].
  { intros u1 x u2 caps' Hut. cbv beta.
    rewrite (append_cons "D" "escription:").
    apply (lazy_group_goes_on "D" "escription:" _ _ t (String ct u1) u2 _ x
             wl1 wr1); [done|done|done|].
    by rewrite Et, Hut, append_cons. }
  rewrite run_seq, run_star.
  apply greedy_class_run; [done| | |done].
  { intros c rest'. rewrite append_cons. by intros [= <- _]. }
  cbv beta. rewrite run_seq, run_lits, run_seq, run_star.
  apply greedy_class_run; [done| | |done].
  { intros c rest'. rewrite append_cons. intros [= <- _].
    by apply (trim_head d ud). }
  cbv beta. rewrite run_seq.
  apply group_lazy_run; [apply allChars_dotAll| |].
  { intros u1 x u2 caps' Hud. cbv beta.
    rewrite (append_cons "S" "tory Points:").
    apply (lazy_group_goes_on "S" "tory Points:" _ _ d (String cd u1) u2 _ x
             wl2 wr2); [done|done|done|].
    by rewrite Ed, Hud, append_cons. }
  rewrite run_seq, run_star.
  apply greedy_class_run; [done| | |done].
  { intros c rest'. rewrite append_cons. by intros [= <- _]. }
  cbv beta. rewrite run_seq, run_lits, run_seq, run_star.
  apply greedy_class_run; [done| | |done].
  { intros c rest'. rewrite append_cons. intros [= <- _].
    simpl in Hdsd. apply andb_prop in Hdsd as [Hdig _].
    by apply digit_not_space. }
  cbv beta. by apply group_greedy_run.
Qed.

(** What the search for the story pattern finds in a response that has a
    block after a stretch without the label [Story ]. *)
Lemma story_block_search (pre num ws1 t d ws3 ds post : string) :
  Js.includes pre "Story " = false ->
  num <> "" -> Js.allChars Js.isDigit num = true ->
  Js.allChars Js.isWhiteSpace ws1 = true ->
  Js.trim t <> "" -> Js.includes t "Description:" = false ->
  Js.trim d <> "" -> Js.includes d "Story Points:" = false ->
  Js.allChars Js.isWhiteSpace ws3 = true ->
  ds <> "" -> Js.allChars Js.isDigit ds = true ->
  (forall c post', post = String c post' -> Js.isDigit c = false) ->
  Regex.search storyPattern
    (pre +:+ "Story " +:+ num +:+ ":" +:+ ws1 +:+ "Title:" +:+ t
       +:+ "Description:" +:+ d +:+ "Story Points:" +:+ ws3 +:+ ds +:+ post)
  = Some {| Regex.groups := [(3, ds); (2, Js.trim d); (1, Js.trim t)];
            Regex.rest := post |}.
Proof.
  intros Hpre Hnum Hnumd Hws1 Htne Htinc Hdne Hdinc Hws3 Hds Hdsd Hpost.
  pose proof (story_block_match num ws1 t d ws3 ds post Hnum Hnumd Hws1
                Htne Htinc Hdne Hdinc Hws3 Hds Hdsd Hpost) as Hm.
  revert Hm. rewrite (append_cons "S" "tory "). intros Hm.
  transitivity
    (Regex.search storyPattern
       (String "S"
          ("tory " +:+ num +:+ ":" +:+ ws1 +:+ "Title:" +:+ t
             +:+ "Description:" +:+ d +:+ "Story Points:" +:+ ws3 +:+ ds
             +:+ post))).
  - unfold storyPattern, Regex.seqs.
    by apply (search_skips_to_label "S" "tory ").
  - by apply search_here.
Qed.

(** X26. A story block in the format of the prompt is read back.  In a
    response that has, after a stretch without [Story ], the text
    [Story <digits>:], [Title:<t>], [Description:<d>] and
    [Story Points:<digits>], with white space between the parts as one
    likes, the first story has the trimmed [t] as title, the trimmed [d]
    as description and as points what [parseInt] makes of the digits,
    provided [t] and [d] are not blank, [t] does not contain
    [Description:], [d] does not contain [Story Points:] and no digit
    follows the points; the other stories are those of the text after
    the block.  The points are the number written when the digits are
    the decimal print of a number below 2^53; above, they are the
    nearest double or [Infinity]. *)
Theorem story_block_is_read_back (pre num ws1 t d ws3 ds post : string) :
  Js.includes pre "Story " = false ->
  num <> "" -> Js.allChars Js.isDigit num = true ->
  Js.allChars Js.isWhiteSpace ws1 = true ->
  Js.trim t <> "" -> Js.includes t "Description:" = false ->
  Js.trim d <> "" -> Js.includes d "Story Points:" = false ->
  Js.allChars Js.isWhiteSpace ws3 = true ->
  ds <> "" -> Js.allChars Js.isDigit ds = true ->
  (forall c post', post = String c post' -> Js.isDigit c = false) ->
  parseStories
    (pre +:+ "Story " +:+ num +:+ ":" +:+ ws1 +:+ "Title:" +:+ t
       +:+ "Description:" +:+ d +:+ "Story Points:" +:+ ws3 +:+ ds +:+ post)
  = {| Story.title := Js.trim t;
       Story.description := Js.trim d;
       Story.storyPoints := Js.parseInt ds |} :: parseStories post
  /\
  (forall n : N,
      ds = Js.numberToString n -> (n < 2 ^ 53)%N ->
      parseStories
        (pre +:+ "Story " +:+ num +:+ ":" +:+ ws1 +:+ "Title:" +:+ t
           +:+ "Description:" +:+ d +:+ "Story Points:" +:+ ws3 +:+ ds
           +:+ post)
      = {| Story.title := Js.trim t;
           Story.description := Js.trim d;
           Story.storyPoints := Js.Finite (Z.of_N n) |}
          :: parseStories post).
Proof.
  intros Hpre Hnum Hnumd Hws1 Htne Htinc Hdne Hdinc Hws3 Hds Hdsd Hpost.
  assert (parseStories
            (pre +:+ "Story " +:+ num +:+ ":" +:+ ws1 +:+ "Title:" +:+ t
               +:+ "Description:" +:+ d +:+ "Story Points:" +:+ ws3 +:+ ds
               +:+ post)
          = {| Story.title := Js.trim t;
               Story.description := Js.trim d;
               Story.storyPoints := Js.parseInt ds |} :: parseStories post)
    as Hread.
  { unfold parseStories. rewrite storyMatches_loop.
    rewrite (story_block_search pre num ws1 t d ws3 ds post) by done.
    simpl List.map. unfold group. simpl Regex.capture. simpl from_option.
    by rewrite !trim_idempotent, (trim_digits ds Hdsd). }
  split; [exact Hread|].
  intros n Hn Hlt. rewrite Hread. subst ds.
  by rewrite parseInt_numberToString.
Qed.

End StoryBlocks.

(** * Further instances *)

Section FurtherInstances.
Import TicketCreationModal.

Lemma columns_partition_witness :
  In Sample.ticketY
    (KanbanBoard.getTicketsByStatus (Index.tickets Sample.page) in_progress).
Proof.
  apply (proj2 (proj1 (columns_partition (Index.tickets Sample.page))
                  Sample.ticketY in_progress)).
  split; [simpl; tauto|reflexivity].
Defined.

Lemma invalid_drag_is_ignored_witness :
  Index.dragEnd Sample.page Sample.board
    (Sample.dropOn "TICKET-1730000000000-0" "trash") = Sample.page.
Proof.
  apply (proj1 (invalid_drag_is_ignored Sample.page Sample.board
                  (Sample.dropOn "TICKET-1730000000000-0" "trash"))).
  right. right. exists "trash". split; reflexivity.
Defined.

Lemma sample_page_distinct :
  NoDup (List.map Ticket.id (Index.tickets Sample.page)).
Proof.
  simpl. apply NoDup_cons. split.
  - intros [H|[]]%list_elem_of_In. discriminate H.
  - apply NoDup_singleton.
Qed.

Lemma drag_moves_one_card_witness :
  exists target,
    target <> Ticket.status Sample.ticketX /\
    In (Ticket.withStatus Sample.ticketX target)
       (KanbanBoard.getTicketsByStatus
          [Ticket.withStatus Sample.ticketX done; Sample.ticketY] target) /\
    S (length (KanbanBoard.getTicketsByStatus
                 [Ticket.withStatus Sample.ticketX done; Sample.ticketY]
                 (Ticket.status Sample.ticketX)))
    = length (KanbanBoard.getTicketsByStatus (Index.tickets Sample.page)
                (Ticket.status Sample.ticketX)) /\
    length (KanbanBoard.getTicketsByStatus
              [Ticket.withStatus Sample.ticketX done; Sample.ticketY] target)
    = S (length (KanbanBoard.getTicketsByStatus (Index.tickets Sample.page)
                   target)) /\
    forall s, s <> Ticket.status Sample.ticketX -> s <> target ->
      KanbanBoard.getTicketsByStatus
        [Ticket.withStatus Sample.ticketX done; Sample.ticketY] s
      = KanbanBoard.getTicketsByStatus (Index.tickets Sample.page) s.
Proof.
  apply (drag_moves_one_card Sample.page Sample.board
           (Sample.dropOn "TICKET-1730000000000-0" "column-done")
           [Ticket.withStatus Sample.ticketX done; Sample.ticketY]
           Sample.ticketX).
  - exact sample_page_distinct.
  - reflexivity.
  - reflexivity.
Defined.

Lemma qa_action_changes_status_only_on_success_witness :
  KanbanBoard.ticketsChange
    (KanbanBoard.testStory Sample.down Sample.board
       (Index.tickets Sample.page) Sample.ticketY) = None /\
  Index.testStory Sample.page Sample.down Sample.board Sample.ticketY
    = Sample.page /\
  KanbanBoard.implementationError
    (KanbanBoard.state
       (KanbanBoard.testStory Sample.down Sample.board
          (Index.tickets Sample.page) Sample.ticketY))
    = Some (KanbanBoard.errorMessage Sample.serverError
              "Failed to test story") /\
  KanbanBoard.testingTicketId
    (KanbanBoard.state
       (KanbanBoard.testStory Sample.down Sample.board
          (Index.tickets Sample.page) Sample.ticketY)) = None.
Proof.
  apply (proj1 (qa_action_changes_status_only_on_success Sample.page
                  Sample.down Sample.board Sample.ticketY)
               Sample.serverError).
  reflexivity.
Defined.

Lemma role_actions_chain_witness :
  KanbanBoard.findTicket
    (Index.tickets
       (Index.testStory
          (Index.implementStory Sample.page
             (Sample.answering Sample.epicText "Done.") Sample.board
             Sample.ticketY)
          (Sample.answering Sample.epicText "Done.") Sample.board
          (Ticket.withStatus Sample.ticketY ready_for_testing)))
    (Ticket.id Sample.ticketY)
  = Some (Ticket.withStatus Sample.ticketY done).
Proof.
  apply (role_actions_chain Sample.page
           (Sample.answering Sample.epicText "Done.")
           (Sample.answering Sample.epicText "Done.")
           Sample.board Sample.board Sample.ticketY
           (Sample.respond "Done.") (Sample.respond "Done."));
    reflexivity.
Defined.

Lemma assignTicket_frame_witness :
  exists t',
    KanbanBoard.assignTicket (Index.tickets Sample.page)
      "TICKET-1730000000000-0" qa !! 0 = Some t' /\
    Ticket.id t' = Ticket.id Sample.ticketX /\
    Ticket.title t' = Ticket.title Sample.ticketX /\
    Ticket.description t' = Ticket.description Sample.ticketX /\
    Ticket.status t' = Ticket.status Sample.ticketX /\
    Ticket.priority t' = Ticket.priority Sample.ticketX /\
    Ticket.storyPoints t' = Ticket.storyPoints Sample.ticketX /\
    Ticket.epicId t' = Ticket.epicId Sample.ticketX /\
    (Ticket.id Sample.ticketX = "TICKET-1730000000000-0" ->
     Ticket.assignee t' = qa) /\
    (Ticket.id Sample.ticketX <> "TICKET-1730000000000-0" ->
     t' = Sample.ticketX).
Proof.
  apply (proj2 (assignTicket_frame (Index.tickets Sample.page)
                  "TICKET-1730000000000-0" qa) 0 Sample.ticketX).
  reflexivity.
Defined.

Lemma implement_command_witness :
  Api.message (KanbanBoard.implementRequest Sample.ticketX)
  = "dev implement story " +:+ "EPIC-1730000000000" +:+ "."
      +:+ Ticket.id Sample.ticketX.
Proof.
  apply (proj1 (implement_command Sample.ticketX) 1730000000000%N
           "EPIC-1730000000000").
  - right. exists 0. reflexivity.
  - reflexivity.
Defined.

Lemma manual_creation_witness :
  exists (t : Ticket.t) (epic : Epic.t) (e : Effect),
    createEpicManually (Sample.ticking 1730000090000%N) Sample.manualModal
      = Some e /\
    ticketsCreated e = Some ([t], epic) /\
    Index.tickets
      (Index.createManually Sample.page (Sample.ticking 1730000090000%N)
         Sample.manualModal)
      = Index.tickets Sample.page ++ [t] /\
    Index.epics
      (Index.createManually Sample.page (Sample.ticking 1730000090000%N)
         Sample.manualModal)
      = Index.epics Sample.page ++ [epic] /\
    Index.isTicketCreationOpen
      (Index.createManually Sample.page (Sample.ticking 1730000090000%N)
         Sample.manualModal)
      = false /\
    Ticket.epicId t = Some (Epic.id epic) /\
    Ticket.title t = title (ticketForm Sample.manualModal) /\
    Ticket.description t = title (ticketForm Sample.manualModal) /\
    Epic.title epic = title (ticketForm Sample.manualModal) /\
    Epic.description epic = title (ticketForm Sample.manualModal) /\
    Ticket.status t = backlog /\
    Ticket.assignee t = assignee (ticketForm Sample.manualModal) /\
    Ticket.priority t = priority (ticketForm Sample.manualModal) /\
    Ticket.storyPoints t
      = Some (storyPoints (ticketForm Sample.manualModal)) /\
    messages (state e) = [welcome (Sample.ticking 1730000090000%N 3)] /\
    ticketForm (state e) = initialForm /\
    inputMessage (state e) = "" /\
    showForm (state e) = false.
Proof.
  apply (proj2 (manual_creation Sample.page (Sample.ticking 1730000090000%N)
                  Sample.manualModal)).
  vm_compute. discriminate.
Defined.

Lemma titled_reachable : FormReachable Sample.titled.
Proof.
  apply (reach_event Sample.eightPoints (TitleChange "Export to CSV")).
  - apply (reach_event initialForm (StoryPointsChange "8") reach_initial).
    simpl. tauto.
  - exact I.
Qed.

Lemma eightPoints_reachable : FormReachable Sample.eightPoints.
Proof.
  apply (reach_event initialForm (StoryPointsChange "8") reach_initial).
  simpl. tauto.
Qed.

Lemma manual_ticket_values_witness :
  (Ticket.assignee Sample.manualTicket = dev \/
   Ticket.assignee Sample.manualTicket = qa) /\
  exists points : Z,
    Ticket.storyPoints Sample.manualTicket = Some (Js.Finite points) /\
    In points [1; 2; 3; 5; 8; 13]%Z.
Proof.
  apply (manual_ticket_values (Sample.ticking 1730000090000%N)
           Sample.manualModal Sample.manualRun Sample.manualTicket
           Sample.manualEpic).
  - exact titled_reachable.
  - reflexivity.
  - reflexivity.
Defined.

Lemma sendMessage_appends_witness :
  exists (modal' : State) (mine reply : Message),
    sendMessage (Sample.answering Sample.epicText "Noted.") Sample.printed
      (Sample.ticking 1730000030000%N) Sample.typing = Some modal' /\
    messages modal' = messages Sample.typing ++ [mine; reply] /\
    sender mine = user /\
    content mine = Js.trim (inputMessage Sample.typing) /\
    sender reply = agent /\
    content reply =
      match Sample.answering Sample.epicText "Noted." pm
              (chatRequest Sample.printed (messages Sample.typing)
                 (Js.trim (inputMessage Sample.typing))) with
      | inr response => Api.response response
      | inl _ => sendFailedContent
      end /\
    inputMessage modal' = "" /\
    isLoading modal' = false /\
    ticketForm modal' = ticketForm Sample.typing.
Proof.
  apply (proj2 (sendMessage_appends
                  (Sample.answering Sample.epicText "Noted.") Sample.printed
                  (Sample.ticking 1730000030000%N) Sample.typing)).
  - vm_compute. discriminate.
  - reflexivity.
Defined.

Lemma chat_context_is_bounded_witness :
  sliceLast 8 (messages Sample.modal) = messages Sample.modal.
Proof.
  apply (proj1 (proj2 (proj2 (proj2
           (chat_context_is_bounded Sample.printed (messages Sample.modal)
              "Add single sign-on too"))))).
  simpl. lia.
Defined.

Lemma summary_follows_user_witness :
  conversationSummary (messages Sample.afterSend) =
  match List.filter (fun m => bool_decide (sender m = user))
          (messages Sample.typing) with
  | [] => Js.trim (inputMessage Sample.typing)
  | _ :: _ =>
      conversationSummary (messages Sample.typing) +:+ (nl +:+ nl)
        +:+ Js.trim (inputMessage Sample.typing)
  end.
Proof.
  apply (proj2 (summary_follows_user
                  (Sample.answering Sample.epicText "Noted.") Sample.printed
                  (Sample.ticking 1730000030000%N) Sample.typing
                  Sample.afterSend)).
  vm_compute. reflexivity.
Defined.

Lemma epic_fallbacks_witness :
  epicTitle Sample.titled "I cannot help with that."
  = if Js.isEmpty (title Sample.titled) then "Generated Epic"
    else title Sample.titled.
Proof.
  apply (proj1 (epic_fallbacks Sample.titled "I cannot help with that.")).
  reflexivity.
Defined.

Lemma epic_labelled_response_witness :
  epicTitle Sample.eightPoints
    ("Title:" +:+ " User Login" +:+ nl +:+ "Description:"
       +:+ " Allow users to authenticate.")
  = Js.trim " User Login" /\
  epicDescription
    ("Title:" +:+ " User Login" +:+ nl +:+ "Description:"
       +:+ " Allow users to authenticate.")
  = Js.trim " Allow users to authenticate.".
Proof.
  apply (epic_labelled_response Sample.eightPoints " User Login"
           " Allow users to authenticate.").
  - reflexivity.
  - vm_compute. discriminate.
  - reflexivity.
  - reflexivity.
  - vm_compute. discriminate.
Defined.

Lemma response_without_story_label_witness :
  exists (t : Ticket.t) (epic : Epic.t),
    ticketsCreated
      (generateEpicFromConversation
         (Sample.answering Sample.epicText "Sorry, no breakdown today.")
         (Sample.ticking 1730000060000%N) Sample.modal)
      = Some ([t], epic) /\
    Ticket.title t = Epic.title epic /\
    Ticket.description t = Epic.description epic /\
    Ticket.epicId t = Some (Epic.id epic) /\
    Ticket.storyPoints t
      = Some (match storyPoints (ticketForm Sample.modal) with
              | Js.Finite 0 | Js.NegativeZero | Js.NaN => Js.Finite 5
              | points => points
              end).
Proof.
  apply (response_without_story_label
           (Sample.answering Sample.epicText "Sorry, no breakdown today.")
           (Sample.ticking 1730000060000%N) Sample.modal
           (Sample.respond Sample.epicText)
           (Sample.respond "Sorry, no breakdown today."));
    reflexivity.
Defined.

Lemma tickets_follow_story_blocks_witness :
  exists (newTickets : list Ticket.t) (epic : Epic.t),
    ticketsCreated
      (generateEpicFromConversation
         (Sample.answering Sample.epicText Sample.twoStoriesText)
         (Sample.ticking 1730000060000%N) Sample.modal)
      = Some (newTickets, epic) /\
    length newTickets = S (length [Sample.secondMatch]) /\
    forall (i : nat) (caps : Regex.captures),
      (Sample.firstMatch :: [Sample.secondMatch]) !! i = Some caps ->
      exists t,
        newTickets !! i = Some t /\
        Ticket.title t = Js.trim (group 1 caps) /\
        Ticket.description t = Js.trim (group 2 caps) /\
        Ticket.storyPoints t = Some (Js.parseInt (Js.trim (group 3 caps))) /\
        Ticket.id t
        = "TICKET-"
            +:+ Js.numberToString (Sample.ticking 1730000060000%N (2 + i))
            +:+ "-" +:+ Js.numberToString (N.of_nat i).
Proof.
  apply (tickets_follow_story_blocks
           (Sample.answering Sample.epicText Sample.twoStoriesText)
           (Sample.ticking 1730000060000%N) Sample.modal
           (Sample.respond Sample.epicText)
           (Sample.respond Sample.twoStoriesText)
           Sample.firstMatch [Sample.secondMatch]).
  - reflexivity.
  - reflexivity.
  - vm_compute. reflexivity.
Defined.

Lemma request_outcome_witness :
  fst (ApiService.request Sample.failing "/chat/dev"
         {| ApiService.method := Some "POST";
            ApiService.body := Some "{}";
            ApiService.headers := None |})
  = inl (Api.ErrorObject
           ("API Error: "
              +:+ Js.numberToString (ApiService.status Sample.internalError)
              +:+ " " +:+ ApiService.statusText Sample.internalError)).
Proof.
  apply (proj1 (proj2 (request_outcome Sample.failing "/chat/dev"
                         {| ApiService.method := Some "POST";
                            ApiService.body := Some "{}";
                            ApiService.headers := None |}))
               Sample.internalError).
  - reflexivity.
  - reflexivity.
Defined.

Lemma chatWithRole_single_request_witness :
  ApiService.chatWithRole Sample.failing Sample.messageOnly "dev"
    (KanbanBoard.implementRequest Sample.ticketY)
  = ApiService.chatWithRole Sample.failingDev Sample.messageOnly "dev"
      (KanbanBoard.implementRequest Sample.ticketY).
Proof.
  apply (chatWithRole_single_request Sample.messageOnly Sample.failing
           Sample.failingDev "dev"
           (KanbanBoard.implementRequest Sample.ticketY)).
  reflexivity.
Defined.

Lemma http_error_reaches_the_banner_witness :
  KanbanBoard.implementationError
    (KanbanBoard.state
       (KanbanBoard.implementStory
          (ApiService.service Sample.failingDev Sample.messageOnly)
          Sample.board (Index.tickets Sample.page) Sample.ticketY))
    = Some ("API Error: "
              +:+ Js.numberToString (ApiService.status Sample.internalError)
              +:+ " " +:+ ApiService.statusText Sample.internalError) /\
  KanbanBoard.ticketsChange
    (KanbanBoard.implementStory
       (ApiService.service Sample.failingDev Sample.messageOnly)
       Sample.board (Index.tickets Sample.page) Sample.ticketY) = None /\
  Index.implementStory Sample.page
    (ApiService.service Sample.failingDev Sample.messageOnly)
    Sample.board Sample.ticketY
    = Sample.page /\
  KanbanBoard.errorBanner
    (KanbanBoard.state
       (KanbanBoard.implementStory
          (ApiService.service Sample.failingDev Sample.messageOnly)
          Sample.board (Index.tickets Sample.page) Sample.ticketY))
    = Some ("API Error: "
              +:+ Js.numberToString (ApiService.status Sample.internalError)
              +:+ " " +:+ ApiService.statusText Sample.internalError) /\
  KanbanBoard.console
    (KanbanBoard.implementStory
       (ApiService.service Sample.failingDev Sample.messageOnly)
       Sample.board (Index.tickets Sample.page) Sample.ticketY)
    = [ConsoleError "API request failed for /chat/dev:"
         (Api.ErrorObject
            ("API Error: "
               +:+ Js.numberToString (ApiService.status Sample.internalError)
               +:+ " " +:+ ApiService.statusText Sample.internalError));
       ConsoleError "Story implementation failed:"
         (Api.ErrorObject
            ("API Error: "
               +:+ Js.numberToString (ApiService.status Sample.internalError)
               +:+ " " +:+ ApiService.statusText Sample.internalError))].
Proof.
  apply (http_error_reaches_the_banner Sample.messageOnly Sample.failingDev
           Sample.page Sample.board Sample.ticketY Sample.internalError).
  - reflexivity.
  - reflexivity.
Defined.

Lemma afterRun_reachable : Session.Reachable Sample.afterRun.
Proof.
  apply Session.reach_step; [apply Session.reach_initial|].
  exact eightPoints_reachable.
Qed.

Lemma afterDrag_reachable : Session.Reachable Sample.afterDrag.
Proof.
  apply Session.reach_step; [exact afterRun_reachable|exact I].
Qed.

Lemma session_tickets_well_formed_witness :
  (exists now index,
      Ticket.id Sample.storyOneStarted
      = "TICKET-" +:+ Js.numberToString now +:+ "-"
          +:+ Js.numberToString (N.of_nat index)) /\
  (exists epic,
      In epic (Index.epics (Session.page Sample.afterDrag)) /\
      Ticket.epicId Sample.storyOneStarted = Some (Epic.id epic)) /\
  (Ticket.assignee Sample.storyOneStarted = dev \/
   Ticket.assignee Sample.storyOneStarted = qa) /\
  (exists points, Ticket.storyPoints Sample.storyOneStarted = Some points).
Proof.
  apply (session_tickets_well_formed Sample.afterDrag Sample.storyOneStarted).
  - exact afterDrag_reachable.
  - left. vm_compute. left. reflexivity.
Defined.


Lemma pending_action_drops_new_tickets_witness :
  Session.Reachable
    (Session.step
       (Session.step Sample.afterDrag
          (Session.Generated
             (Sample.answering Sample.epicText Sample.storyText)
             (Sample.ticking 1730000120000%N) Sample.modal))
       (Session.Implemented (Sample.answering Sample.epicText "Done.")
          Sample.board (Index.tickets (Session.page Sample.afterDrag))
          Sample.storyOneStarted)) /\
  fst Sample.thirdRun <> [] /\
  Index.tickets
    (Session.page
       (Session.step Sample.afterDrag
          (Session.Generated
             (Sample.answering Sample.epicText Sample.storyText)
             (Sample.ticking 1730000120000%N) Sample.modal)))
    = Index.tickets (Session.page Sample.afterDrag) ++ fst Sample.thirdRun /\
  Index.tickets
    (Session.page
       (Session.step
          (Session.step Sample.afterDrag
             (Session.Generated
                (Sample.answering Sample.epicText Sample.storyText)
                (Sample.ticking 1730000120000%N) Sample.modal))
          (Session.Implemented (Sample.answering Sample.epicText "Done.")
             Sample.board (Index.tickets (Session.page Sample.afterDrag))
             Sample.storyOneStarted)))
    = KanbanBoard.mapStatus (Index.tickets (Session.page Sample.afterDrag))
        (Ticket.id Sample.storyOneStarted) ready_for_testing /\
  Index.epics
    (Session.page
       (Session.step
          (Session.step Sample.afterDrag
             (Session.Generated
                (Sample.answering Sample.epicText Sample.storyText)
                (Sample.ticking 1730000120000%N) Sample.modal))
          (Session.Implemented (Sample.answering Sample.epicText "Done.")
             Sample.board (Index.tickets (Session.page Sample.afterDrag))
             Sample.storyOneStarted)))
    = Index.epics (Session.page Sample.afterDrag) ++ [snd Sample.thirdRun] /\
  forall t,
    In t
      (Index.tickets
         (Session.page
            (Session.step
               (Session.step Sample.afterDrag
                  (Session.Generated
                     (Sample.answering Sample.epicText Sample.storyText)
                     (Sample.ticking 1730000120000%N) Sample.modal))
               (Session.Implemented
                  (Sample.answering Sample.epicText "Done.")
                  Sample.board
                  (Index.tickets (Session.page Sample.afterDrag))
                  Sample.storyOneStarted)))) ->
    Ticket.epicId t <> Some (Epic.id (snd Sample.thirdRun)).
Proof.
  apply (pending_action_drops_new_tickets Sample.afterDrag
           (Sample.answering Sample.epicText Sample.storyText)
           (Sample.answering Sample.epicText "Done.")
           (Sample.ticking 1730000120000%N) Sample.modal Sample.board
           Sample.storyOneStarted (Sample.respond "Done.")
           (fst Sample.thirdRun) (snd Sample.thirdRun)).
  - exact afterDrag_reachable.
  - vm_compute. left. reflexivity.
  - reflexivity.
  - exact eightPoints_reachable.
  - vm_compute. reflexivity.
  - vm_compute. intros [H|[]]. discriminate H.
  - reflexivity.
Defined.

Lemma story_block_is_read_back_witness :
  parseStories
    (("Here are the stories:" +:+ nl) +:+ "Story " +:+ "1" +:+ ":" +:+ nl
       +:+ "Title:" +:+ (" Email/password login" +:+ nl)
       +:+ "Description:" +:+ (" Users can log in." +:+ nl)
       +:+ "Story Points:" +:+ " " +:+ "5" +:+ "")
  = {| Story.title := Js.trim (" Email/password login" +:+ nl);
       Story.description := Js.trim (" Users can log in." +:+ nl);
       Story.storyPoints := Js.Finite (Z.of_N 5) |} :: parseStories "".
Proof.
  refine (proj2 (story_block_is_read_back ("Here are the stories:" +:+ nl)
                   "1" nl (" Email/password login" +:+ nl)
                   (" Users can log in." +:+ nl) " " "5" ""
                   _ _ _ _ _ _ _ _ _ _ _ _) 5%N _ _);
    [| | | | | | | | | | | |reflexivity|reflexivity].
  - reflexivity.
  - discriminate.
  - reflexivity.
  - reflexivity.
  - vm_compute. discriminate.
  - reflexivity.
  - vm_compute. discriminate.
  - reflexivity.
  - reflexivity.
  - discriminate.
  - reflexivity.
  - intros c post' H. discriminate H.
Defined.

End FurtherInstances.
